(** * rwanda_cares_backend: matching handlers, explainer and project workflow

  A shallow embedding of the controllers of the volunteer/NGO matching
  backend ([src/controllers/aiController.js] and the project controller),
  together with the properties its specification states about them.

  Conventions of the embedding:
  - a JavaScript number is a value of [Js.Number]: [NaN], an infinity, or a
    finite binary64 value, given by the rational it denotes (the two zeros
    are not told apart); an arithmetic operation rounds its exact result to
    the nearest binary64 value, ties to even ([Js.binary64]).  The scores
    and factors the matching service returns are finite numbers and are
    passed as the rationals they denote;
  - integers that the code only counts with (counters, status codes, the
    impact score) are [Z];
  - strings are sequences of bytes: the UTF-8 encoding of the JavaScript
    string;
  - thrown errors are values of [Error]; a handler ends either by sending
    a JSON response or by calling [next] with the error it caught;
  - database tables are finite maps keyed by the record id;
  - collaborators that are not part of the controllers (the AI service,
    the notification service, the upload service) are [Variable]s of the
    sections that use them;
  - the methods of a controller are modelled as called on the controller
    object, so that [this.method(...)] is a call of the sibling method. *)

From Stdlib Require Import ZArith QArith Qround Qabs Qpower Qreduction Lqa String Ascii List Bool Lia.
From stdpp Require Import gmap strings list sorting.

Import ListNotations.
Local Open Scope string_scope.
Local Open Scope list_scope.
Local Open Scope Z_scope.

(** ** JavaScript primitives used by the controllers *)

Module Js.

(** *** Numbers *)

(** A number: [Finite q] is the binary64 value that denotes the rational
    [q]. *)
Inductive Number : Type :=
| NaN
| Finite (q : Q)
| Infinity
| NegInfinity.

(** The exponent [E] with [2 ^ E <= |x| < 2 ^ (E + 1)], for [x] other than
    zero. *)
Definition ilog2 (x : Q) : Z :=
  let d := Z.log2 (Z.abs (Qnum x)) - Z.log2 (Zpos (Qden x)) in
  if Qle_bool (2 ^ d) (Qabs x) then d else d - 1.

(** The integer nearest to [t], the even one of the two at a tie. *)
Definition round_half_even (t : Q) : Z :=
  let f := Qfloor t in
  match (t - inject_Z f ?= 1 # 2)%Q with
  | Lt => f
  | Gt => f + 1
  | Eq => if Z.even f then f else f + 1
  end.

(** The exponent of the last place of the binary64 values around [x]:
    53 significant bits, and [2 ^ -1074] below the normal range. *)
Definition ulp_exponent (x : Q) : Z := Z.max (ilog2 x - 52) (-1074).

(** [x] rounded to 53 significant bits, ties to even, with no bound on the
    exponent from above. *)
Definition nearest (x : Q) : Q :=
  (inject_Z (round_half_even (x / 2 ^ ulp_exponent x)) * 2 ^ ulp_exponent x)%Q.

(** The number for the real [x]: the nearest binary64 value, an infinity
    when that rounding reaches [2 ^ 1024]. *)
Definition binary64 (x : Q) : Number :=
  let v := nearest x in
  if Qle_bool (2 ^ 1024) v then Infinity
  else if Qle_bool v (- 2 ^ 1024) then NegInfinity
  else Finite (Qred v).

(** [x <= y] on numbers. *)
Definition le (x y : Number) : Prop :=
  match x, y with
  | NaN, _ => False
  | _, NaN => False
  | NegInfinity, _ => True
  | _, Infinity => True
  | Finite a, Finite b => (a <= b)%Q
  | _, _ => False
  end.

(** [x < 0] on numbers. *)
Definition negative (x : Number) : bool :=
  match x with
  | Finite q => negb (Qle_bool 0 q)
  | NegInfinity => true
  | _ => false
  end.

(** [ToBoolean] of a number: [NaN] and zero are falsy. *)
Definition ToBoolean (x : Number) : bool :=
  match x with
  | NaN => false
  | Finite q => negb (Qeq_bool q 0)
  | _ => true
  end.

(** Comparison [x > y] on finite numbers. *)
Definition gt (x y : Q) : bool := negb (Qle_bool x y).

(** [Math.round] of a finite number: the nearest integer, halves rounded
    towards +infinity.  The result is a binary64 value whenever [x] is. *)
Definition Math_round (x : Q) : Z := Qfloor (x + (1 # 2))%Q.

(** [Math.min] and [Math.max] on integers. *)
Definition Math_min (a b : Z) : Z := Z.min a b.
Definition Math_max (a b : Z) : Z := Z.max a b.

(** [Array.prototype.push] on an immutable list. *)
Definition push {A : Type} (arr : list A) (x : A) : list A := arr ++ [x].

(** [Array.prototype.join]. *)
Fixpoint join (sep : string) (arr : list string) : string :=
  match arr with
  | [] => ""
  | [x] => x
  | x :: rest => x +:+ sep +:+ join sep rest
  end.

(** [Array.prototype.slice(0, n)] for a non-negative literal [n]. *)
Definition slice0 {A : Type} (n : nat) (arr : list A) : list A := firstn n arr.

(** *** Strings *)

Definition byte (c : ascii) : Z := Z.of_nat (nat_of_ascii c).

(** The white space and line terminators of one byte: TAB, LF, VT, FF, CR
    and SP. *)
Definition is_space (c : ascii) : bool :=
  let n := byte c in
  (n =? 32) || (n =? 9) || (n =? 10) || (n =? 11) || (n =? 12) || (n =? 13).

(** U+00A0 (no-break space). *)
Definition is_space2 (a b : ascii) : bool := (byte a =? 194) && (byte b =? 160).

(** The white space and line terminators of three bytes: U+1680, U+2000 to
    U+200A, U+2028, U+2029, U+202F, U+205F, U+3000 and U+FEFF. *)
Definition is_space3 (a b c : ascii) : bool :=
  let '(x, y, z) := (byte a, byte b, byte c) in
  ((x =? 225) && (y =? 154) && (z =? 128))
  || ((x =? 226) && (y =? 128)
      && (((128 <=? z) && (z <=? 138)) || (z =? 168) || (z =? 169) || (z =? 175)))
  || ((x =? 226) && (y =? 129) && (z =? 159))
  || ((x =? 227) && (y =? 128) && (z =? 128))
  || ((x =? 239) && (y =? 187) && (z =? 191)).

(** [String.prototype.trimStart]: the leading white space and line
    terminators are removed. *)
Fixpoint trimStart (s : string) : string :=
  match s with
  | String a r1 =>
      if is_space a then trimStart r1
      else
        match r1 with
        | String b r2 =>
            if is_space2 a b then trimStart r2
            else
              match r2 with
              | String c r3 => if is_space3 a b c then trimStart r3 else s
              | EmptyString => s
              end
        | EmptyString => s
        end
  | EmptyString => s
  end.

(** Value of a digit in radix up to 36. *)
Definition digit_value (c : ascii) : option Z :=
  let n := Z.of_nat (nat_of_ascii c) in
  if (48 <=? n) && (n <=? 57) then Some (n - 48)
  else if (97 <=? n) && (n <=? 122) then Some (n - 87)
  else if (65 <=? n) && (n <=? 90) then Some (n - 55)
  else None.

(** The longest prefix of digits of the radix; [None] when it is empty. *)
Fixpoint digits (radix : Z) (s : string) (acc : option Z) : option Z :=
  match s with
  | EmptyString => acc
  | String c rest =>
      match digit_value c with
      | Some d =>
          if d <? radix
          then digits radix rest
                 (Some (match acc with Some a => a * radix + d | None => d end))
          else acc
      | None => acc
      end
  end.

(** [parseInt(s)] with no radix argument.  An absent query parameter
    ([undefined]) is converted to the text "undefined"; the integer the
    digits denote is rounded to a number. *)
Definition parseInt (arg : option string) : Number :=
  let s := trimStart (match arg with Some s => s | None => "undefined" end) in
  let '(sign, s) :=
    match s with
    | String "-" rest => (-1, rest)
    | String "+" rest => (1, rest)
    | _ => (1, s)
    end in
  let '(radix, s) :=
    match s with
    | String "0" (String "x" rest) => (16, rest)
    | String "0" (String "X" rest) => (16, rest)
    | _ => (10, s)
    end in
  match digits radix s None with
  | Some n => binary64 (inject_Z (sign * n))
  | None => NaN
  end.

(** [n || d] for a number [n]. *)
Definition or_default (n d : Number) : Number := if ToBoolean n then n else d.

(** ASCII part of [String.prototype.toLowerCase]. *)
Definition lower_ascii (c : ascii) : ascii :=
  let n := nat_of_ascii c in
  if ((65 <=? n) && (n <=? 90))%nat then ascii_of_nat (n + 32) else c.

Fixpoint toLowerCase (s : string) : string :=
  match s with
  | EmptyString => EmptyString
  | String c rest => String (lower_ascii c) (toLowerCase rest)
  end.

(** [Array.prototype.includes] on strings. *)
Definition includes (arr : list string) (x : string) : bool :=
  existsb (String.eqb x) arr.

End Js.

(** ** Errors and handler outcomes *)

(** [AppError(message, statusCode)] is the error class the controllers
    throw; [OtherError] stands for any other thrown value (a rejected
    promise of a collaborator, a [TypeError], ...). *)
Inductive Error : Type :=
| AppError (message : string) (statusCode : Z)
| OtherError (detail : string).

(** The specification's error taxonomy, read off the status code. *)
Inductive ErrorKind : Type := NotFoundError | ValidationError | ForbiddenError | UpstreamError.

Definition error_kind (e : Error) : ErrorKind :=
  match e with
  | AppError _ 404 => NotFoundError
  | AppError _ 400 => ValidationError
  | AppError _ 403 => ForbiddenError
  | _ => UpstreamError
  end.

Inductive Result (A : Type) : Type :=
| Ok (a : A)
| Throw (e : Error).
Arguments Ok {A} a.
Arguments Throw {A} e.

(** What a handler does with [res] and [next]: it sends one JSON body with
    a status, or forwards the caught error. *)
Inductive Outcome (B : Type) : Type :=
| Json (status : Z) (body : B)
| Next (e : Error).
Arguments Json {B} status body.
Arguments Next {B} e.

(** ** Data model *)

Record MatchFactors : Type := mkFactors {
  skills : Q;
  location : Q;
  interests : Q;
  availability : Q;
  experience : Q
}.

Record User : Type := mkUser {
  user_id : string;
  role : string
}.

Record ProjectRow : Type := mkProject {
  id : string;
  title : string;
  category : string;
  status : string;
  createdAt : Z;
  creatorId : string;
  volunteersNeeded : Z;
  volunteersApplied : Z;
  estimatedHours : option Z;
  images : list string
}.

Record VolunteerProfile : Type := mkVolunteer {
  userId : string;
  volunteer_status : string;
  totalHours : Z
}.

(** An element of the result of [aiService.findMatches]. *)
Record Match : Type := mkMatch {
  match_project : ProjectRow;
  match_score : Q;
  match_factors : MatchFactors
}.

(** An element of the result of [aiService.recommendVolunteers]. *)
Record Recommendation : Type := mkRecommendation {
  rec_volunteer : VolunteerProfile;
  rec_score : Q;
  rec_factors : MatchFactors
}.

Record ProjectSkill : Type := mkProjectSkill {
  skillId : string;
  requiredLevel : string;
  isRequired : bool
}.

Record Application : Type := mkApplication {
  application_id : string;
  volunteerId : string;
  projectId : string;
  application_status : string;
  reviewedAt : option string
}.

(** A project loaded with [include: { requiredSkills, applications }]. *)
Record ProjectWithRelations : Type := mkProjectWithRelations {
  project_row : ProjectRow;
  requiredSkills : list ProjectSkill;
  applications : list Application
}.

(** The tables the controllers read and write through the ORM client. *)
Record DB : Type := mkDB {
  volunteerProfile_table : gmap string VolunteerProfile;
  project_table : gmap string ProjectRow;
  application_table : gmap string Application
}.

(** The parts of an Express request the handlers read. *)
Record Request : Type := mkRequest {
  req_user : User;
  query_limit : option string;
  params_projectId : string;
  params_applicationId : string;
  req_body : list (string * string);
  req_files : option (list string)
}.

(** ** aiController.js *)

Module AIController.

Import Js.

(** The [matchFactors] object of a response entry. *)
Record MatchFactorsView : Type := mkFactorsView {
  view_skills : Number;
  view_location : Number;
  view_interests : Number;
  view_availability : Number;
  view_experience : Number
}.

(** An entry of the [matches] array of a response.  [pm_project] stands for
    the project snapshot, whose display fields the handler copies one by
    one from [match.project]. *)
Record ProcessedMatch : Type := mkProcessedMatch {
  pm_project : ProjectRow;
  pm_matchScore : Number;
  pm_matchFactors : MatchFactorsView;
  pm_recommendationReason : string
}.

Record MatchesBody : Type := mkMatchesBody {
  matches : list ProcessedMatch;
  totalMatches : nat;
  matches_generatedAt : string;
  matches_volunteerId : string
}.

(** An entry of the [recommendations] array; [pr_volunteer] stands for the
    volunteer snapshot copied from [rec.volunteer]. *)
Record ProcessedRecommendation : Type := mkProcessedRecommendation {
  pr_volunteer : VolunteerProfile;
  pr_matchScore : Number;
  pr_matchFactors : MatchFactorsView;
  pr_recommendationReason : string
}.

Record RecommendationsBody : Type := mkRecommendationsBody {
  recommendations : list ProcessedRecommendation;
  meta_projectId : string;
  meta_projectTitle : string;
  totalRecommendations : nat;
  recommendations_generatedAt : string
}.

(** [Math.round(x * 100) / 100] for a finite number [x]: the product and
    the quotient are rounded to numbers; [Math.round] and the division keep
    an infinity. *)
Definition round_hundredths (x : Q) : Number :=
  match binary64 (x * 100) with
  | Finite y => binary64 (inject_Z (Math_round y) / 100)
  | other => other
  end.

Definition roundFactors (factors : MatchFactors) : MatchFactorsView :=
  {| view_skills := round_hundredths (skills factors);
     view_location := round_hundredths (location factors);
     view_interests := round_hundredths (interests factors);
     view_availability := round_hundredths (availability factors);
     view_experience := round_hundredths (experience factors) |}.

Definition generateVolunteerRecommendationReason (recommendation : Recommendation) : string :=
  let factors := rec_factors recommendation in
  let reasons : list string := [] in
  let reasons :=
    if gt (skills factors) 15 then push reasons "Has required skills" else reasons in
  let reasons :=
    if gt (location factors) 20 then push reasons "Located nearby" else reasons in
  let reasons :=
    if gt (experience factors) 8 then push reasons "Experienced volunteer" else reasons in
  let reasons :=
    if gt (availability factors) 12 then push reasons "Available for commitment" else reasons in
  if (0 <? length reasons)%nat then join ", " reasons else "Well-matched volunteer".

(** The thresholds and phrases of [generateVolunteerRecommendationReason] as
    a table: a factor the function does not examine has no rule. *)
Inductive Factor : Type := Skills | Location | Interests | Availability | Experience.

Definition factor_value (f : MatchFactors) (k : Factor) : Q :=
  match k with
  | Skills => skills f
  | Location => location f
  | Interests => interests f
  | Availability => availability f
  | Experience => experience f
  end.

Definition reason_rule (k : Factor) : option (Q * string) :=
  match k with
  | Skills => Some (15%Q, "Has required skills")
  | Location => Some (20%Q, "Located nearby")
  | Interests => None
  | Availability => Some (12%Q, "Available for commitment")
  | Experience => Some (8%Q, "Experienced volunteer")
  end.

Definition triggered_phrase (f : MatchFactors) (k : Factor) : list string :=
  match reason_rule k with
  | Some (threshold, phrase) => if gt (factor_value f k) threshold then [phrase] else []
  | None => []
  end.

(** The explainer that visits the factors in a given order. *)
Definition explain_in_order (order : list Factor) (f : MatchFactors) : string :=
  match flat_map (triggered_phrase f) order with
  | [] => "Well-matched volunteer"
  | reasons => join ", " reasons
  end.

(** The factor order the specification states. *)
Definition spec_factor_order : list Factor :=
  [Skills; Location; Interests; Availability; Experience].

(** The factor order of the source. *)
Definition source_factor_order : list Factor :=
  [Skills; Location; Experience; Availability].

(** [y] is [x] rounded to the grid of step [1 / scale], as far as numbers
    allow: [y] is the number for a multiple [k / scale] of the step, which is
    within half a step of [x] up to the rounding error of one operation; a
    finite [x] of very large magnitude may come back as an infinity. *)
Definition rounded_to (scale : positive) (x : Q) (y : Number) : Prop :=
  (exists k : Z,
      y = binary64 (inject_Z k / inject_Z (Zpos scale))
      /\ (Qabs (inject_Z k / inject_Z (Zpos scale) - x)
          <= (1 # (2 * scale)) + (Qabs x + 1) * 2 ^ (-53))%Q)
  \/ ((2 ^ 1016 <= Qabs x)%Q /\ (y = Infinity \/ y = NegInfinity)).

Definition factors_rounded_to (scale : positive) (f : MatchFactors) (v : MatchFactorsView)
  : Prop :=
  rounded_to scale (skills f) (view_skills v)
  /\ rounded_to scale (location f) (view_location v)
  /\ rounded_to scale (interests f) (view_interests v)
  /\ rounded_to scale (availability f) (view_availability v)
  /\ rounded_to scale (experience f) (view_experience v).

(** A response entry carries the rounding of the service's scores. *)
Definition match_rounded (scale : positive) (m : Match) (pm : ProcessedMatch) : Prop :=
  rounded_to scale (match_score m) (pm_matchScore pm)
  /\ factors_rounded_to scale (match_factors m) (pm_matchFactors pm).

Definition recommendation_rounded (scale : positive) (r : Recommendation)
  (pr : ProcessedRecommendation) : Prop :=
  rounded_to scale (rec_score r) (pr_matchScore pr)
  /\ factors_rounded_to scale (rec_factors r) (pr_matchFactors pr).

Section Handlers.

(** [aiService.findMatches] and [aiService.recommendVolunteers]. *)
Variable aiService_findMatches : DB -> string -> Number -> Result (list Match).
Variable aiService_recommendVolunteers :
  DB -> string -> Number -> Result (list Recommendation).
(** [generateRecommendationReason] of [utils/helpers]. *)
Variable generateRecommendationReason : Match -> string.
(** [new Date().toISOString()] at the time of the request. *)
Variable now : string.

Definition processMatch (m : Match) : ProcessedMatch :=
  {| pm_project := match_project m;
     pm_matchScore := round_hundredths (match_score m);
     pm_matchFactors := roundFactors (match_factors m);
     pm_recommendationReason := generateRecommendationReason m |}.

Definition getMatches (db : DB) (req : Request) : Outcome MatchesBody :=
  if negb (String.eqb (role (req_user req)) "VOLUNTEER")
  then Next (AppError "Only volunteers can access matches" 403)
  else
    let limit := or_default (parseInt (query_limit req)) (Finite 10) in
    let volunteerId := user_id (req_user req) in
    match volunteerProfile_table db !! volunteerId with
    | None =>
        Next (AppError "Volunteer profile not found. Please complete your profile first." 404)
    | Some volunteerProfile =>
        match aiService_findMatches db volunteerId limit with
        | Throw error => Next error
        | Ok found =>
            Json 200
              {| matches := map processMatch found;
                 totalMatches := length found;
                 matches_generatedAt := now;
                 matches_volunteerId := volunteerId |}
        end
    end.

Definition processRecommendation (rec : Recommendation) : ProcessedRecommendation :=
  {| pr_volunteer := rec_volunteer rec;
     pr_matchScore := round_hundredths (rec_score rec);
     pr_matchFactors := roundFactors (rec_factors rec);
     pr_recommendationReason := generateVolunteerRecommendationReason rec |}.

Definition recommendVolunteers (db : DB) (req : Request) : Outcome RecommendationsBody :=
  if negb (includes ["NGO"; "GOVERNMENT"; "ADMIN"] (role (req_user req)))
  then Next (AppError "Only organizations can access volunteer recommendations" 403)
  else
    let projectId := params_projectId req in
    let limit := or_default (parseInt (query_limit req)) (Finite 10) in
    match project_table db !! projectId with
    | None => Next (AppError "Project not found" 404)
    | Some project =>
        if negb (String.eqb (creatorId project) (user_id (req_user req)))
           && negb (String.eqb (role (req_user req)) "ADMIN")
        then Next (AppError
                     "Access denied. You can only get recommendations for your own projects."
                     403)
        else
          match aiService_recommendVolunteers db projectId limit with
          | Throw error => Next error
          | Ok found =>
              Json 200
                {| recommendations := map processRecommendation found;
                   meta_projectId := projectId;
                   meta_projectTitle := title project;
                   totalRecommendations := length found;
                   recommendations_generatedAt := now |}
          end
    end.

End Handlers.

(** *** Impact prediction *)

Record ImpactFactors : Type := mkImpactFactors {
  projectSize : Z;
  duration : option Z;
  complexity : nat;
  popularity : Q;
  impact_category : string
}.

Record ImpactPrediction : Type := mkImpactPrediction {
  impactScore : Z;
  impact_factors : ImpactFactors;
  prediction : string;
  impact_recommendations : list string
}.

Definition generateImpactRecommendations (project : ProjectWithRelations) (score : Z)
  : list string :=
  let recommendations : list string := [] in
  let recommendations :=
    if score <? 50
    then push (push recommendations "Consider adding more detailed project description")
              "Clarify the expected outcomes and impact"
    else recommendations in
  let recommendations :=
    if volunteersApplied (project_row project) =? 0
    then push (push recommendations "Promote the project through social media")
              "Reach out to volunteers with relevant skills"
    else recommendations in
  let recommendations :=
    if (length (requiredSkills project) =? 0)%nat
    then push recommendations "Specify required skills to attract suitable volunteers"
    else recommendations in
  recommendations.

(** [project.applications.length / project.volunteersNeeded], or 0. *)
Definition applicationRate (project : ProjectWithRelations) : Q :=
  if 0 <? volunteersNeeded (project_row project)
  then (inject_Z (Z.of_nat (length (applications project)))
        / inject_Z (volunteersNeeded (project_row project)))%Q
  else 0%Q.

Definition highImpactCategories : list string :=
  ["education"; "healthcare"; "environment"; "poverty"].

(** The local variable [impactScore] of [calculateImpactPrediction] as it
    stands when the result object is built. *)
Definition accumulatedImpactScore (project : ProjectWithRelations) : Z :=
  let impactScore := 50 in
  let impactScore :=
    if 10 <? volunteersNeeded (project_row project) then impactScore + 15 else impactScore in
  let impactScore :=
    match estimatedHours (project_row project) with
    | Some hours => if 40 <? hours then impactScore + 10 else impactScore
    | None => impactScore
    end in
  let impactScore :=
    if (3 <? length (requiredSkills project))%nat then impactScore + 5 else impactScore in
  let impactScore :=
    if gt (applicationRate project) (8 # 10) then impactScore + 10
    else if gt (applicationRate project) (5 # 10) then impactScore + 5
    else impactScore in
  let impactScore :=
    if includes highImpactCategories (toLowerCase (category (project_row project)))
    then impactScore + 10 else impactScore in
  impactScore.

Definition calculateImpactPrediction (project : ProjectWithRelations) : ImpactPrediction :=
  let impactScore := accumulatedImpactScore project in
  {| impactScore := Math_min 100 (Math_max 0 impactScore);
     impact_factors :=
       {| projectSize := volunteersNeeded (project_row project);
          duration := estimatedHours (project_row project);
          complexity := length (requiredSkills project);
          popularity := applicationRate project;
          impact_category := category (project_row project) |};
     prediction :=
       if 75 <? impactScore then "HIGH"
       else if 50 <? impactScore then "MEDIUM"
       else "LOW";
     impact_recommendations := generateImpactRecommendations project impactScore |}.

(** The request with its [limit] query parameter replaced. *)
Definition with_limit (req : Request) (limit : option string) : Request :=
  {| req_user := req_user req;
     query_limit := limit;
     params_projectId := params_projectId req;
     params_applicationId := params_applicationId req;
     req_body := req_body req;
     req_files := req_files req |}.

End AIController.

(** ** The project controller *)

Module ProjectController.

Import Js.

Record NotificationData : Type := mkNotificationData {
  data_projectId : string;
  data_applicationId : option string;
  data_matchScore : option Z
}.

(** The argument of [sendNotification]. *)
Record Notification : Type := mkNotification {
  n_userId : string;
  n_type : string;
  n_title : string;
  n_message : string;
  n_data : NotificationData
}.

(** Calls that leave the controller, in the order they are made. *)
Inductive Event : Type :=
| RecommendVolunteersCalled (projectId : string) (limit : Z)
| SendNotificationCalled (n : Notification)
| ConsoleError (label : string) (error : Error).

Record ResponseBody : Type := mkResponseBody {
  body_message : string;
  body_data : option ProjectRow
}.

Definition dquote : string := String (ascii_of_nat 34) EmptyString.

Section Controller.

(** State of the collaborators the controller calls but does not own. *)
Context {W : Type}.

Record State : Type := mkState {
  db : DB;
  world : W;
  trace : list Event
}.

(** [aiService.recommendVolunteers(projectId, limit)]. *)
Variable aiService_recommendVolunteers :
  DB -> string -> Z -> W -> Result (list Recommendation) * W.
(** [sendNotification(notification)]. *)
Variable notificationService_sendNotification : Notification -> W -> Result unit * W.
(** [uploadImages(files, folder)]. *)
Variable uploadService_uploadImages : list string -> string -> W -> Result (list string) * W.
(** The row [prisma.project.create] builds from the request, or its failure. *)
Variable prisma_project_create : Request -> DB -> W -> Result ProjectRow * W.

(** Computations that read and write the state and may throw. *)
Definition M (A : Type) : Type := State -> Result A * State.

Definition ret {A : Type} (a : A) : M A := fun s => (Ok a, s).

Definition throw {A : Type} (e : Error) : M A := fun s => (Throw e, s).

Definition bind {A B : Type} (m : M A) (k : A -> M B) : M B :=
  fun s =>
    match m s with
    | (Ok a, s') => k a s'
    | (Throw e, s') => (Throw e, s')
    end.

(** [try { body } catch (error) { handler }]. *)
Definition try_catch {A : Type} (body : M A) (handler : Error -> M A) : M A :=
  fun s =>
    match body s with
    | (Ok a, s') => (Ok a, s')
    | (Throw e, s') => handler e s'
    end.

(** [for (const x of xs) { await f(x) }]. *)
Fixpoint for_of {A : Type} (xs : list A) (f : A -> M unit) : M unit :=
  match xs with
  | [] => ret tt
  | x :: rest => bind (f x) (fun _ => for_of rest f)
  end.

(** A handler body wrapped in [try { ... res.status(c).json(b) } catch (error)
    { next(error) }]. *)
Definition handler {B : Type} (body : M (Z * B)) : State -> Outcome B * State :=
  fun s =>
    match body s with
    | (Ok (code, b), s') => (Json code b, s')
    | (Throw error, s') => (Next error, s')
    end.

Definition log_event (ev : Event) (s : State) : State :=
  {| db := db s; world := world s; trace := trace s ++ [ev] |}.

Definition recommendVolunteers (projectId : string) (limit : Z) : M (list Recommendation) :=
  fun s =>
    let '(r, w) := aiService_recommendVolunteers (db s) projectId limit (world s) in
    (r, {| db := db s; world := w;
           trace := trace s ++ [RecommendVolunteersCalled projectId limit] |}).

Definition sendNotification (n : Notification) : M unit :=
  fun s =>
    let '(r, w) := notificationService_sendNotification n (world s) in
    (r, {| db := db s; world := w; trace := trace s ++ [SendNotificationCalled n] |}).

Definition uploadImages (files : list string) (folder : string) : M (list string) :=
  fun s =>
    let '(r, w) := uploadService_uploadImages files folder (world s) in
    (r, {| db := db s; world := w; trace := trace s |}).

Definition console_error (label : string) (error : Error) : M unit :=
  fun s => (Ok tt, log_event (ConsoleError label error) s).

(** *** Database calls *)

(** [prisma.application.findUnique({ where: { id }, include: { project: true } })]:
    the application together with the project row it references. *)
Definition application_findUnique (applicationId : string)
  : M (option (Application * option ProjectRow)) :=
  fun s =>
    (Ok (match application_table (db s) !! applicationId with
         | Some application =>
             Some (application, project_table (db s) !! projectId application)
         | None => None
         end), s).

(** [prisma.application.delete({ where: { id } })], on a database that
    carries out the writes it is asked for: the call is rejected only when
    the row does not exist. *)
Definition application_delete (applicationId : string) : M unit :=
  fun s =>
    match application_table (db s) !! applicationId with
    | None => (Throw (OtherError "Record to delete does not exist."), s)
    | Some _ =>
        (Ok tt,
         {| db := {| volunteerProfile_table := volunteerProfile_table (db s);
                     project_table := project_table (db s);
                     application_table := delete applicationId (application_table (db s)) |};
            world := world s; trace := trace s |})
    end.

(** [prisma.project.update({ where: { id }, data })], likewise: rejected
    only when the row does not exist. *)
Definition project_update (projectId : string) (f : ProjectRow -> ProjectRow) : M ProjectRow :=
  fun s =>
    match project_table (db s) !! projectId with
    | None => (Throw (OtherError "Record to update not found."), s)
    | Some row =>
        (Ok (f row),
         {| db := {| volunteerProfile_table := volunteerProfile_table (db s);
                     project_table := <[projectId := f row]> (project_table (db s));
                     application_table := application_table (db s) |};
            world := world s; trace := trace s |})
    end.

Definition decrement_volunteersApplied (p : ProjectRow) : ProjectRow :=
  {| id := id p; title := title p; category := category p; status := status p;
     createdAt := createdAt p; creatorId := creatorId p;
     volunteersNeeded := volunteersNeeded p;
     volunteersApplied := volunteersApplied p - 1;
     estimatedHours := estimatedHours p; images := images p |}.

Definition set_images (imageUrls : list string) (p : ProjectRow) : ProjectRow :=
  {| id := id p; title := title p; category := category p; status := status p;
     createdAt := createdAt p; creatorId := creatorId p;
     volunteersNeeded := volunteersNeeded p;
     volunteersApplied := volunteersApplied p;
     estimatedHours := estimatedHours p; images := imageUrls |}.

Definition project_create (req : Request) : M ProjectRow :=
  fun s =>
    match prisma_project_create req (db s) (world s) with
    | (Ok row, w) =>
        (Ok row,
         {| db := {| volunteerProfile_table := volunteerProfile_table (db s);
                     project_table := <[id row := row]> (project_table (db s));
                     application_table := application_table (db s) |};
            world := w; trace := trace s |})
    | (Throw e, w) => (Throw e, {| db := db s; world := w; trace := trace s |})
    end.

(** *** withdrawApplication *)

Definition withdrawApplication (req : Request) : State -> Outcome ResponseBody * State :=
  handler
    (let applicationId := params_applicationId req in
     let volunteerId_ := user_id (req_user req) in
     if negb (String.eqb (role (req_user req)) "VOLUNTEER")
     then throw (AppError "Only volunteers can withdraw applications" 403)
     else
       bind (application_findUnique applicationId) (fun found =>
       match found with
       | None => throw (AppError "Application not found" 404)
       | Some (application, application_project) =>
           if negb (String.eqb (volunteerId application) volunteerId_)
           then throw (AppError "Access denied" 403)
           else if String.eqb (application_status application) "ACCEPTED"
           then throw (AppError
                  "Cannot withdraw an accepted application. Please contact the organization."
                  400)
           else
             bind (application_delete applicationId) (fun _ =>
             bind (project_update (projectId application) decrement_volunteersApplied)
               (fun _ =>
             match application_project with
             | None => throw (OtherError "TypeError: Cannot read properties of null")
             | Some project =>
                 bind (sendNotification
                         {| n_userId := creatorId project;
                            n_type := "APPLICATION_WITHDRAWN";
                            n_title := "Application Withdrawn";
                            n_message :=
                              "A volunteer has withdrawn their application for "
                              +:+ dquote +:+ title project +:+ dquote;
                            n_data :=
                              {| data_projectId := projectId application;
                                 data_applicationId := Some applicationId;
                                 data_matchScore := None |} |})
                   (fun _ =>
                 ret (200,
                      {| body_message := "Application withdrawn successfully";
                         body_data := None |}))
             end))
       end)).

(** *** notifyRelevantVolunteers *)

Definition projectMatchNotification (project : ProjectRow) (m : Recommendation)
  : Notification :=
  {| n_userId := userId (rec_volunteer m);
     n_type := "NEW_PROJECT_MATCH";
     n_title := "New Project Match!";
     n_message :=
       "A new project " +:+ dquote +:+ title project +:+ dquote
       +:+ " matches your skills and interests!";
     n_data :=
       {| data_projectId := id project;
          data_applicationId := None;
          data_matchScore := Some (Math_round (rec_score m)) |} |}.

(** The [try] block of [notifyRelevantVolunteers]. *)
Definition notifyRelevantVolunteers_try (project : ProjectRow) : M unit :=
  bind (recommendVolunteers (id project) 20) (fun potentialVolunteers =>
  let topMatches := slice0 5 potentialVolunteers in
  for_of topMatches (fun m => sendNotification (projectMatchNotification project m))).

Definition notifyRelevantVolunteers (project : ProjectRow) : M unit :=
  try_catch
    (notifyRelevantVolunteers_try project)
    (fun error => console_error "Error notifying volunteers:" error).

(** *** createProject *)

(** The block [if (req.files && req.files.length > 0) { ... }]: the project
    as it stands after it. *)
Definition attachImages (req : Request) (project : ProjectRow) : M ProjectRow :=
  match req_files req with
  | Some ((_ :: _) as files) =>
      bind (uploadImages files "projects") (fun imageUrls =>
      bind (project_update (id project) (set_images imageUrls)) (fun _ =>
      ret (set_images imageUrls project)))
  | _ => ret project
  end.

Definition createProject (req : Request) : State -> Outcome ResponseBody * State :=
  handler
    (bind (project_create req) (fun project =>
     bind (attachImages req project) (fun project =>
     bind (notifyRelevantVolunteers project) (fun _ =>
     ret (201,
          {| body_message := "Project created successfully";
             body_data := Some project |}))))).

End Controller.

End ProjectController.

(** ** The matching service

    [services/aiService.js] is not among the sources of the repository;
    the controllers only call it.  The definitions of this module follow
    the specification's description of the Scoring Engine and the Matcher. *)

Module AIService.

Import Js.

(** Modelled from the spec: the aggregate score of a [MatchResult], which
    [aiService] computes, is the sum of the five factors. *)
Definition aggregate (f : MatchFactors) : Q :=
  (skills f + location f + interests f + availability f + experience f)%Q.

(** Modelled from the spec: the per-factor maximum weights of [aiService]. *)
Record Weights : Type := mkWeights {
  w_skills : Q;
  w_location : Q;
  w_interests : Q;
  w_availability : Q;
  w_experience : Q
}.

Definition within (lo hi x : Q) : bool := Qle_bool lo x && Qle_bool x hi.

(** Modelled from the spec: the weights of [aiService] sum to 100. *)
Definition weights_sum_to_100 (w : Weights) : bool :=
  Qeq_bool (w_skills w + w_location w + w_interests w + w_availability w + w_experience w) 100.

(** Modelled from the spec: a well-formed [MatchFactors] of [aiService] has
    every factor in [[0, weight_i]], the weights summing to 100. *)
Definition well_formed (w : Weights) (f : MatchFactors) : bool :=
  weights_sum_to_100 w
  && within 0 (w_skills w) (skills f)
  && within 0 (w_location w) (location f)
  && within 0 (w_interests w) (interests f)
  && within 0 (w_availability w) (availability f)
  && within 0 (w_experience w) (experience f).

Section Matcher.

(** The Scoring Engine, [score(volunteer, project) -> MatchFactors]. *)
Variable score : VolunteerProfile -> ProjectRow -> MatchFactors.

Definition is_active (p : ProjectRow) : bool := String.eqb (status p) "ACTIVE".

Definition is_available (v : VolunteerProfile) : bool :=
  String.eqb (volunteer_status v) "AVAILABLE".

Definition match_for (v : VolunteerProfile) (p : ProjectRow) : Match :=
  {| match_project := p;
     match_score := aggregate (score v p);
     match_factors := score v p |}.

Definition recommendation_for (p : ProjectRow) (v : VolunteerProfile) : Recommendation :=
  {| rec_volunteer := v;
     rec_score := aggregate (score v p);
     rec_factors := score v p |}.

(** Descending aggregate score, ties by most recent creation time. *)
Definition ranks_before_b (a b : Match) : bool :=
  gt (match_score a) (match_score b)
  || (Qeq_bool (match_score a) (match_score b)
      && (createdAt (match_project b) <=? createdAt (match_project a))).

Definition ranks_before (a b : Match) : Prop := ranks_before_b a b = true.

#[local] Instance ranks_before_dec : RelDecision ranks_before :=
  fun a b => decide (ranks_before_b a b = true).

Definition higher_score (a b : Recommendation) : Prop :=
  Qle_bool (rec_score b) (rec_score a) = true.

#[local] Instance higher_score_dec : RelDecision higher_score :=
  fun a b => decide (Qle_bool (rec_score b) (rec_score a) = true).

(** The candidate store's "list projects" read. *)
Definition list_projects (db : DB) : list ProjectRow :=
  map snd (map_to_list (project_table db)).

Definition list_volunteers (db : DB) : list VolunteerProfile :=
  map snd (map_to_list (volunteerProfile_table db)).

(** Modelled from the spec: the candidate projects of [aiService], filtered
    to ACTIVE status and scored for the volunteer. *)
Definition qualifying (db : DB) (v : VolunteerProfile) : list Match :=
  map (match_for v) (List.filter is_active (list_projects db)).

(** Modelled from the spec: [findMatchesForVolunteer(volunteerId, limit)] of
    [aiService]: candidate projects filtered to ACTIVE status, scored, sorted
    descending by aggregate score with ties by most recent creation time,
    truncated to [limit]; [ValidationError] for a non-positive limit and
    [NotFoundError] for an absent volunteer profile. *)
Definition findMatchesForVolunteer (db : DB) (volunteerId : string) (limit : Z)
  : Result (list Match) :=
  if limit <=? 0 then Throw (AppError "limit must be positive" 400)
  else
    match volunteerProfile_table db !! volunteerId with
    | None => Throw (AppError "Volunteer profile not found" 404)
    | Some v =>
        Ok (firstn (Z.to_nat limit) (merge_sort ranks_before (qualifying db v)))
    end.

(** Modelled from the spec: [recommendVolunteersForProject(projectId, limit)]
    of [aiService], the symmetric operation over volunteers filtered to the
    available status. *)
Definition recommendVolunteersForProject (db : DB) (projectId : string) (limit : Z)
  : Result (list Recommendation) :=
  if limit <=? 0 then Throw (AppError "limit must be positive" 400)
  else
    match project_table db !! projectId with
    | None => Throw (AppError "Project not found" 404)
    | Some p =>
        Ok (firstn (Z.to_nat limit)
              (merge_sort higher_score
                 (map (recommendation_for p) (List.filter is_available (list_volunteers db)))))
    end.

(** Modelled from the spec: the limit of the Matcher is a positive integer;
    a number that is not an integer is a malformed limit. *)
Definition integer_limit (limit : Number) : option Z :=
  match limit with
  | Finite q => if Qeq_bool (inject_Z (Qfloor q)) q then Some (Qfloor q) else None
  | _ => None
  end.

(** Modelled from the spec: [findMatches(volunteerId, limit)] of [aiService]
    as the controller calls it, with a number for the limit: a malformed
    limit is a [ValidationError], an integer limit is the limit of
    [findMatchesForVolunteer]. *)
Definition findMatches (db : DB) (volunteerId : string) (limit : Number)
  : Result (list Match) :=
  match integer_limit limit with
  | Some n => findMatchesForVolunteer db volunteerId n
  | None => Throw (AppError "limit must be a positive integer" 400)
  end.

(** Modelled from the spec: [recommendVolunteers(projectId, limit)] of
    [aiService] as the controllers call it, likewise. *)
Definition recommendVolunteers (db : DB) (projectId : string) (limit : Number)
  : Result (list Recommendation) :=
  match integer_limit limit with
  | Some n => recommendVolunteersForProject db projectId n
  | None => Throw (AppError "limit must be a positive integer" 400)
  end.

End Matcher.

End AIService.

(** ** Sample data *)

Module Samples.

Definition volunteer1 : VolunteerProfile :=
  {| userId := "u1"; volunteer_status := "AVAILABLE"; totalHours := 12 |}.

Definition project1 : ProjectRow :=
  {| id := "p1"; title := "Literacy club"; category := "Education"; status := "ACTIVE";
     createdAt := 5; creatorId := "org1"; volunteersNeeded := 12; volunteersApplied := 1;
     estimatedHours := Some 50; images := [] |}.

Definition project2 : ProjectRow :=
  {| id := "p2"; title := "Clinic support"; category := "healthcare"; status := "ACTIVE";
     createdAt := 7; creatorId := "org1"; volunteersNeeded := 4; volunteersApplied := 1;
     estimatedHours := None; images := [] |}.

Definition project3 : ProjectRow :=
  {| id := "p3"; title := "Tree planting"; category := "environment"; status := "CLOSED";
     createdAt := 9; creatorId := "org2"; volunteersNeeded := 30; volunteersApplied := 0;
     estimatedHours := Some 8; images := [] |}.

Definition application1 : Application :=
  {| application_id := "a1"; volunteerId := "u1"; projectId := "p1";
     application_status := "ACCEPTED"; reviewedAt := Some "2023-12-24T09:30:00.000Z" |}.

Definition application2 : Application :=
  {| application_id := "a2"; volunteerId := "u1"; projectId := "p2";
     application_status := "PENDING"; reviewedAt := None |}.

Definition db1 : DB :=
  {| volunteerProfile_table := {[ "u1" := volunteer1 ]};
     project_table := <["p1" := project1]> (<["p2" := project2]> {[ "p3" := project3 ]});
     application_table := <["a1" := application1]> {[ "a2" := application2 ]} |}.

Definition request (who role_ : string) (limit : option string) (projectId_ applicationId_ : string)
  : Request :=
  {| req_user := {| user_id := who; role := role_ |};
     query_limit := limit;
     params_projectId := projectId_;
     params_applicationId := applicationId_;
     req_body := [];
     req_files := None |}.

(** A scoring engine for the examples: the score depends on the category. *)
Definition sample_score (v : VolunteerProfile) (p : ProjectRow) : MatchFactors :=
  if String.eqb (category p) "healthcare"
  then {| skills := 1 # 4; location := 0; interests := 0; availability := 0; experience := 0 |}
  else {| skills := 16; location := 5; interests := 10; availability := 13; experience := 9 |}.

Definition sample_weights : AIService.Weights :=
  {| AIService.w_skills := 30; AIService.w_location := 25; AIService.w_interests := 20;
     AIService.w_availability := 15; AIService.w_experience := 10 |}.

Definition sample_findMatches : DB -> string -> Js.Number -> Result (list Match) :=
  AIService.findMatches sample_score.

Definition sample_recommendVolunteers
  : DB -> string -> Js.Number -> Result (list Recommendation) :=
  AIService.recommendVolunteers sample_score.

Definition sample_reason (m : Match) : string := "Good match".

Definition sample_now : string := "2024-01-01T00:00:00.000Z".

Definition factors_exp_avail : MatchFactors :=
  {| skills := 0; location := 0; interests := 0; availability := 13; experience := 9 |}.

Definition recommendation_exp_avail : Recommendation :=
  {| rec_volunteer := volunteer1; rec_score := 22; rec_factors := factors_exp_avail |}.

(** Collaborators with no state of their own. *)
Definition sample_recommender (db : DB) (projectId_ : string) (limit : Z) (w : unit)
  : Result (list Recommendation) * unit :=
  (AIService.recommendVolunteersForProject sample_score db projectId_ limit, w).

Definition numbered_recommendation (n : Z) : Recommendation :=
  {| rec_volunteer :=
       {| userId := String (ascii_of_nat (Z.to_nat (48 + n))) EmptyString;
          volunteer_status := "AVAILABLE"; totalHours := n |};
     rec_score := inject_Z (90 - n);
     rec_factors := factors_exp_avail |}.

(** A recommender that returns seven candidates whatever the limit. *)
Definition seven_recommender (db : DB) (projectId_ : string) (limit : Z) (w : unit)
  : Result (list Recommendation) * unit :=
  (Ok (map numbered_recommendation [1; 2; 3; 4; 5; 6; 7]), w).


Definition reliable_send (n : ProjectController.Notification) (w : unit)
  : Result unit * unit := (Ok tt, w).

Definition failing_send (n : ProjectController.Notification) (w : unit)
  : Result unit * unit := (Throw (OtherError "notification service unavailable"), w).

Definition sample_upload (files : list string) (folder : string) (w : unit)
  : Result (list string) * unit := (Ok (map (fun f => folder +:+ "/" +:+ f) files), w).

Definition new_project : ProjectRow :=
  {| id := "p4"; title := "Water points"; category := "poverty"; status := "ACTIVE";
     createdAt := 11; creatorId := "org1"; volunteersNeeded := 6; volunteersApplied := 0;
     estimatedHours := None; images := [] |}.

Definition sample_create (req : Request) (db : DB) (w : unit) : Result ProjectRow * unit :=
  (Ok new_project, w).

Definition state1 : ProjectController.State :=
  {| ProjectController.db := db1; ProjectController.world := tt;
     ProjectController.trace := [] |}.

End Samples.

(** ** The project controller: applying, responding, deleting, statistics *)

Module ProjectWorkflow.

Import Js ProjectController.

(** The argument of [sendNotification] with its [data] object kept as the
    list of its keys and values, in source order. *)
Record Notice : Type := mkNotice {
  notice_userId : string;
  notice_type : string;
  notice_title : string;
  notice_message : string;
  notice_data : list (string * string)
}.

(** What [prisma.application.create] adds to the data the handler passes:
    the generated id, the defaults of the status and review columns, and
    the names of the included volunteer. *)
Record CreatedApplication : Type := mkCreatedApplication {
  created_id : string;
  created_status : string;
  created_reviewedAt : option string;
  created_firstName : string;
  created_lastName : string
}.

Record ApplicationBody : Type := mkApplicationBody {
  ab_message : string;
  ab_data : Application
}.

Record StatsBody : Type := mkStatsBody {
  stats_total : nat;
  stats_pending : nat;
  stats_accepted : nat;
  stats_rejected : nat;
  stats_events : nat;
  stats_metrics : list string;
  stats_volunteersNeeded : Z;
  stats_volunteersApplied : Z;
  stats_fillRate : Q
}.

(** A string field of [req.body]; [None] is [undefined]. *)
Definition body_field (req : Request) (name : string) : option string :=
  option_map snd (List.find (fun kv => String.eqb (fst kv) name) (req_body req)).

(** Truthiness of an optional string: [undefined] and the empty string are
    falsy. *)
Definition truthy (v : option string) : bool :=
  match v with
  | Some EmptyString => false
  | Some _ => true
  | None => false
  end.

(** The rows of the application table that satisfy a [where] filter. *)
Definition applications_where (P : Application -> bool) (db : DB) : list Application :=
  List.filter P (map snd (map_to_list (application_table db))).

(** [prisma.application.count({ where })]. *)
Definition application_count (P : Application -> bool) (db : DB) : nat :=
  length (applications_where P db).

Definition of_project (projectId_ : string) (a : Application) : bool :=
  String.eqb (projectId a) projectId_.

Definition of_project_with_status (projectId_ status_ : string) (a : Application) : bool :=
  String.eqb (projectId a) projectId_ && String.eqb (application_status a) status_.

Definition of_volunteer_and_project (volunteerId_ projectId_ : string) (a : Application)
  : bool :=
  String.eqb (volunteerId a) volunteerId_ && String.eqb (projectId a) projectId_.

Definition increment_volunteersApplied (p : ProjectRow) : ProjectRow :=
  {| id := id p; title := title p; category := category p; status := status p;
     createdAt := createdAt p; creatorId := creatorId p;
     volunteersNeeded := volunteersNeeded p;
     volunteersApplied := volunteersApplied p + 1;
     estimatedHours := estimatedHours p; images := images p |}.

(** The row after [update({ data: { status, reviewedAt } })]: an
    [undefined] status leaves the status column as it is. *)
Definition review (status_ : option string) (reviewedAt_ : string) (a : Application)
  : Application :=
  {| application_id := application_id a; volunteerId := volunteerId a;
     projectId := projectId a;
     application_status := default (application_status a) status_;
     reviewedAt := Some reviewedAt_ |}.

(** Every project row carries the number of applications that reference
    it. *)
Definition counter_consistent (db : DB) : Prop :=
  forall pid p,
    project_table db !! pid = Some p ->
    volunteersApplied p = Z.of_nat (application_count (of_project pid) db).

(** No volunteer has two applications for the same project. *)
Definition unique_applications (db : DB) : Prop :=
  forall i j a b,
    application_table db !! i = Some a ->
    application_table db !! j = Some b ->
    volunteerId a = volunteerId b ->
    projectId a = projectId b ->
    i = j.

Section Workflow.

(** State of the collaborators; the state of a run pairs it with the
    notices handed to [sendNotification] so far. *)
Context {W : Type}.

(** [sendNotification(notification)]. *)
Variable notificationService_sendNotification : Notice -> W -> Result unit * W.
(** What [prisma.application.create] generates for the given volunteer,
    project and request, or its failure. *)
Variable prisma_application_create :
  string -> string -> Request -> DB -> W -> Result CreatedApplication * W.
(** The values the status column of an application accepts. *)
Variable valid_status : string -> bool.
(** [new Date()] at the time of the request. *)
Variable now : string.
(** [prisma.project.delete({ where: { id } })] with the referential actions
    of the schema: the database it leaves, or its failure. *)
Variable prisma_project_delete : string -> DB -> W -> Result DB * W.
(** [prisma.event.count] and [prisma.impactMetric.findMany] of a project. *)
Variable prisma_event_count : string -> W -> nat.
Variable prisma_impactMetric_findMany : string -> W -> list string.

Definition sendNotice (n : Notice) : @M (W * list Notice) unit :=
  fun s =>
    let '(w, sent) := world s in
    let '(r, w') := notificationService_sendNotification n w in
    (r, {| db := db s; world := (w', sent ++ [n]); trace := trace s |}).

Definition project_findUnique (projectId_ : string) : @M (W * list Notice) (option ProjectRow) :=
  fun s => (Ok (project_table (db s) !! projectId_), s).

(** [prisma.application.findUnique({ where: { volunteerId_projectId } })]. *)
Definition application_findByVolunteerProject (volunteerId_ projectId_ : string)
  : @M (W * list Notice) (option Application) :=
  fun s =>
    (Ok (head (applications_where (of_volunteer_and_project volunteerId_ projectId_) (db s))),
     s).

(** [prisma.application.findMany({ where: { projectId } })]. *)
Definition application_findMany_of_project (projectId_ : string)
  : @M (W * list Notice) (list Application) :=
  fun s => (Ok (applications_where (of_project projectId_) (db s)), s).

Definition application_create (volunteerId_ projectId_ : string) (req : Request)
  : @M (W * list Notice) (Application * CreatedApplication) :=
  fun s =>
    let '(w, sent) := world s in
    match prisma_application_create volunteerId_ projectId_ req (db s) w with
    | (Ok created, w') =>
        let row :=
          {| application_id := created_id created; volunteerId := volunteerId_;
             projectId := projectId_; application_status := created_status created;
             reviewedAt := created_reviewedAt created |} in
        match application_table (db s) !! created_id created with
        | Some _ =>
            (Throw (OtherError "Unique constraint failed on the fields: (id)"),
             {| db := db s; world := (w', sent); trace := trace s |})
        | None =>
            (Ok (row, created),
             {| db := {| volunteerProfile_table := volunteerProfile_table (db s);
                         project_table := project_table (db s);
                         application_table :=
                           <[created_id created := row]> (application_table (db s)) |};
                world := (w', sent); trace := trace s |})
        end
    | (Throw e, w') => (Throw e, {| db := db s; world := (w', sent); trace := trace s |})
    end.

(** [prisma.application.update({ where: { id }, data: { status, reviewedAt:
    new Date() } })]: a status the column does not accept is refused before
    anything is written; an [undefined] status is left out of the update,
    which then only stamps the review time. *)
Definition application_update_status (applicationId : string) (status_ : option string)
  : @M (W * list Notice) Application :=
  fun s =>
    match application_table (db s) !! applicationId with
    | None => (Throw (OtherError "Record to update not found."), s)
    | Some a =>
        if match status_ with Some v => valid_status v | None => true end
        then
          (Ok (review status_ now a),
           {| db := {| volunteerProfile_table := volunteerProfile_table (db s);
                       project_table := project_table (db s);
                       application_table :=
                         <[applicationId := review status_ now a]>
                           (application_table (db s)) |};
              world := world s; trace := trace s |})
        else (Throw (OtherError "Invalid value for argument status."), s)
    end.

Definition project_delete (projectId_ : string) : @M (W * list Notice) unit :=
  fun s =>
    let '(w, sent) := world s in
    match prisma_project_delete projectId_ (db s) w with
    | (Ok db', w') => (Ok tt, {| db := db'; world := (w', sent); trace := trace s |})
    | (Throw e, w') => (Throw e, {| db := db s; world := (w', sent); trace := trace s |})
    end.

(** *** applyForProject *)

Definition applyForProject (req : Request)
  : @State (W * list Notice) -> Outcome ApplicationBody * @State (W * list Notice) :=
  handler
    (let projectId_ := params_projectId req in
     let volunteerId_ := user_id (req_user req) in
     if negb (String.eqb (role (req_user req)) "VOLUNTEER")
     then throw (AppError "Only volunteers can apply for projects" 403)
     else
       bind (project_findUnique projectId_) (fun found =>
       match found with
       | None => throw (AppError "Project not found" 404)
       | Some project =>
           if negb (String.eqb (status project) "ACTIVE")
           then throw (AppError "This project is no longer accepting applications" 400)
           else
             bind (application_findByVolunteerProject volunteerId_ projectId_)
               (fun existingApplication =>
             match existingApplication with
             | Some _ => throw (AppError "You have already applied for this project" 400)
             | None =>
                 bind (application_create volunteerId_ projectId_ req) (fun '(application, created) =>
                 bind (project_update projectId_ increment_volunteersApplied) (fun _ =>
                 bind (sendNotice
                         {| notice_userId := creatorId project;
                            notice_type := "NEW_APPLICATION";
                            notice_title := "New Volunteer Application";
                            notice_message :=
                              created_firstName created +:+ " " +:+ created_lastName created
                              +:+ " has applied for your project "
                              +:+ dquote +:+ title project +:+ dquote;
                            notice_data :=
                              [("projectId", projectId_);
                               ("applicationId", application_id application);
                               ("volunteerId", volunteerId_)] |})
                   (fun _ =>
                 ret (201,
                      {| ab_message := "Application submitted successfully";
                         ab_data := application |}))))
             end)
       end)).

(** *** respondToApplication *)

Definition respondToApplication (req : Request)
  : @State (W * list Notice) -> Outcome ApplicationBody * @State (W * list Notice) :=
  handler
    (let applicationId := params_applicationId req in
     let status_ := body_field req "status" in
     let message := body_field req "message" in
     bind (application_findUnique applicationId) (fun found =>
     match found with
     | None => throw (AppError "Application not found" 404)
     | Some (application, None) =>
         throw (OtherError "TypeError: Cannot read properties of null (reading 'creatorId')")
     | Some (application, Some project) =>
         if negb (String.eqb (creatorId project) (user_id (req_user req)))
            && negb (String.eqb (role (req_user req)) "ADMIN")
         then throw (AppError "Access denied" 403)
         else
           bind (application_update_status applicationId status_) (fun updatedApplication =>
           match status_ with
           | None =>
               throw (OtherError
                 "TypeError: Cannot read properties of undefined (reading 'toLowerCase')")
           | Some st =>
               let notificationTitle :=
                 if String.eqb st "ACCEPTED" then "Application Accepted!"
                 else "Application Update" in
               let notificationMessage :=
                 if String.eqb st "ACCEPTED"
                 then "Congratulations! Your application for "
                      +:+ dquote +:+ title project +:+ dquote +:+ " has been accepted."
                 else "Your application for "
                      +:+ dquote +:+ title project +:+ dquote
                      +:+ " has been " +:+ toLowerCase st +:+ "." in
               bind (sendNotice
                       {| notice_userId := volunteerId application;
                          notice_type := "APPLICATION_UPDATE";
                          notice_title := notificationTitle;
                          notice_message :=
                            notificationMessage
                            +:+ (if truthy message
                                 then " Message: " +:+ default "" message
                                 else "");
                          notice_data :=
                            [("projectId", projectId application);
                             ("applicationId", applicationId);
                             ("status", st)] |})
                 (fun _ =>
               ret (200,
                    {| ab_message := "Application " +:+ toLowerCase st +:+ " successfully";
                       ab_data := updatedApplication |}))
           end)
     end)).

(** *** deleteProject *)

Definition deletionNotice (project : ProjectRow) (projectId_ : string)
  (application : Application) : Notice :=
  {| notice_userId := volunteerId application;
     notice_type := "PROJECT_DELETED";
     notice_title := "Project Cancelled";
     notice_message :=
       "The project " +:+ dquote +:+ title project +:+ dquote +:+ " has been cancelled.";
     notice_data := [("projectId", projectId_)] |}.

Definition deleteProject (req : Request)
  : @State (W * list Notice) -> Outcome ResponseBody * @State (W * list Notice) :=
  handler
    (let id_ := params_projectId req in
     bind (project_findUnique id_) (fun found =>
     match found with
     | None => throw (AppError "Project not found" 404)
     | Some project =>
         if negb (String.eqb (creatorId project) (user_id (req_user req)))
            && negb (String.eqb (role (req_user req)) "ADMIN")
         then throw (AppError "Access denied. You can only delete your own projects." 403)
         else
           bind (application_findMany_of_project id_) (fun applications_ =>
           bind (project_delete id_) (fun _ =>
           bind (for_of applications_
                   (fun application => sendNotice (deletionNotice project id_ application)))
             (fun _ =>
           ret (200,
                {| body_message := "Project deleted successfully";
                   body_data := None |}))))
     end)).

(** *** getProjectStats *)

Definition fillRate (accepted : nat) (needed : Z) : Q :=
  if 0 <? needed
  then (inject_Z (Z.of_nat accepted) / inject_Z needed * 100)%Q
  else 0%Q.

Definition getProjectStats (req : Request)
  : @State (W * list Notice) -> Outcome StatsBody * @State (W * list Notice) :=
  handler
    (let projectId_ := params_projectId req in
     bind (project_findUnique projectId_) (fun found =>
     match found with
     | None => throw (AppError "Project not found" 404)
     | Some project =>
         if negb (String.eqb (creatorId project) (user_id (req_user req)))
            && negb (String.eqb (role (req_user req)) "ADMIN")
         then throw (AppError "Access denied" 403)
         else
           fun s =>
             let totalApplications := application_count (of_project projectId_) (db s) in
             let pendingApplications :=
               application_count (of_project_with_status projectId_ "PENDING") (db s) in
             let acceptedApplications :=
               application_count (of_project_with_status projectId_ "ACCEPTED") (db s) in
             let rejectedApplications :=
               application_count (of_project_with_status projectId_ "REJECTED") (db s) in
             ret (200,
                  {| stats_total := totalApplications;
                     stats_pending := pendingApplications;
                     stats_accepted := acceptedApplications;
                     stats_rejected := rejectedApplications;
                     stats_events := prisma_event_count projectId_ (fst (world s));
                     stats_metrics := prisma_impactMetric_findMany projectId_ (fst (world s));
                     stats_volunteersNeeded := volunteersNeeded project;
                     stats_volunteersApplied := volunteersApplied project;
                     stats_fillRate :=
                       fillRate acceptedApplications (volunteersNeeded project) |}) s
     end)).

End Workflow.

End ProjectWorkflow.

(** ** aiController.js: updatePreferences *)

Module AIPreferences.

Import Js ProjectController.

(** An element of [req.body.preferences]; an absent, [null] or non-numeric
    weight is [None]. *)
Record PreferenceInput : Type := mkPreferenceInput {
  in_category : string;
  in_value : string;
  in_weight : option Q
}.

(** A row of the volunteer preference table. *)
Record VolunteerPreference : Type := mkVolunteerPreference {
  pref_volunteerId : string;
  pref_category : string;
  pref_value : string;
  pref_weight : Q
}.

Record PreferencesBody : Type := mkPreferencesBody {
  pb_message : string;
  preferencesUpdated : nat
}.

(** [pref.weight || 1.0]: an absent weight and the weight 0 are falsy. *)
Definition weight_or_default (w : option Q) : Q :=
  match w with
  | Some q => if Qeq_bool q 0 then 1%Q else q
  | None => 1%Q
  end.

Definition preference_row (profileId : string) (pref : PreferenceInput)
  : VolunteerPreference :=
  {| pref_volunteerId := profileId;
     pref_category := in_category pref;
     pref_value := in_value pref;
     pref_weight := weight_or_default (in_weight pref) |}.

Definition belongs_to (profileId : string) (p : VolunteerPreference) : bool :=
  String.eqb (pref_volunteerId p) profileId.

Section Preferences.

(** The [id] column of a volunteer profile, which preference rows
    reference. *)
Variable profile_id : VolunteerProfile -> string.

(** The state of a run: the tables of [DB] and, as the collaborator state,
    the preference table. *)
Definition preference_deleteMany (profileId : string)
  : @M (list VolunteerPreference) unit :=
  fun s =>
    (Ok tt,
     {| db := db s;
        world := List.filter (fun p => negb (belongs_to profileId p)) (world s);
        trace := trace s |}).

Definition preference_createMany (rows : list VolunteerPreference)
  : @M (list VolunteerPreference) nat :=
  fun s =>
    (Ok (length rows), {| db := db s; world := world s ++ rows; trace := trace s |}).

Definition volunteerProfile_findUnique (userId_ : string)
  : @M (list VolunteerPreference) (option VolunteerProfile) :=
  fun s => (Ok (volunteerProfile_table (db s) !! userId_), s).

Definition updatePreferences (req : Request) (preferences : option (list PreferenceInput))
  : @State (list VolunteerPreference)
    -> Outcome PreferencesBody * @State (list VolunteerPreference) :=
  handler
    (if negb (String.eqb (role (req_user req)) "VOLUNTEER")
     then throw (AppError "Only volunteers can update preferences" 403)
     else
       let volunteerId_ := user_id (req_user req) in
       bind (volunteerProfile_findUnique volunteerId_) (fun found =>
       match found with
       | None => throw (AppError "Volunteer profile not found" 404)
       | Some volunteerProfile =>
           bind (preference_deleteMany (profile_id volunteerProfile)) (fun _ =>
           match preferences with
           | None =>
               throw (OtherError
                 "TypeError: Cannot read properties of undefined (reading 'map')")
           | Some prefs =>
               bind (preference_createMany
                       (map (preference_row (profile_id volunteerProfile)) prefs))
                 (fun count =>
               ret (200,
                    {| pb_message := "Preferences updated successfully";
                       preferencesUpdated := count |}))
           end)
       end)).

End Preferences.

End AIPreferences.

(** ** The chat handler *)

Module ChatController.

Import Js ProjectController.

Inductive ChatBody : Type :=
| Reply (reply : string)
| ChatError (error : string).

Section Chat.

Context {W : Type}.

(** [axios.post(url, { inputs: message }, headers)], read through
    [response.data?.[0]?.generated_text]: the generated text, [None] when
    the path is absent, or the rejection of the request. *)
Variable axios_post : string -> W -> Result (option string) * W.

Definition post_inference (message : string) : @M W (option string) :=
  fun s =>
    let '(r, w) := axios_post message (world s) in
    (r, {| db := db s; world := w; trace := trace s |}).

(** The status and body [handleChat] sends. *)
Definition handleChat (message : option string) : @M W (Z * ChatBody) :=
  try_catch
    (match message with
     | Some (String c rest as text) =>
         bind (post_inference text) (fun generated_text =>
         let reply :=
           match generated_text with
           | Some (String c' rest' as generated) => generated
           | _ => "Sorry, I couldn't generate a reply."
           end in
         ret (200, Reply reply))
     | _ => ret (400, ChatError "Message is required.")
     end)
    (fun error =>
       bind (console_error "Chat error:" error) (fun _ =>
       ret (500, ChatError "Something went wrong."))).

End Chat.

End ChatController.

(** ** authControllers.js *)

Module AuthController.

Import Js ProjectController.

(** A row of the user table, with the columns the controller reads and
    writes. *)
Record UserRow : Type := mkUserRow {
  u_id : string;
  u_email : string;
  u_password : string;
  u_firstname : string;
  u_lastname : string;
  u_role : string;
  u_isVerified : bool;
  u_verificationToken : option string
}.

(** The argument of [sendEmail]. *)
Record Email : Type := mkEmail {
  email_to : string;
  email_subject : string;
  email_template : string;
  email_name : string;
  email_verificationUrl : string
}.

(** What [prisma.user.create] adds to the data of the handler: the
    generated id and the stored role and verification flag. *)
Record CreatedUser : Type := mkCreatedUser {
  new_id : string;
  new_role : string;
  new_isVerified : bool
}.

(** The [user] object of a response. *)
Record UserView : Type := mkUserView {
  view_id : string;
  view_email : string;
  view_firstname : string;
  view_lastname : string;
  view_role : string;
  view_isVerified : bool
}.

(** The body of a response: its [message] (absent in [getMe]), and the token
    and user of its [data]. *)
Record AuthBody : Type := mkAuthBody {
  auth_message : option string;
  auth_token : option string;
  auth_user : option UserView
}.

(** The fields of [req.body] the controller reads; [None] is [undefined]. *)
Record AuthRequest : Type := mkAuthRequest {
  auth_req_user : User;
  body_email : option string;
  body_password : option string;
  body_firstname : option string;
  body_lastname : option string;
  body_role : option string;
  body_token : option string;
  body_currentPassword : option string;
  body_newPassword : option string
}.

(** The user table, the e-mails handed to [sendEmail], and the state of the
    other collaborators (random source, clock). *)
Record AuthWorld (W : Type) : Type := mkAuthWorld {
  users : gmap string UserRow;
  outbox : list Email;
  ext : W
}.
Arguments mkAuthWorld {W} users outbox ext.
Arguments users {W} a.
Arguments outbox {W} a.
Arguments ext {W} a.

Definition user_view (user : UserRow) : UserView :=
  {| view_id := u_id user;
     view_email := u_email user;
     view_firstname := u_firstname user;
     view_lastname := u_lastname user;
     view_role := u_role user;
     view_isVerified := u_isVerified user || false |}.

(** Truthiness of an optional string. *)
Definition present (v : option string) : bool :=
  match v with
  | Some (String _ _) => true
  | _ => false
  end.

(** The rows of the user table that satisfy a [where] filter. *)
Definition users_where (P : UserRow -> bool) (tbl : gmap string UserRow) : list UserRow :=
  List.filter P (map snd (map_to_list tbl)).

Definition has_email (email : string) (u : UserRow) : bool := String.eqb (u_email u) email.

Definition has_token (token : string) (u : UserRow) : bool :=
  match u_verificationToken u with
  | Some t => String.eqb t token
  | None => false
  end.

(** Every row is stored under its own id. *)
Definition well_keyed (tbl : gmap string UserRow) : Prop :=
  forall i a, tbl !! i = Some a -> u_id a = i.

(** No two users share an e-mail address. *)
Definition unique_emails (tbl : gmap string UserRow) : Prop :=
  forall i j a b,
    tbl !! i = Some a -> tbl !! j = Some b -> u_email a = u_email b -> i = j.

Section Auth.

Context {W : Type}.

(** [bcrypt.hash(password, 12)] and [bcrypt.compare(password, hash)]. *)
Variable bcrypt_hash : string -> W -> string * W.
Variable bcrypt_compare : string -> string -> bool.
(** [crypto.randomBytes(32).toString("hex")]. *)
Variable randomBytes_hex : W -> string * W.
(** [jwt.sign({ id, role }, secret, { expiresIn })] at the current time. *)
Variable jwt_sign : string -> string -> string -> string -> W -> string.
(** [process.env.JWT_SECRET] and [process.env.CLIENT_URL]. *)
Variable env_JWT_SECRET : option string.
Variable env_CLIENT_URL : option string.
(** What [prisma.user.create] generates for the request, or its failure. *)
Variable prisma_user_create : AuthRequest -> gmap string UserRow -> W -> Result CreatedUser * W.
(** [prisma.user.findFirst] with a filter that is [undefined]. *)
Variable prisma_user_findFirst_unfiltered : gmap string UserRow -> option UserRow.
(** The refusal of [prisma.user.delete] by a referential constraint. *)
Variable prisma_user_delete_refused : UserRow -> option Error.

Definition AuthState : Type := @State (AuthWorld W).

Definition set_users (tbl : gmap string UserRow) (s : AuthState) : AuthState :=
  {| db := db s;
     world := {| users := tbl; outbox := outbox (world s); ext := ext (world s) |};
     trace := trace s |}.

Definition set_ext (w : W) (s : AuthState) : AuthState :=
  {| db := db s;
     world := {| users := users (world s); outbox := outbox (world s); ext := w |};
     trace := trace s |}.

(** *** utils/helper.js *)

Definition generateToken (userId_ role_ : string) : @M (AuthWorld W) string :=
  fun s =>
    let secret := if present env_JWT_SECRET then default "" env_JWT_SECRET else "secretkey" in
    (Ok (jwt_sign userId_ role_ secret "1h" (ext (world s))), s).

Definition generateVerificationToken : @M (AuthWorld W) string :=
  fun s =>
    let '(token, w) := randomBytes_hex (ext (world s)) in
    (Ok token, set_ext w s).

(** *** services/emailService.js *)

Definition sendEmail (mail : Email) : @M (AuthWorld W) unit :=
  fun s =>
    (Ok tt,
     {| db := db s;
        world := {| users := users (world s); outbox := outbox (world s) ++ [mail];
                    ext := ext (world s) |};
        trace := trace s |}).

(** *** Database calls *)

Definition user_findUnique_by_email (email : option string)
  : @M (AuthWorld W) (option UserRow) :=
  fun s =>
    match email with
    | Some e => (Ok (head (users_where (has_email e) (users (world s)))), s)
    | None =>
        (Throw (OtherError "Argument where needs at least one of id or email."), s)
    end.

Definition user_findUnique_by_id (userId_ : string) : @M (AuthWorld W) (option UserRow) :=
  fun s => (Ok (users (world s) !! userId_), s).

Definition user_findFirst_by_token (token : option string)
  : @M (AuthWorld W) (option UserRow) :=
  fun s =>
    match token with
    | Some t => (Ok (head (users_where (has_token t) (users (world s)))), s)
    | None => (Ok (prisma_user_findFirst_unfiltered (users (world s))), s)
    end.

Definition user_update (userId_ : string) (f : UserRow -> UserRow) : @M (AuthWorld W) unit :=
  fun s =>
    match users (world s) !! userId_ with
    | Some row => (Ok tt, set_users (<[userId_ := f row]> (users (world s))) s)
    | None => (Throw (OtherError "Record to update not found."), s)
    end.

Definition user_delete (userId_ : string) : @M (AuthWorld W) unit :=
  fun s =>
    match users (world s) !! userId_ with
    | Some row =>
        match prisma_user_delete_refused row with
        | Some e => (Throw e, s)
        | None => (Ok tt, set_users (delete userId_ (users (world s))) s)
        end
    | None => (Throw (OtherError "Record to delete does not exist."), s)
    end.

Definition user_create (req : AuthRequest) (email hashedPassword firstname lastname
  verificationToken : string) : @M (AuthWorld W) UserRow :=
  fun s =>
    match prisma_user_create req (users (world s)) (ext (world s)) with
    | (Ok created, w) =>
        let row :=
          {| u_id := new_id created; u_email := email; u_password := hashedPassword;
             u_firstname := firstname; u_lastname := lastname; u_role := new_role created;
             u_isVerified := new_isVerified created;
             u_verificationToken := Some verificationToken |} in
        match users (world s) !! new_id created with
        | Some _ =>
            (Throw (OtherError "Unique constraint failed on the fields: (id)"), set_ext w s)
        | None =>
            match head (users_where (has_email email) (users (world s))) with
            | Some _ =>
                (Throw (OtherError "Unique constraint failed on the fields: (email)"),
                 set_ext w s)
            | None =>
                (Ok row, set_users (<[new_id created := row]> (users (world s))) (set_ext w s))
            end
        end
    | (Throw e, w) => (Throw e, set_ext w s)
    end.

Definition bcryptHash (password : string) : @M (AuthWorld W) string :=
  fun s =>
    let '(h, w) := bcrypt_hash password (ext (world s)) in
    (Ok h, set_ext w s).

(** [bcrypt.compare] rejects a password that is not a string. *)
Definition bcryptCompare (password : option string) (hash : string)
  : @M (AuthWorld W) bool :=
  fun s =>
    match password with
    | Some p => (Ok (bcrypt_compare p hash), s)
    | None => (Throw (OtherError "Illegal arguments: undefined, string"), s)
    end.

(** *** The handlers *)

Definition sendVerificationEmail (user : UserRow) (token : string)
  : @M (AuthWorld W) unit :=
  let verificationUrl :=
    default "undefined" env_CLIENT_URL +:+ "/verify-email?token=" +:+ token in
  sendEmail
    {| email_to := u_email user;
       email_subject := "Welcome to RwandaCares - Verify Your Email";
       email_template := "welcome";
       email_name := u_firstname user;
       email_verificationUrl := verificationUrl |}.

Definition register (req : AuthRequest) : AuthState -> Outcome AuthBody * AuthState :=
  handler
    (if negb (present (body_email req)) || negb (present (body_password req))
        || negb (present (body_firstname req)) || negb (present (body_lastname req))
     then throw (AppError "Email, password, firstname, and lastname are required" 400)
     else
       let email := default "" (body_email req) in
       let password := default "" (body_password req) in
       let firstname := default "" (body_firstname req) in
       let lastname := default "" (body_lastname req) in
       bind (user_findUnique_by_email (body_email req)) (fun existingUser =>
       match existingUser with
       | Some _ => throw (AppError "User already exists with this email" 400)
       | None =>
           bind (bcryptHash password) (fun hashedPassword =>
           bind generateVerificationToken (fun verificationToken =>
           bind (user_create req email hashedPassword firstname lastname verificationToken)
             (fun user =>
           bind (sendVerificationEmail user verificationToken) (fun _ =>
           bind (generateToken (u_id user) (u_role user)) (fun token =>
           ret (201,
                {| auth_message :=
                     Some "User registered successfully. Please check your email to verify your account.";
                   auth_token := Some token;
                   auth_user := Some (user_view user) |}))))))
       end)).

Definition login (req : AuthRequest) : AuthState -> Outcome AuthBody * AuthState :=
  handler
    (bind (user_findUnique_by_email (body_email req)) (fun found =>
     match found with
     | None => throw (AppError "Invalid credentials" 401)
     | Some user =>
         bind (bcryptCompare (body_password req) (u_password user)) (fun isMatch =>
         if negb isMatch then throw (AppError "Invalid credentials" 401)
         else
           bind (generateToken (u_id user) (u_role user)) (fun token =>
           ret (200,
                {| auth_message := Some "Login successful";
                   auth_token := Some token;
                   auth_user := Some (user_view user) |})))
     end)).

Definition mark_verified (u : UserRow) : UserRow :=
  {| u_id := u_id u; u_email := u_email u; u_password := u_password u;
     u_firstname := u_firstname u; u_lastname := u_lastname u; u_role := u_role u;
     u_isVerified := true; u_verificationToken := None |}.

Definition set_password (hashedPassword : string) (u : UserRow) : UserRow :=
  {| u_id := u_id u; u_email := u_email u; u_password := hashedPassword;
     u_firstname := u_firstname u; u_lastname := u_lastname u; u_role := u_role u;
     u_isVerified := u_isVerified u; u_verificationToken := u_verificationToken u |}.

Definition verifyEmail (req : AuthRequest) : AuthState -> Outcome AuthBody * AuthState :=
  handler
    (bind (user_findFirst_by_token (body_token req)) (fun found =>
     match found with
     | None => throw (AppError "Invalid or expired verification token" 400)
     | Some user =>
         bind (user_update (u_id user) mark_verified) (fun _ =>
         ret (200,
              {| auth_message := Some "Email verified successfully";
                 auth_token := None; auth_user := None |}))
     end)).

Definition changePassword (req : AuthRequest) : AuthState -> Outcome AuthBody * AuthState :=
  handler
    (let userId_ := user_id (auth_req_user req) in
     bind (user_findUnique_by_id userId_) (fun found =>
     match found with
     | None => throw (OtherError "TypeError: Cannot read properties of null (reading 'password')")
     | Some user =>
         bind (bcryptCompare (body_currentPassword req) (u_password user)) (fun isMatch =>
         if negb isMatch then throw (AppError "Current password is incorrect" 400)
         else
           match body_newPassword req with
           | None => throw (OtherError "Illegal arguments: undefined, number")
           | Some newPassword =>
               bind (bcryptHash newPassword) (fun hashedPassword =>
               bind (user_update userId_ (set_password hashedPassword)) (fun _ =>
               ret (200,
                    {| auth_message := Some "Password changed successfully";
                       auth_token := None; auth_user := None |})))
           end)
     end)).

Definition getMe (req : AuthRequest) : AuthState -> Outcome AuthBody * AuthState :=
  handler
    (bind (user_findUnique_by_id (user_id (auth_req_user req))) (fun found =>
     match found with
     | None => throw (AppError "User not found" 404)
     | Some user =>
         ret (200, {| auth_message := None; auth_token := None;
                      auth_user := Some (user_view user) |})
     end)).

Definition refreshToken (req : AuthRequest) : AuthState -> Outcome AuthBody * AuthState :=
  handler
    (let user := auth_req_user req in
     bind (generateToken (user_id user) (role user)) (fun newToken =>
     ret (200,
          {| auth_message := Some "Token refreshed successfully";
             auth_token := Some newToken; auth_user := None |}))).

Definition logout (req : AuthRequest) : AuthState -> Outcome AuthBody * AuthState :=
  fun s =>
    (Json 200 {| auth_message := Some "Logout successful"; auth_token := None;
                 auth_user := None |}, s).

Definition deleteAccount (req : AuthRequest) : AuthState -> Outcome AuthBody * AuthState :=
  handler
    (let userId_ := user_id (auth_req_user req) in
     bind (user_findUnique_by_id userId_) (fun found =>
     match found with
     | None => throw (OtherError "TypeError: Cannot read properties of null (reading 'password')")
     | Some user =>
         bind (bcryptCompare (body_password req) (u_password user)) (fun isMatch =>
         if negb isMatch then throw (AppError "Incorrect password" 400)
         else
           bind (user_delete userId_) (fun _ =>
           ret (200,
                {| auth_message := Some "Account deleted successfully";
                   auth_token := None; auth_user := None |})))
     end)).

End Auth.

End AuthController.

(** ** Sample data for the workflow, preference, chat and account handlers *)

(** ** The project routes

    [routes/projects.js] registers the methods of the controller object as
    bare functions, [router.post('/', ..., projectController.createProject)].
    Express calls a registered handler as [fn(req, res, next)], with no
    receiver, and the body of a class is strict code: inside the handler
    [this] is [undefined]. *)

Module ProjectRoutes.

Import ProjectController.

(** What [this] is in a method: the controller object, or [undefined]. *)
Inductive Receiver : Type :=
| ControllerObject
| Undefined.

Section Routes.

Context {W : Type}.
Variable aiService_recommendVolunteers :
  DB -> string -> Z -> W -> Result (list Recommendation) * W.
Variable notificationService_sendNotification : Notification -> W -> Result unit * W.
Variable uploadService_uploadImages : list string -> string -> W -> Result (list string) * W.
Variable prisma_project_create : Request -> DB -> W -> Result ProjectRow * W.

(** [this.notifyRelevantVolunteers(project)]: the method of the controller
    object, or the [TypeError] of reading a property of [undefined]. *)
Definition this_notifyRelevantVolunteers (this : Receiver) (project : ProjectRow)
  : M (W := W) unit :=
  match this with
  | ControllerObject =>
      notifyRelevantVolunteers aiService_recommendVolunteers
        notificationService_sendNotification project
  | Undefined =>
      throw (OtherError
               "TypeError: Cannot read properties of undefined (reading 'notifyRelevantVolunteers')")
  end.

(** [createProject(req, res, next)] called with the receiver [this]. *)
Definition createProject_on (this : Receiver) (req : Request)
  : State (W := W) -> Outcome ResponseBody * State (W := W) :=
  handler
    (bind (project_create prisma_project_create req) (fun project =>
     bind (attachImages uploadService_uploadImages req project) (fun project =>
     bind (this_notifyRelevantVolunteers this project) (fun _ =>
     ret (201,
          {| body_message := "Project created successfully";
             body_data := Some project |}))))).


End Routes.

End ProjectRoutes.

Module MoreSamples.

Import ProjectController ProjectWorkflow AIPreferences ChatController AuthController.

Definition notice_ok (n : Notice) (w : unit) : Result unit * unit := (Ok tt, w).

Definition notice_fail (n : Notice) (w : unit) : Result unit * unit :=
  (Throw (OtherError "notification service unavailable"), w).

Definition create_ok (volunteerId_ projectId_ : string) (req : Request) (db : DB) (w : unit)
  : Result CreatedApplication * unit :=
  (Ok {| created_id := "a9"; created_status := "PENDING"; created_reviewedAt := None;
         created_firstName := "Aline"; created_lastName := "Uwase" |}, w).

Definition any_status (status_ : string) : bool := true.

Definition review_time : string := "2024-01-02T08:00:00.000Z".

Definition delete_ok (projectId_ : string) (db : DB) (w : unit) : Result DB * unit :=
  (Ok {| volunteerProfile_table := volunteerProfile_table db;
         project_table := delete projectId_ (project_table db);
         application_table := application_table db |}, w).

Definition delete_refused_by_db (projectId_ : string) (db : DB) (w : unit)
  : Result DB * unit :=
  (Throw (OtherError "Foreign key constraint failed"), w).

Definition no_events (projectId_ : string) (w : unit) : nat := 0%nat.
Definition no_metrics (projectId_ : string) (w : unit) : list string := [].

(** One project with one accepted application. *)
Definition dbA : DB :=
  {| volunteerProfile_table := {[ "u1" := Samples.volunteer1 ]};
     project_table := {[ "p1" := Samples.project1 ]};
     application_table := {[ "a1" := Samples.application1 ]} |}.

Definition wstateA : @State (unit * list Notice) :=
  {| db := dbA; world := (tt, []); trace := [] |}.

Definition stateA : @State unit := {| db := dbA; world := tt; trace := [] |}.

Definition wstate1 : @State (unit * list Notice) :=
  {| db := Samples.db1; world := (tt, []); trace := [] |}.

Definition send_to_log (n : Notification) (w : unit * list Notice)
  : Result unit * (unit * list Notice) := (Ok tt, w).

Definition request_with_body (who role_ : string) (projectId_ applicationId_ : string)
  (body : list (string * string)) : Request :=
  {| req_user := {| user_id := who; role := role_ |};
     query_limit := None;
     params_projectId := projectId_;
     params_applicationId := applicationId_;
     req_body := body;
     req_files := None |}.

Definition request_with_files (who role_ : string) (files : list string) : Request :=
  {| req_user := {| user_id := who; role := role_ |};
     query_limit := None;
     params_projectId := "";
     params_applicationId := "";
     req_body := [];
     req_files := Some files |}.

Definition failing_upload (files : list string) (folder : string) (w : unit)
  : Result (list string) * unit := (Throw (OtherError "upload failed"), w).

(** Preferences. *)
Definition sample_profile_id (v : VolunteerProfile) : string := "profile-" +:+ userId v.

Definition stored_preferences : list VolunteerPreference :=
  [ {| pref_volunteerId := "profile-u1"; pref_category := "category";
       pref_value := "education"; pref_weight := 2 |};
    {| pref_volunteerId := "profile-u7"; pref_category := "location";
       pref_value := "Kigali"; pref_weight := 1 |} ].

Definition submitted_preferences : list PreferenceInput :=
  [ {| in_category := "category"; in_value := "healthcare"; in_weight := Some 0%Q |};
    {| in_category := "schedule"; in_value := "weekend"; in_weight := None |} ].

Definition pstate1 : @State (list VolunteerPreference) :=
  {| db := Samples.db1; world := stored_preferences; trace := [] |}.

(** Chat. *)
Definition echo_api (message : string) (w : unit) : Result (option string) * unit :=
  (Ok (Some ("You said: " +:+ message)), w).

Definition silent_api (message : string) (w : unit) : Result (option string) * unit :=
  (Ok None, w).

Definition failing_api (message : string) (w : unit) : Result (option string) * unit :=
  (Throw (OtherError "Request failed with status code 503"), w).

(** Accounts. *)
Definition sample_hash (password : string) (w : unit) : string * unit :=
  ("hash(" +:+ password +:+ ")", w).

Definition sample_compare (password hash : string) : bool :=
  String.eqb ("hash(" +:+ password +:+ ")") hash.

Definition sample_random (w : unit) : string * unit := ("c0ffee", w).

Definition sample_jwt (userId_ role_ secret expiresIn : string) (w : unit) : string :=
  "jwt:" +:+ userId_ +:+ ":" +:+ role_.

Definition sample_user_create (req : AuthRequest) (tbl : gmap string UserRow) (w : unit)
  : Result CreatedUser * unit :=
  (Ok {| new_id := "7"; new_role := default "VOLUNTEER" (body_role req);
         new_isVerified := false |}, w).

Definition no_unfiltered (tbl : gmap string UserRow) : option UserRow := None.

(** A database that answers an unfiltered [findFirst] with its first row. *)
Definition first_row (tbl : gmap string UserRow) : option UserRow :=
  head (map snd (map_to_list tbl)).

Definition never_refused (u : UserRow) : option Error := None.

Definition alice : UserRow :=
  {| u_id := "1"; u_email := "alice@example.org"; u_password := "hash(secret)";
     u_firstname := "Alice"; u_lastname := "Mukamana"; u_role := "VOLUNTEER";
     u_isVerified := false; u_verificationToken := Some "abc123" |}.

(** A user who was never sent a verification token. *)
Definition bob : UserRow :=
  {| u_id := "2"; u_email := "bob@example.org"; u_password := "hash(pw)";
     u_firstname := "Bob"; u_lastname := "Kagabo"; u_role := "NGO";
     u_isVerified := false; u_verificationToken := None |}.

Definition astate2 : @State (AuthWorld unit) :=
  {| db := Samples.db1;
     world := {| users := {[ "2" := bob ]}; outbox := []; ext := tt |};
     trace := [] |}.

Definition astate1 : @State (AuthWorld unit) :=
  {| db := Samples.db1;
     world := {| users := {[ "1" := alice ]}; outbox := []; ext := tt |};
     trace := [] |}.

Definition auth_request (who role_ : string) : AuthRequest :=
  {| auth_req_user := {| user_id := who; role := role_ |};
     body_email := None; body_password := None; body_firstname := None;
     body_lastname := None; body_role := None; body_token := None;
     body_currentPassword := None; body_newPassword := None |}.

Definition login_request (email password : string) : AuthRequest :=
  {| auth_req_user := {| user_id := ""; role := "" |};
     body_email := Some email; body_password := Some password; body_firstname := None;
     body_lastname := None; body_role := None; body_token := None;
     body_currentPassword := None; body_newPassword := None |}.

Definition register_request (email password firstname lastname : string) : AuthRequest :=
  {| auth_req_user := {| user_id := ""; role := "" |};
     body_email := Some email; body_password := Some password;
     body_firstname := Some firstname; body_lastname := Some lastname;
     body_role := None; body_token := None;
     body_currentPassword := None; body_newPassword := None |}.

Definition token_request (token : string) : AuthRequest :=
  {| auth_req_user := {| user_id := ""; role := "" |};
     body_email := None; body_password := None; body_firstname := None;
     body_lastname := None; body_role := None; body_token := Some token;
     body_currentPassword := None; body_newPassword := None |}.

Definition password_request (who password : string) : AuthRequest :=
  {| auth_req_user := {| user_id := who; role := "VOLUNTEER" |};
     body_email := None; body_password := Some password; body_firstname := None;
     body_lastname := None; body_role := None; body_token := None;
     body_currentPassword := Some password; body_newPassword := Some "renewed" |}.

End MoreSamples.

(** * Unfolding the handlers

    Each tactic exposes the body of one handler: the monad's operations and
    the database calls are unfolded, so that what is left is the handler's
    own case analysis. *)

Module HandlerTactics.

Import ProjectController ProjectWorkflow.

Ltac run_withdraw :=
  unfold withdrawApplication, handler, bind, application_findUnique, throw,
    application_delete, project_update, sendNotification, ret;
  cbv zeta.

Ltac run_apply :=
  unfold applyForProject, handler, bind, project_findUnique,
    application_findByVolunteerProject, application_create, project_update,
    sendNotice, throw, ret;
  cbv zeta.

Ltac run_respond :=
  unfold respondToApplication, handler, bind, application_findUnique,
    application_update_status, sendNotice, throw, ret;
  cbv zeta.

Ltac run_delete :=
  unfold deleteProject, handler, bind, project_findUnique,
    application_findMany_of_project, project_delete, throw, ret;
  cbv zeta.

Import AuthController.

Ltac run_register :=
  unfold register, handler, bind, user_findUnique_by_email, bcryptHash,
    generateVerificationToken, user_create, sendVerificationEmail, sendEmail,
    generateToken, throw, ret, set_users, set_ext;
  cbv zeta.

End HandlerTactics.

(** * Properties *)

(** ** Arithmetic of the JavaScript primitives *)

Lemma gt_true_iff (x y : Q) : Js.gt x y = true <-> (y < x)%Q.
Proof.
  unfold Js.gt. rewrite negb_true_iff.
  split.
  - intros H. apply Qnot_le_lt. intros Hle.
    apply Qle_bool_iff in Hle. congruence.
  - intros H. destruct (Qle_bool x y) eqn:E; [|reflexivity].
    apply Qle_bool_iff in E. exfalso. eapply Qlt_not_le; eauto.
Qed.

Lemma gt_false_iff (x y : Q) : Js.gt x y = false <-> (x <= y)%Q.
Proof.
  unfold Js.gt. rewrite negb_false_iff. apply Qle_bool_iff.
Qed.

(** *** Powers of two *)

Lemma pow2_pos (e : Z) : (0 < 2 ^ e)%Q.
Proof. apply Qpower_0_lt. reflexivity. Qed.

Lemma pow2_add (a b : Z) : (2 ^ (a + b) == 2 ^ a * 2 ^ b)%Q.
Proof. apply Qpower_plus. discriminate. Qed.

Lemma pow2_le (a b : Z) : a <= b -> (2 ^ a <= 2 ^ b)%Q.
Proof. intros H. apply Qpower_le_compat_l; [exact H | discriminate]. Qed.

Lemma pow2_lt (a b : Z) : a < b -> (2 ^ a < 2 ^ b)%Q.
Proof. intros H. apply Qpower_lt_compat_l; [exact H | reflexivity]. Qed.

Lemma pow2_lt_inv (a b : Z) : (2 ^ a < 2 ^ b)%Q -> a < b.
Proof. intros H. apply (Qpower_lt_compat_l_inv 2); [exact H | reflexivity]. Qed.

Lemma pow2_succ (a : Z) : (2 ^ (a + 1) == 2 * 2 ^ a)%Q.
Proof. rewrite pow2_add. change (2 ^ 1)%Q with 2%Q. ring. Qed.

Lemma pow2_pred (a : Z) : (2 ^ (a - 1) == 2 ^ a / 2)%Q.
Proof.
  replace a with ((a - 1) + 1) at 2 by lia. rewrite pow2_succ. field.
Qed.

Lemma pow2_inject (n : Z) : 0 <= n -> (inject_Z (2 ^ n) == 2 ^ n)%Q.
Proof. intros H. apply Zpower_Qpower. exact H. Qed.

Lemma Zlog2_Q (a : Z) :
  0 < a -> (2 ^ Z.log2 a <= inject_Z a /\ inject_Z a < 2 ^ (Z.log2 a + 1))%Q.
Proof.
  intros H. destruct (Z.log2_spec a H) as [Hlo Hhi].
  pose proof (Z.log2_nonneg a) as Hnn.
  split.
  - rewrite <- pow2_inject by exact Hnn. rewrite <- Zle_Qle. exact Hlo.
  - rewrite <- pow2_inject by lia. rewrite <- Zlt_Qlt.
    replace (Z.log2 a + 1) with (Z.succ (Z.log2 a)) by lia. exact Hhi.
Qed.

Lemma Qabs_make (x : Q) : (Qabs x == inject_Z (Z.abs (Qnum x)) / inject_Z (Zpos (Qden x)))%Q.
Proof.
  destruct x as [a b]. unfold Qabs. cbn [Qnum Qden].
  rewrite (Qmake_Qdiv (Z.abs a) b). reflexivity.
Qed.

Lemma scale_le_aux (P L B : Q) : (0 < P -> L <= B -> 2 * (P * L) <= 2 * P * B)%Q.
Proof. intros. nra. Qed.

Lemma scale_lt_aux (P L B : Q) : (0 < P -> B < 2 * L -> P / 2 * B < P * L)%Q.
Proof.
  intros HP HB. assert (E : (P / 2 * B == P * B * (1 # 2))%Q) by field.
  rewrite E. nra.
Qed.

Lemma ilog2_spec (x : Q) :
  ~ (x == 0)%Q -> (2 ^ Js.ilog2 x <= Qabs x /\ Qabs x < 2 ^ (Js.ilog2 x + 1))%Q.
Proof.
  intros Hx. unfold Js.ilog2.
  set (a := Z.abs (Qnum x)). set (b := Zpos (Qden x)).
  assert (Ha : 0 < a).
  { unfold a. destruct x as [n d]. cbn. unfold Qeq in Hx. cbn in Hx. lia. }
  assert (Hb : 0 < b) by (unfold b; lia).
  destruct (Zlog2_Q a Ha) as [Ha1 Ha2]. destruct (Zlog2_Q b Hb) as [Hb1 Hb2].
  set (la := Z.log2 a) in *. set (lb := Z.log2 b) in *.
  assert (Habs : (Qabs x == inject_Z a / inject_Z b)%Q) by apply Qabs_make.
  assert (Hbq : (0 < inject_Z b)%Q) by (rewrite <- (Zlt_Qlt 0); exact Hb).
  pose proof (pow2_pos lb) as Hplb. pose proof (pow2_pos (la - lb)) as Hpd.
  assert (Hla : (2 ^ la == 2 ^ (la - lb) * 2 ^ lb)%Q).
  { rewrite <- pow2_add. replace (la - lb + lb) with la by lia. reflexivity. }
  assert (Hupper : (Qabs x < 2 ^ (la - lb + 1))%Q).
  { rewrite Habs. apply Qlt_shift_div_r; [exact Hbq|].
    rewrite pow2_succ.
    apply Qlt_le_trans with (2 ^ (la + 1))%Q; [exact Ha2|].
    rewrite pow2_succ, Hla.
    apply scale_le_aux; assumption. }
  assert (Hlower : (2 ^ (la - lb - 1) < Qabs x)%Q).
  { rewrite Habs. apply Qlt_shift_div_l; [exact Hbq|].
    rewrite pow2_pred.
    apply Qlt_le_trans with (2 ^ la)%Q; [|exact Ha1].
    rewrite Hla. rewrite pow2_succ in Hb2.
    apply scale_lt_aux; assumption. }
  destruct (Qle_bool (2 ^ (la - lb)) (Qabs x)) eqn:E.
  - apply Qle_bool_iff in E. split; [exact E | exact Hupper].
  - split; [apply Qlt_le_weak, Hlower|].
    replace (la - lb - 1 + 1) with (la - lb) by lia.
    apply Qnot_le_lt. intros Hle. apply Qle_bool_iff in Hle. congruence.
Qed.

Lemma ilog2_unique (x : Q) (E : Z) :
  (2 ^ E <= Qabs x)%Q -> (Qabs x < 2 ^ (E + 1))%Q -> Js.ilog2 x = E.
Proof.
  intros Hlo Hhi.
  assert (Hx : ~ (x == 0)%Q).
  { intros H0. rewrite H0 in Hlo. pose proof (pow2_pos E). change (Qabs 0) with 0%Q in Hlo. lra. }
  destruct (ilog2_spec x Hx) as [Hlo' Hhi'].
  assert (Js.ilog2 x < E + 1) by (apply pow2_lt_inv; lra).
  assert (E < Js.ilog2 x + 1) by (apply pow2_lt_inv; lra).
  lia.
Qed.

Lemma ilog2_le (x y : Q) :
  ~ (x == 0)%Q -> (Qabs x <= Qabs y)%Q -> Js.ilog2 x <= Js.ilog2 y.
Proof.
  intros Hx Hle.
  assert (Hy : ~ (y == 0)%Q).
  { intros H0. rewrite H0 in Hle. change (Qabs 0) with 0%Q in Hle.
    apply Hx. apply Qabs_Qle_condition in Hle. lra. }
  destruct (ilog2_spec x Hx) as [Hlo _]. destruct (ilog2_spec y Hy) as [_ Hhi].
  assert (Js.ilog2 x < Js.ilog2 y + 1) by (apply pow2_lt_inv; lra).
  lia.
Qed.

(** *** Rounding to the nearest integer, ties to even *)

Lemma even_consecutive (n : Z) : Z.even n = true -> Z.even (n + 1) = true -> False.
Proof.
  intros H1 H2. rewrite Z.add_1_r, Z.even_succ, <- Z.negb_even, H1 in H2. discriminate.
Qed.

Lemma inject_Z_le_succ (n m : Z) : (inject_Z n <= inject_Z m + 1)%Q -> n <= m + 1.
Proof.
  intros H. rewrite Zle_Qle, inject_Z_plus. exact H.
Qed.

Lemma floor_bounds (t : Q) :
  (inject_Z (Qfloor t) <= t /\ t < inject_Z (Qfloor t) + 1)%Q.
Proof.
  split; [apply Qfloor_le|].
  pose proof (Qlt_floor t) as H. rewrite inject_Z_plus in H. exact H.
Qed.

Lemma round_half_even_bounds (t : Q) :
  (inject_Z (Js.round_half_even t) - (1 # 2) <= t
   /\ t <= inject_Z (Js.round_half_even t) + (1 # 2))%Q.
Proof.
  unfold Js.round_half_even. destruct (floor_bounds t) as [Hlo Hhi].
  destruct (Qcompare_spec (t - inject_Z (Qfloor t)) (1 # 2)) as [E|E|E].
  - destruct (Z.even (Qfloor t)); rewrite ?inject_Z_plus; change (inject_Z 1) with 1%Q; lra.
  - lra.
  - rewrite inject_Z_plus. change (inject_Z 1) with 1%Q. lra.
Qed.

Lemma round_half_even_tie (t : Q) :
  (t == inject_Z (Js.round_half_even t) + (1 # 2)
   \/ t == inject_Z (Js.round_half_even t) - (1 # 2))%Q ->
  Z.even (Js.round_half_even t) = true.
Proof.
  unfold Js.round_half_even. destruct (floor_bounds t) as [Hlo Hhi].
  destruct (Qcompare_spec (t - inject_Z (Qfloor t)) (1 # 2)) as [E|E|E].
  - destruct (Z.even (Qfloor t)) eqn:Hev; intros _; [exact Hev|].
    rewrite Z.add_1_r, Z.even_succ, <- Z.negb_even, Hev. reflexivity.
  - intros [H|H]; lra.
  - rewrite inject_Z_plus. change (inject_Z 1) with 1%Q. intros [H|H]; lra.
Qed.

Lemma round_half_even_unique (t : Q) (m : Z) :
  (inject_Z m - (1 # 2) <= t)%Q -> (t <= inject_Z m + (1 # 2))%Q ->
  ((t == inject_Z m + (1 # 2) \/ t == inject_Z m - (1 # 2))%Q -> Z.even m = true) ->
  Js.round_half_even t = m.
Proof.
  intros Hlo Hhi Htie.
  destruct (round_half_even_bounds t) as [Hlo' Hhi'].
  pose proof (round_half_even_tie t) as Htie'.
  set (n := Js.round_half_even t) in *.
  assert (H1 : n <= m + 1) by (apply inject_Z_le_succ; lra).
  assert (H2 : m <= n + 1) by (apply inject_Z_le_succ; lra).
  destruct (Z.eq_dec n m) as [|Hne]; [assumption|exfalso].
  destruct (Z.eq_dec n (m + 1)) as [E|E'].
  - rewrite E, inject_Z_plus in Hlo', Htie'. change (inject_Z 1) with 1%Q in *.
    apply (even_consecutive m).
    + apply Htie. left. lra.
    + apply Htie'. right. lra.
  - assert (E : m = n + 1) by lia.
    rewrite E, inject_Z_plus in Hlo, Htie. change (inject_Z 1) with 1%Q in *.
    apply (even_consecutive n).
    + apply Htie'. left. lra.
    + apply Htie. right. lra.
Qed.

Lemma round_half_even_mono (t u : Q) :
  (t <= u)%Q -> Js.round_half_even t <= Js.round_half_even u.
Proof.
  intros Hle.
  destruct (round_half_even_bounds t) as [Hlo Hhi].
  destruct (round_half_even_bounds u) as [Hlo' Hhi'].
  pose proof (round_half_even_tie t) as Htie.
  pose proof (round_half_even_tie u) as Htie'.
  set (n := Js.round_half_even t) in *. set (m := Js.round_half_even u) in *.
  assert (H1 : n <= m + 1) by (apply inject_Z_le_succ; lra).
  destruct (Z.eq_dec n (m + 1)) as [E|E]; [exfalso|lia].
  rewrite E, inject_Z_plus in Hlo, Htie. change (inject_Z 1) with 1%Q in *.
  apply (even_consecutive m).
  - apply Htie'. left. lra.
  - apply Htie. right. lra.
Qed.

Lemma round_half_even_comp (t u : Q) : (t == u)%Q -> Js.round_half_even t = Js.round_half_even u.
Proof.
  intros E. apply Z.le_antisymm; apply round_half_even_mono; lra.
Qed.

Lemma round_half_even_Z (k : Z) : Js.round_half_even (inject_Z k) = k.
Proof.
  apply round_half_even_unique; lra.
Qed.

Lemma round_half_even_opp (t : Q) : Js.round_half_even (- t) = - Js.round_half_even t.
Proof.
  destruct (round_half_even_bounds t) as [Hlo Hhi].
  pose proof (round_half_even_tie t) as Htie.
  apply round_half_even_unique; rewrite ?inject_Z_opp; try lra.
  intros H. rewrite Z.even_opp. apply Htie. destruct H as [H|H]; [right|left]; lra.
Qed.

(** *** Rounding to 53 significant bits *)

Lemma div_pow2_le (x y : Q) (e : Z) : (x <= y)%Q -> (x / 2 ^ e <= y / 2 ^ e)%Q.
Proof.
  intros H. unfold Qdiv. apply Qmult_le_compat_r; [exact H|].
  apply Qinv_le_0_compat, Qlt_le_weak, pow2_pos.
Qed.

Lemma pow2_quotient (e k : Z) : 0 <= k -> (2 ^ (e + k) / 2 ^ e == inject_Z (2 ^ k))%Q.
Proof.
  intros Hk. rewrite pow2_inject by exact Hk. rewrite pow2_add.
  field. apply Qnot_eq_sym, Qlt_not_eq, pow2_pos.
Qed.

Lemma scaled_le (n : Z) (e k : Z) :
  0 <= k -> n <= 2 ^ k -> (inject_Z n * 2 ^ e <= 2 ^ (e + k))%Q.
Proof.
  intros Hk Hn. rewrite pow2_add, <- (pow2_inject k) by exact Hk.
  rewrite (Qmult_comm (2 ^ e)). apply Qmult_le_compat_r.
  - rewrite <- Zle_Qle. exact Hn.
  - apply Qlt_le_weak, pow2_pos.
Qed.

Lemma scaled_ge (n : Z) (e k : Z) :
  0 <= k -> 2 ^ k <= n -> (2 ^ (e + k) <= inject_Z n * 2 ^ e)%Q.
Proof.
  intros Hk Hn. rewrite pow2_add, <- (pow2_inject k) by exact Hk.
  rewrite (Qmult_comm (2 ^ e)). apply Qmult_le_compat_r.
  - rewrite <- Zle_Qle. exact Hn.
  - apply Qlt_le_weak, pow2_pos.
Qed.

Lemma round_scaled_le (x : Q) (e k : Z) :
  0 <= k -> (x <= 2 ^ (e + k))%Q ->
  (inject_Z (Js.round_half_even (x / 2 ^ e)) * 2 ^ e <= 2 ^ (e + k))%Q.
Proof.
  intros Hk Hx. apply scaled_le; [exact Hk|].
  rewrite <- (round_half_even_Z (2 ^ k)). apply round_half_even_mono.
  rewrite <- (pow2_quotient e k Hk). apply div_pow2_le, Hx.
Qed.

Lemma round_scaled_ge (x : Q) (e k : Z) :
  0 <= k -> (2 ^ (e + k) <= x)%Q ->
  (2 ^ (e + k) <= inject_Z (Js.round_half_even (x / 2 ^ e)) * 2 ^ e)%Q.
Proof.
  intros Hk Hx. apply scaled_ge; [exact Hk|].
  rewrite <- (round_half_even_Z (2 ^ k)) at 1. apply round_half_even_mono.
  rewrite <- (pow2_quotient e k Hk). apply div_pow2_le, Hx.
Qed.

Lemma round_scaled_mono (x y : Q) (e : Z) :
  (x <= y)%Q ->
  (inject_Z (Js.round_half_even (x / 2 ^ e)) * 2 ^ e
   <= inject_Z (Js.round_half_even (y / 2 ^ e)) * 2 ^ e)%Q.
Proof.
  intros H. apply Qmult_le_compat_r; [|apply Qlt_le_weak, pow2_pos].
  rewrite <- Zle_Qle. apply round_half_even_mono, div_pow2_le, H.
Qed.

Lemma nearest_pos_mono (x y : Q) : (0 < x)%Q -> (x <= y)%Q -> (Js.nearest x <= Js.nearest y)%Q.
Proof.
  intros Hx Hxy. unfold Js.nearest, Js.ulp_exponent.
  assert (Hx0 : ~ (x == 0)%Q) by lra. assert (Hy0 : ~ (y == 0)%Q) by lra.
  destruct (ilog2_spec x Hx0) as [Hxlo Hxhi]. destruct (ilog2_spec y Hy0) as [Hylo Hyhi].
  rewrite Qabs_pos in Hxlo, Hxhi, Hylo, Hyhi by lra.
  assert (HE : Js.ilog2 x <= Js.ilog2 y).
  { apply ilog2_le; [exact Hx0|]. rewrite !Qabs_pos by lra. exact Hxy. }
  set (Ex := Js.ilog2 x) in *. set (Ey := Js.ilog2 y) in *.
  destruct (Z.eq_dec (Z.max (Ex - 52) (-1074)) (Z.max (Ey - 52) (-1074))) as [Heq|Hne].
  - rewrite Heq. apply round_scaled_mono, Hxy.
  - set (ex := Z.max (Ex - 52) (-1074)) in *. set (ey := Z.max (Ey - 52) (-1074)) in *.
    assert (Hey : ey = Ey - 52) by lia.
    assert (Hlt : Ex + 1 <= Ey) by lia.
    apply Qle_trans with (2 ^ Ey)%Q.
    + replace Ey with (ex + (Ey - ex)) by lia.
      apply round_scaled_le; [lia|].
      replace (ex + (Ey - ex)) with Ey by lia.
      apply Qle_trans with (2 ^ (Ex + 1))%Q; [lra | apply pow2_le; lia].
    + replace Ey with (ey + 52) at 1 by lia.
      apply round_scaled_ge; [lia|].
      replace (ey + 52) with Ey by lia. exact Hylo.
Qed.

Lemma ilog2_opp (x : Q) : Js.ilog2 (- x) = Js.ilog2 x.
Proof.
  destruct x as [n d]. unfold Js.ilog2, Qopp. cbn [Qnum Qden].
  rewrite Z.abs_opp.
  assert (E : Qle_bool (2 ^ (Z.log2 (Z.abs n) - Z.log2 (Z.pos d))) (Qabs (- n # d))
              = Qle_bool (2 ^ (Z.log2 (Z.abs n) - Z.log2 (Z.pos d))) (Qabs (n # d))).
  { unfold Qabs. rewrite Z.abs_opp. reflexivity. }
  rewrite E. reflexivity.
Qed.

Lemma nearest_opp (x : Q) : (Js.nearest (- x) == - Js.nearest x)%Q.
Proof.
  unfold Js.nearest, Js.ulp_exponent. rewrite ilog2_opp.
  set (e := Z.max (Js.ilog2 x - 52) (-1074)).
  assert (E : (- x / 2 ^ e == - (x / 2 ^ e))%Q).
  { field. apply Qnot_eq_sym, Qlt_not_eq, pow2_pos. }
  rewrite (round_half_even_comp _ _ E), round_half_even_opp, inject_Z_opp. ring.
Qed.

Lemma nearest_zero (x : Q) : (x == 0)%Q -> (Js.nearest x == 0)%Q.
Proof.
  intros H. unfold Js.nearest.
  assert (E : (x / 2 ^ Js.ulp_exponent x == inject_Z 0)%Q).
  { transitivity (0 / 2 ^ Js.ulp_exponent x)%Q.
    - apply Qdiv_comp; [exact H | reflexivity].
    - unfold Qdiv. change (inject_Z 0) with 0%Q. ring. }
  rewrite (round_half_even_comp _ _ E), round_half_even_Z. change (inject_Z 0) with 0%Q. ring.
Qed.

Lemma nearest_nonneg (x : Q) : (0 <= x)%Q -> (0 <= Js.nearest x)%Q.
Proof.
  intros H. unfold Js.nearest. apply Qmult_le_0_compat; [|apply Qlt_le_weak, pow2_pos].
  change 0%Q with (inject_Z 0). rewrite <- Zle_Qle.
  rewrite <- (round_half_even_Z 0). apply round_half_even_mono.
  change (inject_Z 0) with 0%Q.
  apply Qle_shift_div_l; [apply pow2_pos | lra].
Qed.

Lemma nearest_mono (x y : Q) : (x <= y)%Q -> (Js.nearest x <= Js.nearest y)%Q.
Proof.
  intros Hxy.
  destruct (Qlt_le_dec 0 x) as [Hx|Hx].
  - apply nearest_pos_mono; assumption.
  - destruct (Qlt_le_dec y 0) as [Hy|Hy].
    + assert (H : (Js.nearest (- y) <= Js.nearest (- x))%Q) by (apply nearest_pos_mono; lra).
      rewrite !nearest_opp in H. lra.
    + assert (H1 : (0 <= Js.nearest (- x))%Q) by (apply nearest_nonneg; lra).
      rewrite nearest_opp in H1.
      pose proof (nearest_nonneg y Hy). lra.
Qed.

Lemma nearest_comp (x y : Q) : (x == y)%Q -> (Js.nearest x == Js.nearest y)%Q.
Proof.
  intros E. apply Qle_antisym; apply nearest_mono; lra.
Qed.

Lemma scaled_error (n t p : Q) :
  (0 < p -> n - (1 # 2) <= t -> t <= n + (1 # 2) -> Qabs (n * p - t * p) <= p * (1 # 2))%Q.
Proof.
  intros Hp Hlo Hhi. apply Qabs_Qle_condition. split; nra.
Qed.

Lemma nearest_error (x : Q) :
  (Qabs (Js.nearest x - x) <= 2 ^ Js.ulp_exponent x * (1 # 2))%Q.
Proof.
  unfold Js.nearest. set (e := Js.ulp_exponent x).
  pose proof (pow2_pos e) as He.
  destruct (round_half_even_bounds (x / 2 ^ e)) as [Hlo Hhi].
  assert (Ex : (x == x / 2 ^ e * 2 ^ e)%Q) by (field; lra).
  rewrite Ex at 2. apply scaled_error; assumption.
Qed.

Lemma ulp_exponent_bound (x : Q) :
  ~ (x == 0)%Q -> (2 ^ Js.ulp_exponent x <= Qabs x * 2 ^ (-52) + 2 ^ (-1074))%Q.
Proof.
  intros Hx. unfold Js.ulp_exponent.
  destruct (ilog2_spec x Hx) as [Hlo _].
  pose proof (pow2_pos (-1074)). pose proof (pow2_pos (-52)).
  pose proof (Qabs_nonneg x).
  destruct (Z.max_spec (Js.ilog2 x - 52) (-1074)) as [[_ ->]|[_ ->]].
  - assert (0 <= Qabs x * 2 ^ (-52))%Q by (apply Qmult_le_0_compat; lra). lra.
  - replace (Js.ilog2 x - 52) with (Js.ilog2 x + -52) by lia. rewrite pow2_add.
    assert (2 ^ Js.ilog2 x * 2 ^ (-52) <= Qabs x * 2 ^ (-52))%Q
      by (apply Qmult_le_compat_r; lra).
    lra.
Qed.

Lemma nearest_relative_error (x : Q) :
  (Qabs (Js.nearest x - x) <= Qabs x * 2 ^ (-53) + 2 ^ (-1075))%Q.
Proof.
  destruct (Qeq_dec x 0) as [H0|H0].
  - rewrite (nearest_zero x H0), H0. vm_compute. discriminate.
  - pose proof (nearest_error x). pose proof (ulp_exponent_bound x H0).
    assert (E1 : (2 ^ (-53) == 2 ^ (-52) * (1 # 2))%Q) by reflexivity.
    assert (E2 : (2 ^ (-1075) == 2 ^ (-1074) * (1 # 2))%Q) by reflexivity.
    rewrite E1, E2. lra.
Qed.

(** *** Numbers *)

Lemma binary64_cases (x : Q) :
  (Js.binary64 x = Js.Infinity /\ (2 ^ 1024 <= Js.nearest x)%Q)
  \/ (Js.binary64 x = Js.NegInfinity /\ (Js.nearest x <= - 2 ^ 1024)%Q)
  \/ (Js.binary64 x = Js.Finite (Qred (Js.nearest x))
      /\ (- 2 ^ 1024 < Js.nearest x)%Q /\ (Js.nearest x < 2 ^ 1024)%Q).
Proof.
  unfold Js.binary64. cbv zeta.
  destruct (Qle_bool (2 ^ 1024) (Js.nearest x)) eqn:E1.
  - left. split; [reflexivity | apply Qle_bool_iff, E1].
  - destruct (Qle_bool (Js.nearest x) (- 2 ^ 1024)) eqn:E2.
    + right. left. split; [reflexivity | apply Qle_bool_iff, E2].
    + right. right. split; [reflexivity|].
      split; apply Qnot_le_lt; intros H; apply Qle_bool_iff in H; congruence.
Qed.

Lemma binary64_not_NaN (x : Q) : Js.binary64 x <> Js.NaN.
Proof.
  destruct (binary64_cases x) as [[-> _]|[[-> _]|[-> _]]]; discriminate.
Qed.

Lemma binary64_mono (x y : Q) : (x <= y)%Q -> Js.le (Js.binary64 x) (Js.binary64 y).
Proof.
  intros H. pose proof (nearest_mono x y H) as Hn.
  assert (Hbig : (- 2 ^ 1024 < 2 ^ 1024)%Q) by reflexivity.
  destruct (binary64_cases x) as [[-> Hx]|[[-> Hx]|[-> [Hx1 Hx2]]]];
    destruct (binary64_cases y) as [[-> Hy]|[[-> Hy]|[-> [Hy1 Hy2]]]];
    cbn [Js.le]; rewrite ?Qred_correct; try exact I; try lra.
Qed.

Lemma binary64_comp (x y : Q) : (x == y)%Q -> Js.binary64 x = Js.binary64 y.
Proof.
  intros E. pose proof (nearest_comp x y E) as En.
  assert (Hbig : (- 2 ^ 1024 < 2 ^ 1024)%Q) by reflexivity.
  destruct (binary64_cases x) as [[-> Hx]|[[-> Hx]|[-> [Hx1 Hx2]]]];
    destruct (binary64_cases y) as [[-> Hy]|[[-> Hy]|[-> [Hy1 Hy2]]]];
    try reflexivity; try lra.
  f_equal. apply Qred_complete, En.
Qed.

Lemma binary64_error (x v : Q) :
  Js.binary64 x = Js.Finite v -> (Qabs (v - x) <= Qabs x * 2 ^ (-53) + 2 ^ (-1075))%Q.
Proof.
  intros H.
  destruct (binary64_cases x) as [[E _]|[[E _]|[E _]]]; rewrite E in H; try discriminate.
  injection H as <-.
  assert (Ev : (Qred (Js.nearest x) - x == Js.nearest x - x)%Q) by (rewrite Qred_correct; reflexivity).
  rewrite Ev. apply nearest_relative_error.
Qed.

Lemma nearest_pow2_1023 : (Js.nearest (2 ^ 1023) == 2 ^ 1023)%Q.
Proof. vm_compute. reflexivity. Qed.

Lemma binary64_Infinity (x : Q) : Js.binary64 x = Js.Infinity -> (2 ^ 1023 <= x)%Q.
Proof.
  intros H.
  destruct (binary64_cases x) as [[_ Hn]|[[E _]|[E _]]]; try (rewrite E in H; discriminate).
  apply Qnot_lt_le. intros Hlt.
  pose proof (nearest_mono x (2 ^ 1023) (Qlt_le_weak _ _ Hlt)) as Hm.
  rewrite nearest_pow2_1023 in Hm.
  assert (Hbig : (2 ^ 1023 < 2 ^ 1024)%Q) by reflexivity. lra.
Qed.

Lemma binary64_NegInfinity (x : Q) : Js.binary64 x = Js.NegInfinity -> (x <= - 2 ^ 1023)%Q.
Proof.
  intros H.
  destruct (binary64_cases x) as [[E _]|[[_ Hn]|[E _]]]; try (rewrite E in H; discriminate).
  apply Qnot_lt_le. intros Hlt.
  assert (Hm : (Js.nearest (- x) <= Js.nearest (2 ^ 1023))%Q) by (apply nearest_mono; lra).
  rewrite nearest_pow2_1023, nearest_opp in Hm.
  assert (Hbig : (2 ^ 1023 < 2 ^ 1024)%Q) by reflexivity. lra.
Qed.

(** *** [Math.round] and the rounding to hundredths *)

Lemma Math_round_close (x : Q) :
  (inject_Z (Js.Math_round x) - (1 # 2) <= x /\ x < inject_Z (Js.Math_round x) + (1 # 2))%Q.
Proof.
  unfold Js.Math_round.
  pose proof (Qfloor_le (x + (1 # 2))) as Hlo.
  pose proof (Qlt_floor (x + (1 # 2))) as Hhi.
  rewrite inject_Z_plus in Hhi. change (inject_Z 1) with 1%Q in Hhi.
  split; lra.
Qed.

Lemma Math_round_mono (x y : Q) : (x <= y)%Q -> Js.Math_round x <= Js.Math_round y.
Proof.
  intros H. unfold Js.Math_round. apply Qfloor_resp_le. lra.
Qed.

Lemma Math_round_unique (x : Q) (k : Z) :
  (inject_Z k - (1 # 2) <= x)%Q -> (x < inject_Z k + (1 # 2))%Q -> Js.Math_round x = k.
Proof.
  intros Hlo Hhi. destruct (Math_round_close x) as [Hlo' Hhi'].
  assert (H1 : Js.Math_round x <= k).
  { apply Z.lt_succ_r. rewrite Zlt_Qlt. unfold Z.succ. rewrite inject_Z_plus.
    change (inject_Z 1) with 1%Q. lra. }
  assert (H2 : k <= Js.Math_round x).
  { apply Z.lt_succ_r. rewrite Zlt_Qlt. unfold Z.succ. rewrite inject_Z_plus.
    change (inject_Z 1) with 1%Q. lra. }
  lia.
Qed.

Lemma round_hundredths_not_NaN (x : Q) : AIController.round_hundredths x <> Js.NaN.
Proof.
  unfold AIController.round_hundredths.
  destruct (Js.binary64 (x * 100)) eqn:E; try discriminate.
  - exfalso. exact (binary64_not_NaN _ E).
  - apply binary64_not_NaN.
Qed.

Lemma le_NegInfinity (y : Js.Number) : y <> Js.NaN -> Js.le Js.NegInfinity y.
Proof. destruct y; cbn; auto. Qed.

Lemma le_Infinity (x : Js.Number) : x <> Js.NaN -> Js.le x Js.Infinity.
Proof. destruct x; cbn; auto. Qed.

Lemma round_hundredths_mono (x y : Q) :
  (x <= y)%Q -> Js.le (AIController.round_hundredths x) (AIController.round_hundredths y).
Proof.
  intros H.
  assert (H100 : (x * 100 <= y * 100)%Q) by lra.
  pose proof (binary64_mono _ _ H100) as Hm.
  pose proof (round_hundredths_not_NaN x) as Hx.
  pose proof (round_hundredths_not_NaN y) as Hy.
  unfold AIController.round_hundredths in *.
  destruct (Js.binary64 (x * 100)) as [|a| |] eqn:Ex;
    destruct (Js.binary64 (y * 100)) as [|b| |] eqn:Ey; cbn in Hm; try contradiction.
  - apply binary64_mono.
    pose proof (Math_round_mono a b Hm) as Hk. rewrite Zle_Qle in Hk.
    unfold Qdiv. apply Qmult_le_compat_r; [exact Hk | discriminate].
  - apply le_Infinity, Hx.
  - reflexivity.
  - apply le_NegInfinity, Hy.
  - reflexivity.
  - reflexivity.
Qed.

Lemma round_hundredths_rounded (x : Q) :
  AIController.rounded_to 100 x (AIController.round_hundredths x).
Proof.
  unfold AIController.round_hundredths, AIController.rounded_to.
  assert (Habs : (Qabs (x * 100) == Qabs x * 100)%Q) by (rewrite Qabs_Qmult; reflexivity).
  pose proof (Qabs_nonneg x) as Hnn.
  destruct (Js.binary64 (x * 100)) as [|v| |] eqn:E.
  - exfalso. exact (binary64_not_NaN _ E).
  - left. exists (Js.Math_round v). split; [reflexivity|].
    pose proof (binary64_error _ _ E) as Herr. rewrite Habs in Herr.
    destruct (Math_round_close v) as [Hlo Hhi].
    apply Qabs_Qle_condition in Herr. apply Qabs_Qle_condition.
    assert (Hsmall : (2 ^ (-1075) <= 2 ^ (-53))%Q) by (vm_compute; discriminate).
    assert (Hpos : (0 < 2 ^ (-1075))%Q) by reflexivity.
    assert (Ediv : (inject_Z (Js.Math_round v) / inject_Z 100
                    == inject_Z (Js.Math_round v) * (1 # 100))%Q) by (field).
    rewrite Ediv. change (1 # 2 * 100)%Q with (1 # 200)%Q.
    destruct Herr as [Herr1 Herr2].
    revert Hsmall Hpos Herr1 Herr2.
    generalize (2 ^ (-1075))%Q (2 ^ (-53))%Q (Qabs x) Hnn. intros tiny eps A HA.
    intros. split; nra.
  - right. split; [|left; reflexivity].
    apply binary64_Infinity in E.
    assert (Hscale : (2 ^ 1016 * 100 <= 2 ^ 1023)%Q) by (vm_compute; discriminate).
    assert (Hx : (x <= Qabs x)%Q) by apply Qle_Qabs.
    revert Hscale E. generalize (2 ^ 1016)%Q (2 ^ 1023)%Q. intros. lra.
  - right. split; [|right; reflexivity].
    apply binary64_NegInfinity in E.
    assert (Hscale : (2 ^ 1016 * 100 <= 2 ^ 1023)%Q) by (vm_compute; discriminate).
    assert (Hx : (- x <= Qabs x)%Q) by (rewrite <- Qabs_opp; apply Qle_Qabs).
    revert Hscale E. generalize (2 ^ 1016)%Q (2 ^ 1023)%Q. intros. lra.
Qed.

Lemma le_Finite_inv (y : Js.Number) (a b : Q) :
  Js.le (Js.Finite a) y -> Js.le y (Js.Finite b) ->
  exists v, y = Js.Finite v /\ (a <= v <= b)%Q.
Proof.
  destruct y as [|v| |]; cbn; try contradiction.
  intros H1 H2. exists v. auto.
Qed.

Lemma round_hundredths_range (x : Q) :
  (0 <= x <= 100)%Q -> exists v, AIController.round_hundredths x = Js.Finite v /\ (0 <= v <= 100)%Q.
Proof.
  intros [H0 H100].
  apply le_Finite_inv.
  - change (Js.Finite 0) with (AIController.round_hundredths 0). apply round_hundredths_mono, H0.
  - change (Js.Finite 100) with (AIController.round_hundredths 100). apply round_hundredths_mono, H100.
Qed.

Lemma binary64_bounded (x : Q) (n : Z) :
  Js.binary64 (inject_Z (- n)) = Js.Finite (inject_Z (- n)) ->
  Js.binary64 (inject_Z n) = Js.Finite (inject_Z n) ->
  (inject_Z (- n) <= x <= inject_Z n)%Q ->
  exists v, Js.binary64 x = Js.Finite v /\ (inject_Z (- n) <= v <= inject_Z n)%Q.
Proof.
  intros E1 E2 [Hlo Hhi]. apply le_Finite_inv.
  - rewrite <- E1. apply binary64_mono, Hlo.
  - rewrite <- E2. apply binary64_mono, Hhi.
Qed.

Lemma two_decimals_fixed_arith (J q v v1 eps tiny : Q) :
  (eps == 1 # 9007199254740992)%Q -> (0 < tiny)%Q -> (tiny * 1000 <= eps)%Q ->
  (- 1125899906842624 <= J <= 1125899906842624)%Q ->
  (q == J * (1 # 100))%Q ->
  (Qabs (v - q) <= Qabs q * eps + tiny)%Q ->
  (Qabs (v1 - v * 100) <= Qabs (v * 100) * eps + tiny)%Q ->
  (J - (1 # 2) <= v1 /\ v1 < J + (1 # 2))%Q.
Proof.
  intros Heps Htiny Hsmall HJ Hq H1 H2.
  assert (Hq1 : (Qabs q <= 11258999068426240 # 1000)%Q).
  { apply Qabs_Qle_condition. rewrite Hq. split; lra. }
  pose proof (Qabs_nonneg q) as Hq0.
  apply Qabs_Qle_condition in H1.
  assert (Hv : (Qabs (v * 100) <= 1125899906842625)%Q).
  { apply Qabs_Qle_condition. rewrite Heps in H1. split; nra. }
  pose proof (Qabs_nonneg (v * 100)) as Hv0.
  apply Qabs_Qle_condition in H2.
  rewrite Heps in H1, H2.
  revert Hq1 Hq0 Hv Hv0 H1 H2. generalize (Qabs q) (Qabs (v * 100)). intros A B. intros.
  split; nra.
Qed.

Lemma round_hundredths_two_decimals_fixed (j : Z) :
  - 2 ^ 50 <= j <= 2 ^ 50 ->
  exists v, Js.binary64 (inject_Z j / 100) = Js.Finite v /\ AIController.round_hundredths v = Js.Finite v.
Proof.
  intros Hj.
  assert (HJ : (- 1125899906842624 <= inject_Z j <= 1125899906842624)%Q).
  { change (- 1125899906842624)%Q with (inject_Z (- 2 ^ 50)).
    change 1125899906842624%Q with (inject_Z (2 ^ 50)).
    rewrite <- !Zle_Qle. exact Hj. }
  destruct (binary64_bounded (inject_Z j / 100) (2 ^ 50)) as [v [Ev Hv]].
  { vm_compute. reflexivity. }
  { vm_compute. reflexivity. }
  { assert (E : (inject_Z j / 100 == inject_Z j * (1 # 100))%Q) by field.
    rewrite E. change (inject_Z (- 2 ^ 50)) with (- 1125899906842624)%Q.
    change (inject_Z (2 ^ 50)) with 1125899906842624%Q. split; lra. }
  exists v. split; [exact Ev|].
  destruct (binary64_bounded (v * 100) (2 ^ 57)) as [v1 [Ev1 Hv1]].
  { vm_compute. reflexivity. }
  { vm_compute. reflexivity. }
  { change (inject_Z (- 2 ^ 57)) with (- 144115188075855872)%Q.
    change (inject_Z (2 ^ 57)) with 144115188075855872%Q.
    change (inject_Z (- 2 ^ 50)) with (- 1125899906842624)%Q in Hv.
    change (inject_Z (2 ^ 50)) with 1125899906842624%Q in Hv. split; lra. }
  unfold AIController.round_hundredths. rewrite Ev1.
  assert (Hk : Js.Math_round v1 = j).
  { destruct (two_decimals_fixed_arith (inject_Z j) (inject_Z j / 100) v v1
                (2 ^ (-53)) (2 ^ (-1075))) as [Hlo Hhi].
    - reflexivity.
    - reflexivity.
    - vm_compute. discriminate.
    - exact HJ.
    - field.
    - apply binary64_error, Ev.
    - apply binary64_error, Ev1.
    - apply Math_round_unique; assumption. }
  rewrite Hk. exact Ev.
Qed.

Lemma one_quarter_not_one_decimal (x : Q) :
  (Qabs x < 2 ^ 1016)%Q -> ~ AIController.rounded_to 10 x (Js.Finite (1 # 4)).
Proof.
  intros Hx [[k [Hk _]]|[Hbig _]]; [|lra].
  destruct (Z_le_gt_dec k 2) as [Hle|Hgt].
  - assert (Hm : Js.le (Js.binary64 (inject_Z k / inject_Z 10))
                   (Js.binary64 (inject_Z 2 / inject_Z 10))).
    { apply binary64_mono. unfold Qdiv. apply Qmult_le_compat_r; [|discriminate].
      rewrite <- Zle_Qle. exact Hle. }
    rewrite <- Hk in Hm. vm_compute in Hm. apply Hm. reflexivity.
  - assert (Hm : Js.le (Js.binary64 (inject_Z 3 / inject_Z 10))
                   (Js.binary64 (inject_Z k / inject_Z 10))).
    { apply binary64_mono. unfold Qdiv. apply Qmult_le_compat_r; [|discriminate].
      rewrite <- Zle_Qle. lia. }
    rewrite <- Hk in Hm. vm_compute in Hm. apply Hm. reflexivity.
Qed.

(** ** C1: the recommendation explainer *)

Import AIController.

(** C1 (as amended).  [generateVolunteerRecommendationReason] is a function of
    four factors only: it joins with ", " the phrases triggered by
    skills > 15, location > 20, experience > 8 and availability > 12, in
    that order (the interests factor has no rule), and returns
    "Well-matched volunteer" exactly when no threshold is exceeded. *)
Theorem explainer_source_order (r : Recommendation) :
  generateVolunteerRecommendationReason r
  = explain_in_order source_factor_order (rec_factors r)
  /\ (generateVolunteerRecommendationReason r = "Well-matched volunteer"
      <-> (skills (rec_factors r) <= 15 /\ location (rec_factors r) <= 20
           /\ experience (rec_factors r) <= 8 /\ availability (rec_factors r) <= 12)%Q).
Proof.
  unfold generateVolunteerRecommendationReason, explain_in_order, source_factor_order,
    triggered_phrase, Js.push.
  cbn [flat_map reason_rule factor_value].
  rewrite <- !gt_false_iff.
  destruct (Js.gt (skills (rec_factors r)) 15),
           (Js.gt (location (rec_factors r)) 20),
           (Js.gt (experience (rec_factors r)) 8),
           (Js.gt (availability (rec_factors r)) 12);
    (split; [reflexivity | split; [intros H; try discriminate H; auto | intros (?&?&?&?); try discriminate; reflexivity]]).
Qed.

(** C1, as stated, fails: when only the experience and availability
    thresholds are exceeded the source puts the experience phrase first,
    while the stated order puts availability first. *)
Lemma explainer_spec_order_counterexample :
  generateVolunteerRecommendationReason Samples.recommendation_exp_avail
  = "Experienced volunteer, Available for commitment"
  /\ explain_in_order spec_factor_order (rec_factors Samples.recommendation_exp_avail)
     = "Available for commitment, Experienced volunteer"
  /\ generateVolunteerRecommendationReason Samples.recommendation_exp_avail
     <> explain_in_order spec_factor_order (rec_factors Samples.recommendation_exp_avail).
Proof.
  repeat split; try reflexivity.
  vm_compute. discriminate.
Qed.

(** ** C3: rounding of the scores in a response *)

Lemma roundFactors_rounded (f : MatchFactors) : factors_rounded_to 100 f (roundFactors f).
Proof.
  unfold factors_rounded_to, roundFactors; cbn.
  repeat split; apply round_hundredths_rounded.
Qed.

Lemma processMatch_rounded gen (m : Match) : match_rounded 100 m (processMatch gen m).
Proof.
  split; [apply round_hundredths_rounded | apply roundFactors_rounded].
Qed.

Lemma processRecommendation_rounded (r : Recommendation) :
  recommendation_rounded 100 r (processRecommendation r).
Proof.
  split; [apply round_hundredths_rounded | apply roundFactors_rounded].
Qed.

Lemma Forall2_map_r_intro {A B : Type} (R : A -> B -> Prop) (f : A -> B) (l : list A) :
  (forall a, R a (f a)) -> Forall2 R l (map f l).
Proof.
  intros H. induction l as [|a l IH]; cbn; constructor; auto.
Qed.

(** C3 (as amended).  In every response of [getMatches] and of
    [recommendVolunteers], each returned entry carries the service's
    aggregate score rounded to two decimal places, and each of its five
    factor sub-scores rounded to two decimal places.  The rounding is
    [Math.round(x * 100) / 100] in binary64 arithmetic: the number returned
    is the number for a multiple [k / 100] that lies within half a hundredth
    of [x], up to the rounding error of the product. *)
Theorem response_scores_two_decimals
  (findM : DB -> string -> Js.Number -> Result (list Match))
  (recV : DB -> string -> Js.Number -> Result (list Recommendation))
  (gen : Match -> string) (now : string) (db : DB) (req : Request) :
  (forall code body,
      getMatches findM gen now db req = Json code body ->
      exists found,
        findM db (user_id (req_user req))
          (Js.or_default (Js.parseInt (query_limit req)) (Js.Finite 10))
        = Ok found
        /\ Forall2 (match_rounded 100) found (matches body))
  /\ (forall code body,
      recommendVolunteers recV now db req = Json code body ->
      exists found,
        recV db (params_projectId req)
          (Js.or_default (Js.parseInt (query_limit req)) (Js.Finite 10))
        = Ok found
        /\ Forall2 (recommendation_rounded 100) found (recommendations body)).
Proof.
  split; intros code body H.
  - unfold getMatches in H.
    destruct (negb _); [discriminate|].
    destruct (volunteerProfile_table db !! _); [|discriminate].
    destruct (findM _ _ _) as [found|e]; [|discriminate].
    injection H as _ <-. exists found. split; [reflexivity|]. cbn.
    apply Forall2_map_r_intro, processMatch_rounded.
  - unfold recommendVolunteers in H.
    destruct (negb (Js.includes _ _)); [discriminate|].
    destruct (project_table db !! _) as [project|]; [|discriminate].
    destruct (_ && _); [discriminate|].
    destruct (recV _ _ _) as [found|e]; [|discriminate].
    injection H as _ <-. exists found. split; [reflexivity|]. cbn.
    apply Forall2_map_r_intro, processRecommendation_rounded.
Qed.

Lemma response_scores_two_decimals_witness :
  exists body found,
    getMatches Samples.sample_findMatches Samples.sample_reason Samples.sample_now
      Samples.db1 (Samples.request "u1" "VOLUNTEER" None "" "") = Json 200 body
    /\ Samples.sample_findMatches Samples.db1 "u1" (Js.Finite 10) = Ok found
    /\ Forall2 (match_rounded 100) found (matches body).
Proof.
  eexists.
  assert (H : getMatches Samples.sample_findMatches Samples.sample_reason Samples.sample_now
                Samples.db1 (Samples.request "u1" "VOLUNTEER" None "" "") = Json 200 _)
    by (vm_compute; reflexivity).
  destruct (proj1 (response_scores_two_decimals
                     Samples.sample_findMatches Samples.sample_recommendVolunteers
                     Samples.sample_reason Samples.sample_now Samples.db1
                     (Samples.request "u1" "VOLUNTEER" None "" "")) _ _ H)
    as [found [Hfound Hall]].
  exists found. split; [exact H | split; [exact Hfound | exact Hall]].
Defined.

(** C3, as stated, fails for the aggregate score: a match whose service
    score is 0.25 is returned with [matchScore] 0.25, which is not the number
    for any multiple of one tenth. *)
Lemma aggregate_one_decimal_counterexample :
  exists body m pm,
    getMatches Samples.sample_findMatches Samples.sample_reason Samples.sample_now
      Samples.db1 (Samples.request "u1" "VOLUNTEER" None "" "") = Json 200 body
    /\ Samples.sample_findMatches Samples.db1 "u1" (Js.Finite 10)
       = Ok [AIService.match_for Samples.sample_score Samples.volunteer1 Samples.project1; m]
    /\ matches body !! 1%nat = Some pm
    /\ pm = processMatch Samples.sample_reason m
    /\ (match_score m == 1 # 4)%Q
    /\ pm_matchScore pm = Js.Finite (1 # 4)
    /\ ~ rounded_to 10 (match_score m) (pm_matchScore pm).
Proof.
  eexists. exists (AIService.match_for Samples.sample_score Samples.volunteer1 Samples.project2).
  eexists.
  split; [vm_compute; reflexivity|].
  split; [vm_compute; reflexivity|].
  split; [reflexivity|].
  split; [vm_compute; reflexivity|].
  split; [vm_compute; reflexivity|].
  split; [vm_compute; reflexivity|].
  change (pm_matchScore _) with (Js.Finite (1 # 4)).
  apply one_quarter_not_one_decimal. vm_compute. reflexivity.
Qed.

(** ** C9: impact prediction *)

Lemma accumulatedImpactScore_range (project : ProjectWithRelations) :
  50 <= accumulatedImpactScore project <= 100.
Proof.
  unfold accumulatedImpactScore.
  destruct (10 <? _), (estimatedHours _) as [hours|], (3 <? _)%nat,
    (Js.gt (applicationRate project) (8 # 10)),
    (Js.gt (applicationRate project) (5 # 10)),
    (Js.includes _ _);
    try destruct (40 <? hours); cbn; lia.
Qed.

(** C9.  [calculateImpactPrediction] returns an [impactScore] that is the
    accumulated score clamped to [[0, 100]], and the label is "HIGH" exactly
    when the accumulated (unclamped) score exceeds 75, "MEDIUM" exactly when
    it exceeds 50 but not 75, and "LOW" exactly when it does not exceed 50. *)
Theorem impact_prediction_clamped_and_labelled (project : ProjectWithRelations) :
  impactScore (calculateImpactPrediction project)
  = Z.min 100 (Z.max 0 (accumulatedImpactScore project))
  /\ 0 <= impactScore (calculateImpactPrediction project) <= 100
  /\ (prediction (calculateImpactPrediction project) = "HIGH"
      <-> 75 < accumulatedImpactScore project)
  /\ (prediction (calculateImpactPrediction project) = "MEDIUM"
      <-> 50 < accumulatedImpactScore project <= 75)
  /\ (prediction (calculateImpactPrediction project) = "LOW"
      <-> accumulatedImpactScore project <= 50).
Proof.
  unfold calculateImpactPrediction, Js.Math_min, Js.Math_max. cbn.
  set (s := accumulatedImpactScore project).
  split; [reflexivity|]. split; [lia|].
  destruct (Z.ltb_spec 75 s), (Z.ltb_spec 50 s);
    repeat split; intros; try lia; try discriminate; reflexivity.
Qed.

(** ** C6: a missing anchor entity *)

(** C6 (as amended).  When the caller holds the role the handler requires
    (VOLUNTEER for [getMatches]; NGO, GOVERNMENT or ADMIN for
    [recommendVolunteers]) and the anchor entity (the caller's volunteer
    profile, or the project) does not exist, the handler forwards a 404
    [AppError] and sends no response, whatever the matching service would
    do. *)
Theorem missing_anchor_not_found
  (findM : DB -> string -> Js.Number -> Result (list Match))
  (recV : DB -> string -> Js.Number -> Result (list Recommendation))
  (gen : Match -> string) (now : string) (db : DB) (req : Request) :
  (role (req_user req) = "VOLUNTEER" ->
   volunteerProfile_table db !! user_id (req_user req) = None ->
   getMatches findM gen now db req
   = Next (AppError "Volunteer profile not found. Please complete your profile first." 404))
  /\ (Js.includes ["NGO"; "GOVERNMENT"; "ADMIN"] (role (req_user req)) = true ->
      project_table db !! params_projectId req = None ->
      recommendVolunteers recV now db req = Next (AppError "Project not found" 404)).
Proof.
  split.
  - intros Hrole Hnone. unfold getMatches.
    rewrite Hrole, Hnone. reflexivity.
  - intros Hrole Hnone. unfold recommendVolunteers.
    rewrite Hrole, Hnone. reflexivity.
Qed.

Lemma missing_anchor_not_found_witness :
  getMatches Samples.sample_findMatches Samples.sample_reason Samples.sample_now
    Samples.db1 (Samples.request "u9" "VOLUNTEER" None "" "")
  = Next (AppError "Volunteer profile not found. Please complete your profile first." 404)
  /\ recommendVolunteers Samples.sample_recommendVolunteers Samples.sample_now
       Samples.db1 (Samples.request "org1" "NGO" None "p9" "")
     = Next (AppError "Project not found" 404).
Proof.
  split.
  - apply (proj1 (missing_anchor_not_found
                    Samples.sample_findMatches Samples.sample_recommendVolunteers
                    Samples.sample_reason Samples.sample_now Samples.db1
                    (Samples.request "u9" "VOLUNTEER" None "" ""))).
    + reflexivity.
    + vm_compute; reflexivity.
  - apply (proj2 (missing_anchor_not_found
                    Samples.sample_findMatches Samples.sample_recommendVolunteers
                    Samples.sample_reason Samples.sample_now Samples.db1
                    (Samples.request "org1" "NGO" None "p9" ""))).
    + reflexivity.
    + vm_compute; reflexivity.
Defined.

(** C6, as stated, fails: a match request of a caller who has no volunteer
    profile but is not a VOLUNTEER is refused with 403, not with 404. *)
Lemma missing_anchor_forbidden_counterexample :
  volunteerProfile_table Samples.db1 !! "org1" = None
  /\ getMatches Samples.sample_findMatches Samples.sample_reason Samples.sample_now
       Samples.db1 (Samples.request "org1" "NGO" None "" "")
     = Next (AppError "Only volunteers can access matches" 403)
  /\ error_kind (AppError "Only volunteers can access matches" 403) <> NotFoundError.
Proof.
  split; [vm_compute; reflexivity|].
  split; [vm_compute; reflexivity|].
  cbn. discriminate.
Qed.

(** ** C2: the [limit] query parameter *)

Lemma findMatchesForVolunteer_rejects score (db : DB) (volunteerId : string) (limit : Z) :
  limit <= 0 ->
  AIService.findMatchesForVolunteer score db volunteerId limit
  = Throw (AppError "limit must be positive" 400).
Proof.
  intros H. unfold AIService.findMatchesForVolunteer.
  destruct (Z.leb_spec limit 0); [reflexivity | lia].
Qed.

Lemma recommendVolunteersForProject_rejects score (db : DB) (projectId : string) (limit : Z) :
  limit <= 0 ->
  AIService.recommendVolunteersForProject score db projectId limit
  = Throw (AppError "limit must be positive" 400).
Proof.
  intros H. unfold AIService.recommendVolunteersForProject.
  destruct (Z.leb_spec limit 0); [reflexivity | lia].
Qed.

Lemma negative_integer_limit (limit : Js.Number) (n : Z) :
  Js.negative limit = true -> AIService.integer_limit limit = Some n -> n <= 0.
Proof.
  destruct limit as [|q| |]; cbn; try discriminate.
  intros Hneg. destruct (Qeq_bool (inject_Z (Qfloor q)) q); [|discriminate].
  intros H. injection H as <-.
  apply negb_true_iff in Hneg.
  assert (Hq : (q < 0)%Q).
  { apply Qnot_le_lt. intros Hle. apply Qle_bool_iff in Hle. congruence. }
  pose proof (Qfloor_le q) as Hfloor.
  assert (Hlt : (inject_Z (Qfloor q) < inject_Z 0)%Q) by (change (inject_Z 0) with 0%Q; lra).
  rewrite <- Zlt_Qlt in Hlt. lia.
Qed.

Lemma negative_is_truthy (limit : Js.Number) :
  Js.negative limit = true -> Js.ToBoolean limit = true.
Proof.
  destruct limit as [|q| |]; cbn; try discriminate; [|reflexivity].
  intros Hneg. apply negb_true_iff in Hneg. apply negb_true_iff.
  destruct (Qeq_bool q 0) eqn:E; [|reflexivity].
  apply Qeq_bool_iff in E.
  assert (Hle : Qle_bool 0 q = true) by (apply Qle_bool_iff; lra).
  congruence.
Qed.

Lemma findMatches_rejects_negative score (db : DB) (volunteerId : string)
  (limit : Js.Number) :
  Js.negative limit = true ->
  exists msg, AIService.findMatches score db volunteerId limit = Throw (AppError msg 400).
Proof.
  intros Hneg. unfold AIService.findMatches.
  destruct (AIService.integer_limit limit) as [n|] eqn:E.
  - rewrite findMatchesForVolunteer_rejects by (eapply negative_integer_limit; eauto).
    eexists. reflexivity.
  - eexists. reflexivity.
Qed.

Lemma recommendVolunteers_rejects_negative score (db : DB) (projectId : string)
  (limit : Js.Number) :
  Js.negative limit = true ->
  exists msg,
    AIService.recommendVolunteers score db projectId limit = Throw (AppError msg 400).
Proof.
  intros Hneg. unfold AIService.recommendVolunteers.
  destruct (AIService.integer_limit limit) as [n|] eqn:E.
  - rewrite recommendVolunteersForProject_rejects by (eapply negative_integer_limit; eauto).
    eexists. reflexivity.
  - eexists. reflexivity.
Qed.

(** [parseInt] skips every white space character: a limit written after a
    no-break space (U+00A0, the bytes C2 A0) is read as the integer it is;
    and the integer is rounded to a number. *)
Example parseInt_examples :
  Js.parseInt (Some (String (ascii_of_nat 194) (String (ascii_of_nat 160) "-3")))
  = Js.Finite (-3)
  /\ Js.parseInt (Some " 12px") = Js.Finite 12
  /\ Js.parseInt (Some "0x1f") = Js.Finite 31
  /\ Js.parseInt (Some "9007199254740993") = Js.Finite 9007199254740992
  /\ Js.parseInt (Some "ten") = Js.NaN
  /\ Js.parseInt None = Js.NaN.
Proof. repeat split; vm_compute; reflexivity. Qed.

(** C2 (as amended).  A [limit] parameter that is absent, not a number or
    zero is replaced by the default 10, so the handlers answer as for
    [limit = 10] and raise no validation error on its account.  A negative
    limit is handed unchanged to the matching service, and the request of an
    authorised caller with an existing anchor then fails with the service's
    validation error (status 400): the handlers forward to [next] whatever
    error the service throws for that limit. *)
Theorem limit_default_or_rejected
  (findM : DB -> string -> Js.Number -> Result (list Match))
  (recV : DB -> string -> Js.Number -> Result (list Recommendation))
  (score : VolunteerProfile -> ProjectRow -> MatchFactors)
  (gen : Match -> string) (now : string) (db : DB) (req : Request) :
  (Js.ToBoolean (Js.parseInt (query_limit req)) = false ->
   getMatches findM gen now db req
   = getMatches findM gen now db (with_limit req (Some "10"))
   /\ recommendVolunteers recV now db req
      = recommendVolunteers recV now db (with_limit req (Some "10")))
  /\ (Js.negative (Js.parseInt (query_limit req)) = true ->
      Js.or_default (Js.parseInt (query_limit req)) (Js.Finite 10)
      = Js.parseInt (query_limit req)
      /\ (role (req_user req) = "VOLUNTEER" ->
          is_Some (volunteerProfile_table db !! user_id (req_user req)) ->
          exists msg,
            getMatches (AIService.findMatches score) gen now db req
            = Next (AppError msg 400))
      /\ (Js.includes ["NGO"; "GOVERNMENT"; "ADMIN"] (role (req_user req)) = true ->
          forall project, project_table db !! params_projectId req = Some project ->
          creatorId project = user_id (req_user req) \/ role (req_user req) = "ADMIN" ->
          exists msg,
            recommendVolunteers (AIService.recommendVolunteers score) now db req
            = Next (AppError msg 400))
      /\ (role (req_user req) = "VOLUNTEER" ->
          is_Some (volunteerProfile_table db !! user_id (req_user req)) ->
          forall e,
            findM db (user_id (req_user req)) (Js.parseInt (query_limit req)) = Throw e ->
            getMatches findM gen now db req = Next e)
      /\ (Js.includes ["NGO"; "GOVERNMENT"; "ADMIN"] (role (req_user req)) = true ->
          forall project, project_table db !! params_projectId req = Some project ->
          creatorId project = user_id (req_user req) \/ role (req_user req) = "ADMIN" ->
          forall e,
            recV db (params_projectId req) (Js.parseInt (query_limit req)) = Throw e ->
            recommendVolunteers recV now db req = Next e)).
Proof.
  split.
  - intros Hfalsy.
    assert (E : Js.or_default (Js.parseInt (query_limit req)) (Js.Finite 10) = Js.Finite 10)
      by (unfold Js.or_default; rewrite Hfalsy; reflexivity).
    unfold getMatches, recommendVolunteers. rewrite E. cbn. split; reflexivity.
  - intros Hneg.
    assert (E : Js.or_default (Js.parseInt (query_limit req)) (Js.Finite 10)
                = Js.parseInt (query_limit req))
      by (unfold Js.or_default; rewrite (negative_is_truthy _ Hneg); reflexivity).
    assert (Hguard : forall project,
               creatorId project = user_id (req_user req) \/ role (req_user req) = "ADMIN" ->
               negb (String.eqb (creatorId project) (user_id (req_user req)))
               && negb (String.eqb (role (req_user req)) "ADMIN") = false).
    { intros project [-> | ->].
      - rewrite String.eqb_refl. reflexivity.
      - rewrite andb_comm. reflexivity. }
    split; [exact E|]. split; [|split; [|split]].
    + intros Hrole [profile Hprofile]. unfold getMatches.
      rewrite Hrole, Hprofile, E. cbn.
      destruct (findMatches_rejects_negative score db (user_id (req_user req)) _ Hneg)
        as [msg ->].
      exists msg. reflexivity.
    + intros Hrole project Hproject Hown. unfold recommendVolunteers.
      rewrite Hrole, Hproject, E. cbn.
      rewrite (Hguard project Hown).
      destruct (recommendVolunteers_rejects_negative score db (params_projectId req) _ Hneg)
        as [msg ->].
      exists msg. reflexivity.
    + intros Hrole [profile Hprofile] e He. unfold getMatches.
      rewrite Hrole, Hprofile, E. cbn. rewrite He. reflexivity.
    + intros Hrole project Hproject Hown e He. unfold recommendVolunteers.
      rewrite Hrole, Hproject, E. cbn.
      rewrite (Hguard project Hown), He. reflexivity.
Qed.

Lemma limit_default_or_rejected_witness :
  getMatches Samples.sample_findMatches Samples.sample_reason Samples.sample_now
    Samples.db1 (Samples.request "u1" "VOLUNTEER" (Some "0") "" "")
  = getMatches Samples.sample_findMatches Samples.sample_reason Samples.sample_now
      Samples.db1 (Samples.request "u1" "VOLUNTEER" (Some "10") "" "")
  /\ exists msg,
      getMatches Samples.sample_findMatches Samples.sample_reason Samples.sample_now
        Samples.db1 (Samples.request "u1" "VOLUNTEER" (Some "-3") "" "")
      = Next (AppError msg 400).
Proof.
  split.
  - apply (proj1 (limit_default_or_rejected
                    Samples.sample_findMatches Samples.sample_recommendVolunteers
                    Samples.sample_score Samples.sample_reason Samples.sample_now Samples.db1
                    (Samples.request "u1" "VOLUNTEER" (Some "0") "" ""))).
    vm_compute. reflexivity.
  - apply (proj1 (proj2 (proj2 (limit_default_or_rejected
                    Samples.sample_findMatches Samples.sample_recommendVolunteers
                    Samples.sample_score Samples.sample_reason Samples.sample_now Samples.db1
                    (Samples.request "u1" "VOLUNTEER" (Some "-3") "" ""))
                    ltac:(vm_compute; reflexivity)))).
    + reflexivity.
    + exists Samples.volunteer1. vm_compute; reflexivity.
Defined.

(** C2, as stated, fails at [limit = 0]: the handler replaces the zero by
    the default 10 and answers with the matches, although the service itself
    would have rejected a zero limit. *)
Lemma limit_zero_counterexample :
  Js.parseInt (Some "0") = Js.Finite 0
  /\ Samples.sample_findMatches Samples.db1 "u1" (Js.Finite 0)
     = Throw (AppError "limit must be positive" 400)
  /\ exists body,
      getMatches Samples.sample_findMatches Samples.sample_reason Samples.sample_now
        Samples.db1 (Samples.request "u1" "VOLUNTEER" (Some "0") "" "") = Json 200 body
      /\ length (matches body) = 2%nat.
Proof.
  split; [vm_compute; reflexivity|].
  split; [vm_compute; reflexivity|].
  eexists. split; [vm_compute; reflexivity | reflexivity].
Qed.

(** ** The project controller *)

Import ProjectController.

Section NotificationStep.

Context {W : Type}.
Variable recV : DB -> string -> Z -> W -> Result (list Recommendation) * W.
Variable send : Notification -> W -> Result unit * W.



End NotificationStep.

Section ProjectControllerProperties.

Context {W : Type}.
Variable recV : DB -> string -> Z -> W -> Result (list Recommendation) * W.
Variable send : Notification -> W -> Result unit * W.
Variable upload : list string -> string -> W -> Result (list string) * W.
Variable create : Request -> DB -> W -> Result ProjectRow * W.

(** *** C10: withdrawing an accepted application *)

(** C10.  A withdrawal request that names an application whose status is
    ACCEPTED ends in an error forwarded to [next] (403 when the caller is
    not the volunteer who applied, 400 otherwise), and the state is left
    as it was: the application is still in its table, no project row is
    changed, and no notification is sent. *)
Theorem withdraw_accepted_rejected (req : Request) (s : State) (application : Application) :
  application_table (db s) !! params_applicationId req = Some application ->
  application_status application = "ACCEPTED" ->
  exists msg code s',
    withdrawApplication send req s = (Next (AppError msg code), s')
    /\ (code = 403 \/ code = 400)
    /\ s' = s
    /\ application_table (db s') !! params_applicationId req = Some application
    /\ project_table (db s') = project_table (db s)
    /\ trace s' = trace s.
Proof.
  intros Hfound Haccepted.
  unfold withdrawApplication, handler.
  destruct (negb (String.eqb (role (req_user req)) "VOLUNTEER")).
  - cbn. do 3 eexists. repeat split; eauto.
  - unfold bind, application_findUnique. rewrite Hfound.
    destruct (negb (String.eqb (volunteerId application) (user_id (req_user req)))).
    + cbn. do 3 eexists. repeat split; eauto.
    + rewrite Haccepted. cbn. do 3 eexists. repeat split; eauto.
Qed.

(** *** C7: failures of the notification step *)


(** *** C8: who is notified *)

(** [createProject] of the controller section is the method called on the
    controller object. *)
Lemma createProject_on_controller (req : Request) (s : State) :
  ProjectRoutes.createProject_on recV send upload create ProjectRoutes.ControllerObject req s
  = createProject recV send upload create req s.
Proof. reflexivity. Qed.



End ProjectControllerProperties.

Lemma withdraw_accepted_rejected_witness :
  exists msg code s',
    withdrawApplication Samples.reliable_send
      (Samples.request "u1" "VOLUNTEER" None "" "a1") Samples.state1
    = (Next (AppError msg code), s')
    /\ (code = 403 \/ code = 400)
    /\ s' = Samples.state1
    /\ application_table (db s') !! "a1" = Some Samples.application1
    /\ project_table (db s') = project_table (db Samples.state1)
    /\ trace s' = trace Samples.state1.
Proof.
  apply (withdraw_accepted_rejected Samples.reliable_send
           (Samples.request "u1" "VOLUNTEER" None "" "a1") Samples.state1
           Samples.application1).
  - vm_compute; reflexivity.
  - reflexivity.
Defined.




(** The sibling paths on the sample data: a pending application is
    withdrawn (deleted, the counter decremented, the creator notified), and
    a project is created with status 201 although every notification fails. *)
Example withdraw_pending_example :
  exists s',
    withdrawApplication Samples.reliable_send
      (Samples.request "u1" "VOLUNTEER" None "" "a2") Samples.state1
    = (Json 200 {| body_message := "Application withdrawn successfully";
                   body_data := None |}, s')
    /\ application_table (db s') !! "a2" = None
    /\ volunteersApplied <$> project_table (db s') !! "p2" = Some 0
    /\ n_userId <$> (match trace s' with
                     | [SendNotificationCalled n] => Some n
                     | _ => None
                     end) = Some "org1".
Proof.
  eexists. split; [vm_compute; reflexivity|].
  repeat split; vm_compute; reflexivity.
Qed.

Example createProject_failing_notifications_example :
  fst (createProject Samples.seven_recommender Samples.failing_send
         Samples.sample_upload Samples.sample_create
         (Samples.request "org1" "NGO" None "" "") Samples.state1)
  = Json 201 {| body_message := "Project created successfully";
                body_data := Some Samples.new_project |}.
Proof. vm_compute; reflexivity. Qed.

(** ** The matching service (modelled from the specification) *)

Import AIService.

(** *** C5: the aggregate score *)

Lemma within_iff (lo hi x : Q) : within lo hi x = true <-> (lo <= x <= hi)%Q.
Proof.
  unfold within. rewrite andb_true_iff, !Qle_bool_iff. reflexivity.
Qed.

Lemma match_for_score_is_aggregate
  (score : VolunteerProfile -> ProjectRow -> MatchFactors)
  (v : VolunteerProfile) (p : ProjectRow) :
  match_score (match_for score v p) = aggregate (match_factors (match_for score v p)).
Proof. reflexivity. Qed.

(** C5.  For well-formed factors (each factor within [[0, weight]], the
    weights summing to 100) the aggregate score is the sum of the five
    factors, no factor is negative, and the aggregate lies in [[0, 100]]. *)
Theorem aggregate_sum_and_bounds (w : Weights) (f : MatchFactors) :
  well_formed w f = true ->
  (aggregate f == skills f + location f + interests f + availability f + experience f)%Q
  /\ (0 <= skills f /\ 0 <= location f /\ 0 <= interests f
      /\ 0 <= availability f /\ 0 <= experience f)%Q
  /\ (0 <= aggregate f <= 100)%Q.
Proof.
  intros Hwf.
  unfold well_formed, weights_sum_to_100 in Hwf.
  rewrite !andb_true_iff, !within_iff, Qeq_bool_iff in Hwf.
  destruct Hwf as [[[[[Hsum Hs] Hl] Hi] Ha] He].
  unfold aggregate.
  split; [reflexivity|].
  split; [tauto|].
  split; lra.
Qed.

Lemma aggregate_sum_and_bounds_witness :
  let f := Samples.sample_score Samples.volunteer1 Samples.project1 in
  (aggregate f == skills f + location f + interests f + availability f + experience f)%Q
  /\ (0 <= skills f /\ 0 <= location f /\ 0 <= interests f
      /\ 0 <= availability f /\ 0 <= experience f)%Q
  /\ (0 <= aggregate f <= 100)%Q.
Proof.
  apply (aggregate_sum_and_bounds Samples.sample_weights
           (Samples.sample_score Samples.volunteer1 Samples.project1)).
  vm_compute; reflexivity.
Defined.

(** *** C4: ranking of the matches *)

Section Ranking.

Variable score : VolunteerProfile -> ProjectRow -> MatchFactors.

Lemma ranks_before_iff (a b : Match) :
  ranks_before a b
  <-> (match_score b < match_score a)%Q
      \/ ((match_score a == match_score b)%Q
          /\ createdAt (match_project b) <= createdAt (match_project a)).
Proof.
  unfold ranks_before, ranks_before_b.
  rewrite orb_true_iff, andb_true_iff, gt_true_iff, Qeq_bool_iff, Z.leb_le.
  reflexivity.
Qed.

Lemma ranks_before_total : Total ranks_before.
Proof.
  intros a b. rewrite !ranks_before_iff.
  destruct (Q_dec (match_score a) (match_score b)) as [[Hlt | Hgt] | Heq].
  - right. left. exact Hlt.
  - left. left. exact Hgt.
  - destruct (Z.le_ge_cases (createdAt (match_project a)) (createdAt (match_project b))).
    + right. right. split; [symmetry; exact Heq | assumption].
    + left. right. split; [exact Heq | assumption].
Qed.

Lemma ranks_before_trans : Transitive ranks_before.
Proof.
  intros a b c. rewrite !ranks_before_iff.
  intros [Hab | [Hab Hcab]] [Hbc | [Hbc Hcbc]].
  - left. lra.
  - left. lra.
  - left. lra.
  - right. split; [lra | lia].
Qed.

Lemma qualifying_active (db : DB) (v : VolunteerProfile) :
  Forall (fun m => status (match_project m) = "ACTIVE") (qualifying score db v).
Proof.
  unfold qualifying. apply List.Forall_map, List.Forall_forall.
  intros p Hp. apply List.filter_In in Hp. destruct Hp as [_ Hactive].
  cbn. unfold is_active in Hactive. apply String.eqb_eq. exact Hactive.
Qed.

(** C4.  For an existing volunteer and a positive limit,
    [findMatchesForVolunteer] returns the first [limit] elements of the
    ACTIVE candidates sorted by descending aggregate score, ties by
    descending creation time: every result is an ACTIVE project, the results
    are sorted and rank before every qualifying candidate left out, there
    are at most [limit] of them, and when no more than [limit] candidates
    qualify all of them are returned. *)
Theorem findMatchesForVolunteer_ranked
  (db : DB) (volunteerId : string) (limit : Z) (v : VolunteerProfile) :
  volunteerProfile_table db !! volunteerId = Some v ->
  0 < limit ->
  exists result rest,
    findMatchesForVolunteer score db volunteerId limit = Ok result
    /\ Forall (fun m => status (match_project m) = "ACTIVE") result
    /\ StronglySorted ranks_before (result ++ rest)
    /\ result ++ rest ≡ₚ qualifying score db v
    /\ Z.of_nat (length result) <= limit
    /\ length result = Nat.min (Z.to_nat limit) (length (qualifying score db v))
    /\ (Z.of_nat (length (qualifying score db v)) <= limit -> result ≡ₚ qualifying score db v).
Proof.
  intros Hv Hlimit.
  unfold findMatchesForVolunteer. rewrite Hv.
  destruct (Z.leb_spec limit 0) as [Hle | _]; [lia|].
  set (sorted := merge_sort ranks_before (qualifying score db v)).
  assert (Hperm : sorted ≡ₚ qualifying score db v) by apply merge_sort_Permutation.
  assert (Hsorted : StronglySorted ranks_before sorted).
  { apply (@StronglySorted_merge_sort _ ranks_before _ ranks_before_trans ranks_before_total). }
  assert (Hlen : length sorted = length (qualifying score db v))
    by (apply Permutation_length; exact Hperm).
  exists (firstn (Z.to_nat limit) sorted), (skipn (Z.to_nat limit) sorted).
  split; [reflexivity|].
  split.
  { apply Forall_take. rewrite Hperm. apply qualifying_active. }
  rewrite firstn_skipn.
  split; [exact Hsorted|].
  split; [exact Hperm|].
  rewrite length_firstn, Hlen.
  split; [lia|].
  split; [reflexivity|].
  intros Hfew. rewrite firstn_all2 by lia. exact Hperm.
Qed.

Lemma higher_score_total : Total higher_score.
Proof.
  intros a b. unfold higher_score. rewrite !Qle_bool_iff.
  destruct (Qlt_le_dec (rec_score a) (rec_score b)) as [Hlt | Hle].
  - right. apply Qlt_le_weak. exact Hlt.
  - left. exact Hle.
Qed.

Lemma higher_score_trans : Transitive higher_score.
Proof.
  intros a b c. unfold higher_score. rewrite !Qle_bool_iff.
  intros Hab Hbc. eapply Qle_trans; eauto.
Qed.

(** The pool the recommender hands to the notification step: at most
    [limit] candidates, by descending score. *)
Lemma recommendVolunteersForProject_pool (db : DB) (projectId : string) (limit : Z)
  (pool : list Recommendation) :
  recommendVolunteersForProject score db projectId limit = Ok pool ->
  Z.of_nat (length pool) <= limit /\ StronglySorted higher_score pool.
Proof.
  unfold recommendVolunteersForProject.
  destruct (Z.leb_spec limit 0) as [Hle | Hpos]; [discriminate|].
  destruct (project_table db !! projectId) as [p|]; [|discriminate].
  intros H. injection H as <-.
  split.
  - rewrite length_firstn. lia.
  - match goal with
    | |- StronglySorted _ (firstn ?n ?l) =>
        apply (StronglySorted_app_1_l higher_score (firstn n l) (skipn n l));
        rewrite firstn_skipn
    end.
    apply (@StronglySorted_merge_sort _ higher_score _ higher_score_trans higher_score_total).
Qed.

End Ranking.

Lemma findMatchesForVolunteer_ranked_witness :
  exists result rest,
    findMatchesForVolunteer Samples.sample_score Samples.db1 "u1" 1 = Ok result
    /\ Forall (fun m => status (match_project m) = "ACTIVE") result
    /\ StronglySorted ranks_before (result ++ rest)
    /\ result ++ rest ≡ₚ qualifying Samples.sample_score Samples.db1 Samples.volunteer1
    /\ Z.of_nat (length result) <= 1
    /\ length result
       = Nat.min (Z.to_nat 1)
           (length (qualifying Samples.sample_score Samples.db1 Samples.volunteer1))
    /\ (Z.of_nat (length (qualifying Samples.sample_score Samples.db1 Samples.volunteer1)) <= 1
        -> result ≡ₚ qualifying Samples.sample_score Samples.db1 Samples.volunteer1).
Proof.
  apply (findMatchesForVolunteer_ranked Samples.sample_score Samples.db1 "u1" 1
           Samples.volunteer1).
  - vm_compute; reflexivity.
  - lia.
Defined.

(** * Further properties of the controllers *)

(** ** Counting applications *)

Import ProjectWorkflow.
Import HandlerTactics.

Lemma filter_length_Permutation {A : Type} (f : A -> bool) (l l' : list A) :
  l ≡ₚ l' -> length (List.filter f l) = length (List.filter f l').
Proof.
  induction 1 as [|x l l' _ IH|x y l|l l' l'' _ IH1 _ IH2]; cbn.
  - reflexivity.
  - destruct (f x); cbn; congruence.
  - destruct (f x), (f y); reflexivity.
  - congruence.
Qed.

Lemma application_count_projects (P : Application -> bool) v p p' tbl :
  application_count P (mkDB v p tbl) = application_count P (mkDB v p' tbl).
Proof. reflexivity. Qed.

Lemma application_count_insert_fresh (P : Application -> bool) v p tbl i a :
  tbl !! i = None ->
  application_count P (mkDB v p (<[i := a]> tbl))
  = ((if P a then 1 else 0) + application_count P (mkDB v p tbl))%nat.
Proof.
  intros Hfresh. unfold application_count, applications_where. cbn.
  rewrite (filter_length_Permutation P _ (map snd ((i, a) :: map_to_list tbl))).
  - cbn. destruct (P a); reflexivity.
  - apply Permutation_map. apply map_to_list_insert. exact Hfresh.
Qed.

Lemma application_count_delete (P : Application -> bool) v p tbl i a :
  tbl !! i = Some a ->
  application_count P (mkDB v p tbl)
  = ((if P a then 1 else 0) + application_count P (mkDB v p (delete i tbl)))%nat.
Proof.
  intros Hfound. unfold application_count, applications_where. cbn.
  rewrite (filter_length_Permutation P (map snd (map_to_list tbl))
             (map snd ((i, a) :: map_to_list (delete i tbl)))).
  - cbn. destruct (P a); reflexivity.
  - apply Permutation_map. symmetry. apply map_to_list_delete. exact Hfound.
Qed.

Lemma application_count_replace (P : Application -> bool) v p tbl i a a' :
  tbl !! i = Some a ->
  P a' = P a ->
  application_count P (mkDB v p (<[i := a']> tbl)) = application_count P (mkDB v p tbl).
Proof.
  intros Hfound HP.
  rewrite <- (insert_delete_eq tbl i a').
  rewrite application_count_insert_fresh by apply lookup_delete_eq.
  rewrite (application_count_delete P v p tbl i a Hfound).
  rewrite HP. reflexivity.
Qed.

Lemma applications_where_elem (P : Application -> bool) (db : DB) (a : Application) :
  In a (applications_where P db)
  <-> (exists i, application_table db !! i = Some a) /\ P a = true.
Proof.
  unfold applications_where. rewrite List.filter_In, List.in_map_iff.
  split.
  - intros [[[i a'] [Ha Hin]] HP]. cbn in Ha. subst a'.
    split; [|exact HP]. exists i.
    apply elem_of_map_to_list. apply list_elem_of_In. exact Hin.
  - intros [[i Hi] HP]. split; [|exact HP].
    exists (i, a). split; [reflexivity|].
    apply list_elem_of_In, elem_of_map_to_list. exact Hi.
Qed.

(** ** withdrawApplication: the paths that succeed or fail late *)

Section WithdrawEffects.

Context {W : Type}.
Variable send : Notification -> W -> Result unit * W.

(** X1.  A volunteer who withdraws an application of their own that is not
    ACCEPTED, on a project whose row exists and with a notification service
    that answers, gets status 200; the application row is deleted, the
    project's [volunteersApplied] is decremented by one, no other row
    changes, and one APPLICATION_WITHDRAWN notification goes to the
    project's creator. *)
Theorem withdraw_deletes_and_decrements
  (req : Request) (s : State) (application : Application) (project : ProjectRow) :
  role (req_user req) = "VOLUNTEER" ->
  application_table (db s) !! params_applicationId req = Some application ->
  volunteerId application = user_id (req_user req) ->
  application_status application <> "ACCEPTED" ->
  project_table (db s) !! projectId application = Some project ->
  (forall n w, exists w', send n w = (Ok tt, w')) ->
  exists s' n,
    withdrawApplication send req s
    = (Json 200 {| body_message := "Application withdrawn successfully";
                   body_data := None |}, s')
    /\ application_table (db s')
       = delete (params_applicationId req) (application_table (db s))
    /\ project_table (db s')
       = <[projectId application := decrement_volunteersApplied project]>
           (project_table (db s))
    /\ volunteerProfile_table (db s') = volunteerProfile_table (db s)
    /\ trace s' = trace s ++ [SendNotificationCalled n]
    /\ n_userId n = creatorId project
    /\ n_type n = "APPLICATION_WITHDRAWN".
Proof.
  intros Hrole Hfound Hown Hstatus Hproject Hsend.
  apply String.eqb_neq in Hstatus.
  run_withdraw.
  rewrite Hrole; cbn. rewrite Hfound; cbn. rewrite Hown, String.eqb_refl; cbn.
  rewrite Hstatus; cbn. rewrite Hfound; cbn. rewrite Hproject; cbn.
  match goal with
  | |- context [send ?n (world s)] => destruct (Hsend n (world s)) as [w' ->]
  end.
  do 2 eexists. split; [reflexivity|]. cbn. repeat split; reflexivity.
Qed.

(** X2.  [withdrawApplication] changes the state only for a VOLUNTEER who
    names an existing application of their own that is not ACCEPTED: for
    every other request the state after the call is the state before. *)
Theorem withdraw_changes_only_own_pending (req : Request) (s : State) :
  snd (withdrawApplication send req s) <> s ->
  role (req_user req) = "VOLUNTEER"
  /\ exists application,
      application_table (db s) !! params_applicationId req = Some application
      /\ volunteerId application = user_id (req_user req)
      /\ application_status application <> "ACCEPTED".
Proof.
  run_withdraw.
  destruct (String.eqb_spec (role (req_user req)) "VOLUNTEER") as [Hrole | Hrole]; cbn;
    [|intros H; contradiction H; reflexivity].
  destruct (application_table (db s) !! params_applicationId req) as [application|] eqn:Hfound;
    cbn; [|intros H; contradiction H; reflexivity].
  destruct (String.eqb_spec (volunteerId application) (user_id (req_user req)))
    as [Hown | Hown]; cbn; [|intros H; contradiction H; reflexivity].
  destruct (String.eqb_spec (application_status application) "ACCEPTED")
    as [Hstatus | Hstatus]; cbn; [intros H; contradiction H; reflexivity|].
  intros _. split; [exact Hrole|]. exists application. auto.
Qed.

(** X3.  The deletion is not undone when the notification fails: with the
    preconditions of a successful withdrawal but a notification service that
    rejects, the handler forwards the error to [next], and the application
    is nevertheless gone and the counter decremented. *)
Theorem withdraw_not_rolled_back
  (req : Request) (s : State) (application : Application) (project : ProjectRow) :
  role (req_user req) = "VOLUNTEER" ->
  application_table (db s) !! params_applicationId req = Some application ->
  volunteerId application = user_id (req_user req) ->
  application_status application <> "ACCEPTED" ->
  project_table (db s) !! projectId application = Some project ->
  (forall n w, exists e w', send n w = (Throw e, w')) ->
  exists e s',
    withdrawApplication send req s = (Next e, s')
    /\ application_table (db s') !! params_applicationId req = None
    /\ project_table (db s') !! projectId application
       = Some (decrement_volunteersApplied project).
Proof.
  intros Hrole Hfound Hown Hstatus Hproject Hsend.
  apply String.eqb_neq in Hstatus.
  run_withdraw.
  rewrite Hrole; cbn. rewrite Hfound; cbn. rewrite Hown, String.eqb_refl; cbn.
  rewrite Hstatus; cbn. rewrite Hfound; cbn. rewrite Hproject; cbn.
  match goal with
  | |- context [send ?n (world s)] => destruct (Hsend n (world s)) as (e & w' & ->)
  end.
  do 2 eexists. split; [reflexivity|]. cbn.
  split; [apply lookup_delete_eq | apply lookup_insert_eq].
Qed.

(** [withdrawApplication] keeps the applied-counter invariant in every run
    of the model, in which the database carries out each write it is asked
    for: if every project row carries the number of applications that
    reference it, the same holds after the call. *)
Theorem withdraw_keeps_counter (req : Request) (s : State) :
  counter_consistent (db s) ->
  counter_consistent (db (snd (withdrawApplication send req s))).
Proof.
  intros Hinv. destruct s as [[vp projects tbl] w tr]. cbn in Hinv.
  run_withdraw. cbn.
  destruct (negb (String.eqb (role (req_user req)) "VOLUNTEER")); cbn; [exact Hinv|].
  destruct (tbl !! params_applicationId req) as [application|] eqn:Hfound; cbn;
    [|exact Hinv].
  destruct (negb (String.eqb (volunteerId application) (user_id (req_user req)))); cbn;
    [exact Hinv|].
  destruct (String.eqb (application_status application) "ACCEPTED"); cbn; [exact Hinv|].
  rewrite Hfound; cbn.
  destruct (projects !! projectId application) as [project|] eqn:Hproject; cbn.
  - assert (Hgoal : counter_consistent
                      (mkDB vp
                         (<[projectId application := decrement_volunteersApplied project]>
                            projects)
                         (delete (params_applicationId req) tbl))).
    { intros pid p Hlook. cbn in Hlook.
      rewrite (application_count_projects _ vp _ projects).
      destruct (decide (projectId application = pid)) as [<- | Hne].
      - rewrite lookup_insert_eq in Hlook. injection Hlook as <-. cbn.
        rewrite (Hinv _ _ Hproject).
        rewrite (application_count_delete _ vp projects tbl _ _ Hfound).
        unfold of_project at 1. rewrite String.eqb_refl. lia.
      - rewrite lookup_insert_ne in Hlook by exact Hne.
        rewrite (Hinv _ _ Hlook).
        rewrite (application_count_delete _ vp projects tbl _ _ Hfound).
        unfold of_project at 1.
        destruct (String.eqb_spec (projectId application) pid); [contradiction|].
        reflexivity. }
    match goal with
    | |- context [send ?n w] => destruct (send n w) as [[[]|e] w']
    end; cbn; exact Hgoal.
  - intros pid p Hlook. cbn in Hlook.
    rewrite (Hinv _ _ Hlook).
    rewrite (application_count_delete _ vp projects tbl _ _ Hfound).
    unfold of_project at 1.
    destruct (String.eqb_spec (projectId application) pid) as [Heq | Hne];
      [congruence | reflexivity].
Qed.

End WithdrawEffects.

(** ** applyForProject *)

Lemma head_applications_where_None (P : Application -> bool) (db : DB) :
  head (applications_where P db) = None
  <-> forall i a, application_table db !! i = Some a -> P a = false.
Proof.
  split.
  - intros Hhead i a Hi.
    destruct (P a) eqn:HP; [|reflexivity].
    assert (Hin : In a (applications_where P db)).
    { apply applications_where_elem. split; [exists i; exact Hi | exact HP]. }
    destruct (applications_where P db); [contradiction | discriminate].
  - intros Hnone.
    destruct (applications_where P db) as [|a l] eqn:E; [reflexivity|].
    assert (Hin : In a (applications_where P db)) by (rewrite E; left; reflexivity).
    apply applications_where_elem in Hin. destruct Hin as [[i Hi] HP].
    rewrite (Hnone i a Hi) in HP. discriminate.
Qed.

Lemma increment_then_decrement (p : ProjectRow) :
  decrement_volunteersApplied (increment_volunteersApplied p) = p.
Proof.
  destruct p. unfold decrement_volunteersApplied, increment_volunteersApplied. cbn.
  f_equal. lia.
Qed.

Section ApplyForProject.

Context {W : Type}.
Variable send : Notice -> W -> Result unit * W.
Variable create : string -> string -> Request -> DB -> W -> Result CreatedApplication * W.

(** What a run of [applyForProject] that answers with a JSON body has done. *)
Lemma applyForProject_json_inv (req : Request) (s s1 : @State (W * list Notice))
  (code : Z) (body : ApplicationBody) :
  applyForProject send create req s = (Json code body, s1) ->
  exists project created w1 w2,
    code = 201
    /\ role (req_user req) = "VOLUNTEER"
    /\ project_table (db s) !! params_projectId req = Some project
    /\ status project = "ACTIVE"
    /\ (forall i a, application_table (db s) !! i = Some a ->
        of_volunteer_and_project (user_id (req_user req)) (params_projectId req) a = false)
    /\ create (user_id (req_user req)) (params_projectId req) req (db s) (fst (world s))
       = (Ok created, w1)
    /\ application_table (db s) !! created_id created = None
    /\ ab_data body
       = {| application_id := created_id created;
            volunteerId := user_id (req_user req);
            projectId := params_projectId req;
            application_status := created_status created;
            reviewedAt := created_reviewedAt created |}
    /\ db s1
       = {| volunteerProfile_table := volunteerProfile_table (db s);
            project_table :=
              <[params_projectId req := increment_volunteersApplied project]>
                (project_table (db s));
            application_table :=
              <[created_id created := ab_data body]> (application_table (db s)) |}
    /\ trace s1 = trace s
    /\ exists n, world s1 = (w2, snd (world s) ++ [n])
         /\ notice_userId n = creatorId project
         /\ notice_type n = "NEW_APPLICATION"
         /\ notice_data n
            = [("projectId", params_projectId req);
               ("applicationId", created_id created);
               ("volunteerId", user_id (req_user req))].
Proof.
  destruct s as [d [w sent] tr]. run_apply. cbn.
  destruct (String.eqb_spec (role (req_user req)) "VOLUNTEER") as [Hrole | Hrole]; cbn;
    [|discriminate].
  destruct (project_table d !! params_projectId req) as [project|] eqn:Hproject; cbn;
    [|discriminate].
  destruct (String.eqb_spec (status project) "ACTIVE") as [Hactive | Hactive]; cbn;
    [|discriminate].
  destruct (head (applications_where _ d)) as [dup|] eqn:Hdup; cbn; [discriminate|].
  destruct (create _ _ req d w) as [[created | e] w1] eqn:Hcreate; cbn; [|discriminate].
  destruct (application_table d !! created_id created) eqn:Hfresh; cbn; [discriminate|].
  rewrite Hproject; cbn.
  match goal with
  | |- context [send ?n w1] => destruct (send n w1) as [[[]|e] w2] eqn:Hsend
  end; cbn; [|discriminate].
  intros H. injection H as <- <- <-.
  exists project, created, w1, w2.
  split; [reflexivity|]. split; [exact Hrole|]. split; [reflexivity|].
  split; [exact Hactive|].
  split; [apply head_applications_where_None; exact Hdup|].
  split; [reflexivity|]. split; [exact Hfresh|]. split; [reflexivity|].
  split; [reflexivity|]. split; [reflexivity|].
  eexists. split; [reflexivity|]. cbn. auto.
Qed.

(** The database after any run of [applyForProject]: untouched, or with
    the new application inserted and the counter incremented. *)
Lemma applyForProject_db_cases (req : Request) (s : @State (W * list Notice)) :
  db (snd (applyForProject send create req s)) = db s
  \/ exists project created,
      role (req_user req) = "VOLUNTEER"
      /\ project_table (db s) !! params_projectId req = Some project
      /\ status project = "ACTIVE"
      /\ (forall i a, application_table (db s) !! i = Some a ->
          of_volunteer_and_project (user_id (req_user req)) (params_projectId req) a = false)
      /\ application_table (db s) !! created_id created = None
      /\ db (snd (applyForProject send create req s))
         = {| volunteerProfile_table := volunteerProfile_table (db s);
              project_table :=
                <[params_projectId req := increment_volunteersApplied project]>
                  (project_table (db s));
              application_table :=
                <[created_id created :=
                    {| application_id := created_id created;
                       volunteerId := user_id (req_user req);
                       projectId := params_projectId req;
                       application_status := created_status created;
            reviewedAt := created_reviewedAt created |}]>
                  (application_table (db s)) |}.
Proof.
  destruct s as [d [w sent] tr]. run_apply. cbn.
  destruct (String.eqb_spec (role (req_user req)) "VOLUNTEER") as [Hrole | Hrole]; cbn;
    [|left; reflexivity].
  destruct (project_table d !! params_projectId req) as [project|] eqn:Hproject; cbn;
    [|left; reflexivity].
  destruct (String.eqb_spec (status project) "ACTIVE") as [Hactive | Hactive]; cbn;
    [|left; reflexivity].
  destruct (head (applications_where _ d)) as [dup|] eqn:Hdup; cbn; [left; reflexivity|].
  destruct (create _ _ req d w) as [[created | e] w1] eqn:Hcreate; cbn;
    [|left; reflexivity].
  destruct (application_table d !! created_id created) eqn:Hfresh; cbn;
    [left; reflexivity|].
  rewrite Hproject; cbn.
  right. exists project, created.
  split; [exact Hrole|]. split; [reflexivity|]. split; [exact Hactive|].
  split; [apply head_applications_where_None; exact Hdup|].
  split; [exact Hfresh|].
  match goal with
  | |- context [send ?n w1] => destruct (send n w1) as [[[]|e] w2]
  end; reflexivity.
Qed.

(** X4.  [applyForProject] changes the database only for a VOLUNTEER who
    applies to an existing ACTIVE project for which they have no application
    yet; every other request leaves all tables as they were. *)
Theorem apply_changes_only_when_eligible (req : Request) (s : @State (W * list Notice)) :
  db (snd (applyForProject send create req s)) <> db s ->
  role (req_user req) = "VOLUNTEER"
  /\ (exists project,
        project_table (db s) !! params_projectId req = Some project
        /\ status project = "ACTIVE")
  /\ (forall i a,
        application_table (db s) !! i = Some a ->
        ~ (volunteerId a = user_id (req_user req) /\ projectId a = params_projectId req)).
Proof.
  intros Hchanged.
  destruct (applyForProject_db_cases req s)
    as [Hsame | (project & created & Hrole & Hproject & Hactive & Hnodup & _)];
    [contradiction|].
  split; [exact Hrole|]. split; [exists project; auto|].
  intros i a Hi [Hv Hp].
  specialize (Hnodup i a Hi). unfold of_volunteer_and_project in Hnodup.
  rewrite Hv, Hp, !String.eqb_refl in Hnodup. discriminate.
Qed.

(** X5.  For an eligible request (VOLUNTEER, existing ACTIVE project, no
    earlier application of this volunteer for it), a database that generates
    a fresh id and a notification service that answers, [applyForProject]
    answers 201 with the new application; the application is stored under
    its id, the project's [volunteersApplied] is incremented by one, no other
    row changes, and one NEW_APPLICATION notice goes to the project's
    creator. *)
Theorem apply_creates_and_increments
  (req : Request) (s : @State (W * list Notice)) (project : ProjectRow)
  (created : CreatedApplication) (w1 : W) :
  role (req_user req) = "VOLUNTEER" ->
  project_table (db s) !! params_projectId req = Some project ->
  status project = "ACTIVE" ->
  (forall i a,
      application_table (db s) !! i = Some a ->
      ~ (volunteerId a = user_id (req_user req) /\ projectId a = params_projectId req)) ->
  create (user_id (req_user req)) (params_projectId req) req (db s) (fst (world s))
  = (Ok created, w1) ->
  application_table (db s) !! created_id created = None ->
  (forall n w, exists w', send n w = (Ok tt, w')) ->
  exists s1 n w2,
    let row := {| application_id := created_id created;
                  volunteerId := user_id (req_user req);
                  projectId := params_projectId req;
                  application_status := created_status created;
            reviewedAt := created_reviewedAt created |} in
    applyForProject send create req s
    = (Json 201 {| ab_message := "Application submitted successfully"; ab_data := row |}, s1)
    /\ application_table (db s1) = <[created_id created := row]> (application_table (db s))
    /\ project_table (db s1)
       = <[params_projectId req := increment_volunteersApplied project]>
           (project_table (db s))
    /\ volunteerProfile_table (db s1) = volunteerProfile_table (db s)
    /\ world s1 = (w2, snd (world s) ++ [n])
    /\ notice_userId n = creatorId project
    /\ notice_type n = "NEW_APPLICATION".
Proof.
  intros Hrole Hproject Hactive Hnodup Hcreate Hfresh Hsend.
  assert (Hhead : head (applications_where
                          (of_volunteer_and_project (user_id (req_user req))
                             (params_projectId req)) (db s)) = None).
  { apply head_applications_where_None. intros i a Hi.
    unfold of_volunteer_and_project.
    destruct (String.eqb_spec (volunteerId a) (user_id (req_user req))) as [Hv|]; cbn;
      [|reflexivity].
    destruct (String.eqb_spec (projectId a) (params_projectId req)) as [Hp|];
      [|reflexivity].
    exfalso. exact (Hnodup i a Hi (conj Hv Hp)). }
  destruct s as [d [w sent] tr]. cbn in *. run_apply. cbn.
  rewrite Hrole; cbn. rewrite Hproject; cbn. rewrite Hactive; cbn.
  rewrite Hhead; cbn. rewrite Hcreate; cbn. rewrite Hfresh; cbn. rewrite Hproject; cbn.
  match goal with
  | |- context [send ?n w1] => destruct (Hsend n w1) as [w2 ->]
  end.
  do 3 eexists. cbn. split; [reflexivity|]. cbn. repeat split; reflexivity.
Qed.

(** [applyForProject] never creates a second application of one
    volunteer for one project: if no volunteer has two applications for the
    same project before the call, none has after it, however the call
    ends. *)
Theorem apply_keeps_unique_applications (req : Request) (s : @State (W * list Notice)) :
  unique_applications (db s) ->
  unique_applications (db (snd (applyForProject send create req s))).
Proof.
  intros Huniq.
  destruct (applyForProject_db_cases req s)
    as [-> | (project & created & _ & _ & _ & Hnodup & Hfresh & ->)];
    [exact Huniq|].
  intros i j a b Hi Hj Hv Hp. cbn in Hi, Hj.
  assert (Hclash : forall k c,
             application_table (db s) !! k = Some c ->
             ~ (volunteerId c = user_id (req_user req)
                /\ projectId c = params_projectId req)).
  { intros k c Hk [Hcv Hcp]. specialize (Hnodup k c Hk).
    unfold of_volunteer_and_project in Hnodup.
    rewrite Hcv, Hcp, !String.eqb_refl in Hnodup. discriminate. }
  destruct (decide (created_id created = i)) as [Hei | Hni];
    destruct (decide (created_id created = j)) as [Hej | Hnj].
  - congruence.
  - subst i. rewrite lookup_insert_eq in Hi. rewrite lookup_insert_ne in Hj by exact Hnj.
    injection Hi as <-. cbn in Hv, Hp. exfalso. apply (Hclash j b Hj). auto.
  - subst j. rewrite lookup_insert_eq in Hj. rewrite lookup_insert_ne in Hi by exact Hni.
    injection Hj as <-. cbn in Hv, Hp. exfalso. apply (Hclash i a Hi). auto.
  - rewrite lookup_insert_ne in Hi by exact Hni.
    rewrite lookup_insert_ne in Hj by exact Hnj.
    exact (Huniq i j a b Hi Hj Hv Hp).
Qed.

(** [applyForProject] keeps the applied-counter invariant in every run of
    the model, in which the database carries out each write it is asked
    for: if every project row carries the number of applications that
    reference it, the same holds after the call. *)
Theorem apply_keeps_counter (req : Request) (s : @State (W * list Notice)) :
  counter_consistent (db s) ->
  counter_consistent (db (snd (applyForProject send create req s))).
Proof.
  intros Hinv.
  destruct (applyForProject_db_cases req s)
    as [-> | (project & created & _ & Hproject & _ & _ & Hfresh & ->)];
    [exact Hinv|].
  destruct (db s) as [vp projects tbl] eqn:Hdb. cbn in *.
  intros pid p Hlook. cbn in Hlook.
  rewrite (application_count_projects _ vp _ projects).
  rewrite application_count_insert_fresh by exact Hfresh.
  unfold of_project at 1. cbn.
  destruct (decide (params_projectId req = pid)) as [<- | Hne].
  - rewrite lookup_insert_eq in Hlook. injection Hlook as <-. cbn.
    rewrite (Hinv _ _ Hproject), String.eqb_refl. lia.
  - rewrite lookup_insert_ne in Hlook by exact Hne.
    rewrite (Hinv _ _ Hlook).
    destruct (String.eqb_spec (params_projectId req) pid); [contradiction|].
    reflexivity.
Qed.

(** X6.  Applying and then withdrawing is a round trip on the database: after
    a successful [applyForProject], a [withdrawApplication] of the created
    application by the same user (the application not being ACCEPTED) leaves
    every table exactly as it was before the application, whether or not the
    withdrawal's notification is delivered. *)
Theorem apply_then_withdraw_restores
  (sendW : Notification -> W * list Notice -> Result unit * (W * list Notice))
  (req req' : Request) (s s1 : @State (W * list Notice))
  (code : Z) (body : ApplicationBody) :
  applyForProject send create req s = (Json code body, s1) ->
  application_status (ab_data body) <> "ACCEPTED" ->
  req_user req' = req_user req ->
  params_applicationId req' = application_id (ab_data body) ->
  db (snd (withdrawApplication sendW req' s1)) = db s.
Proof.
  intros Happly Hstatus Huser Hid.
  destruct (applyForProject_json_inv req s s1 code body Happly)
    as (project & created & w1 & w2 & _ & Hrole & Hproject & _ & _ & _ & Hfresh
        & Hrow & Hdb1 & _).
  apply String.eqb_neq in Hstatus.
  destruct s1 as [d1 wd1 tr1]. cbn in Hdb1. subst d1.
  rewrite Hrow in Hid, Hstatus. cbn in Hid, Hstatus.
  unfold withdrawApplication, handler, bind, application_findUnique, throw,
    application_delete, project_update, sendNotification, ret.
  cbv zeta. rewrite Huser, Hrole, Hid, Hrow. cbn.
  rewrite lookup_insert_eq; cbn. rewrite String.eqb_refl; cbn. rewrite Hstatus; cbn.
  rewrite lookup_insert_eq; cbn. rewrite !lookup_insert_eq; cbn.
  assert (Hrestored :
            {| volunteerProfile_table := volunteerProfile_table (db s);
               project_table :=
                 <[params_projectId req :=
                     decrement_volunteersApplied (increment_volunteersApplied project)]>
                   (<[params_projectId req := increment_volunteersApplied project]>
                      (project_table (db s)));
               application_table :=
                 delete (created_id created)
                   (<[created_id created :=
                        {| application_id := created_id created;
                           volunteerId := user_id (req_user req);
                           projectId := params_projectId req;
                           application_status := created_status created;
            reviewedAt := created_reviewedAt created |}]>
                      (application_table (db s))) |} = db s).
  { rewrite increment_then_decrement, insert_insert_eq, (insert_id _ _ _ Hproject).
    rewrite delete_insert_id by exact Hfresh.
    destruct (db s); reflexivity. }
  match goal with
  | |- context [sendW ?n ?w] => destruct (sendW n w) as [[[]|e] w']
  end; cbn; exact Hrestored.
Qed.

End ApplyForProject.

(** ** respondToApplication *)

Section RespondToApplication.

Context {W : Type}.
Variable send : Notice -> W -> Result unit * W.
Variable valid_status : string -> bool.
Variable now : string.

(** The database after any run of [respondToApplication]: untouched, or
    with the named application reviewed. *)
Lemma respondToApplication_db_cases (req : Request) (s : @State (W * list Notice)) :
  db (snd (respondToApplication send valid_status now req s)) = db s
  \/ exists application project,
      application_table (db s) !! params_applicationId req = Some application
      /\ project_table (db s) !! projectId application = Some project
      /\ (creatorId project = user_id (req_user req) \/ role (req_user req) = "ADMIN")
      /\ (forall st, body_field req "status" = Some st -> valid_status st = true)
      /\ db (snd (respondToApplication send valid_status now req s))
         = {| volunteerProfile_table := volunteerProfile_table (db s);
              project_table := project_table (db s);
              application_table :=
                <[params_applicationId req
                  := review (body_field req "status") now application]>
                  (application_table (db s)) |}.
Proof.
  destruct s as [d [w sent] tr]. run_respond. cbn.
  destruct (application_table d !! params_applicationId req) as [application|] eqn:Hfound;
    cbn; [|left; reflexivity].
  destruct (project_table d !! projectId application) as [project|] eqn:Hproject; cbn;
    [|left; reflexivity].
  assert (Hcases :
    negb (String.eqb (creatorId project) (user_id (req_user req)))
    && negb (String.eqb (role (req_user req)) "ADMIN") = true
    \/ (negb (String.eqb (creatorId project) (user_id (req_user req)))
        && negb (String.eqb (role (req_user req)) "ADMIN") = false
        /\ (creatorId project = user_id (req_user req) \/ role (req_user req) = "ADMIN"))).
  { destruct (String.eqb_spec (creatorId project) (user_id (req_user req))); cbn; auto.
    destruct (String.eqb_spec (role (req_user req)) "ADMIN"); cbn; auto. }
  destruct Hcases as [-> | [-> Hown]]; cbn; [left; reflexivity|].
  rewrite Hfound; cbn.
  destruct (body_field req "status") as [st|] eqn:Hst; cbn.
  - destruct (valid_status st) eqn:Hvalid; cbn; [|left; reflexivity].
    right. exists application, project.
    repeat (split; [solve [auto]|]).
    split; [intros st' H; injection H as <-; exact Hvalid|].
    match goal with
    | |- context [send ?n w] => destruct (send n w) as [[[]|e] w2]
    end; reflexivity.
  - right. exists application, project.
    repeat (split; [solve [auto]|]).
    split; [intros st' H; discriminate H | reflexivity].
Qed.

(** X9.  Only the creator of the project or an ADMIN can change an
    application through [respondToApplication]: for every other caller and
    for an unknown application all tables stay as they were, and a change
    is the review of the named application.  A status is not needed for
    it: the update is made before the status is used, so a response
    without a status stamps the review time on the application, leaves its
    status, and then fails with a [TypeError] without notifying anybody. *)
Theorem respond_changes_only_for_owner (req : Request) (s : @State (W * list Notice)) :
  (db (snd (respondToApplication send valid_status now req s)) <> db s ->
   exists application project,
     application_table (db s) !! params_applicationId req = Some application
     /\ project_table (db s) !! projectId application = Some project
     /\ (creatorId project = user_id (req_user req) \/ role (req_user req) = "ADMIN")
     /\ application_table (db (snd (respondToApplication send valid_status now req s)))
        = <[params_applicationId req := review (body_field req "status") now application]>
            (application_table (db s)))
  /\ (forall application project,
        application_table (db s) !! params_applicationId req = Some application ->
        project_table (db s) !! projectId application = Some project ->
        creatorId project = user_id (req_user req) \/ role (req_user req) = "ADMIN" ->
        body_field req "status" = None ->
        exists detail s1,
          respondToApplication send valid_status now req s = (Next (OtherError detail), s1)
          /\ application_table (db s1) !! params_applicationId req
             = Some {| application_id := application_id application;
                       volunteerId := volunteerId application;
                       projectId := projectId application;
                       application_status := application_status application;
                       reviewedAt := Some now |}
          /\ world s1 = world s).
Proof.
  split.
  - intros Hchanged.
    destruct (respondToApplication_db_cases req s)
      as [Hsame | (application & project & Hfound & Hproject & Hown & _ & Hdb)];
      [contradiction|].
    exists application, project. rewrite Hdb. auto.
  - intros application project Hfound Hproject Hown Hst.
    assert (Hguard : negb (String.eqb (creatorId project) (user_id (req_user req)))
                     && negb (String.eqb (role (req_user req)) "ADMIN") = false).
    { destruct Hown as [-> | ->].
      - rewrite String.eqb_refl. reflexivity.
      - rewrite andb_comm. reflexivity. }
    run_respond.
    rewrite Hfound; cbn. rewrite Hproject; cbn. rewrite Hguard; cbn.
    rewrite Hfound; cbn. rewrite Hst; cbn.
    do 2 eexists. split; [reflexivity|]. cbn.
    split; [apply lookup_insert_eq | reflexivity].
Qed.

(** X10.  When the creator of the project (or an ADMIN) responds with a
    status the column accepts and the notification service answers, the
    answer is 200; the application's status becomes the requested one, its
    review time the time of the request, and nothing else in the database
    changes (in particular no project counter), and one APPLICATION_UPDATE
    notice carrying the status goes to the volunteer who applied. *)
Theorem respond_sets_status
  (req : Request) (s : @State (W * list Notice))
  (application : Application) (project : ProjectRow) (st : string) :
  application_table (db s) !! params_applicationId req = Some application ->
  project_table (db s) !! projectId application = Some project ->
  creatorId project = user_id (req_user req) \/ role (req_user req) = "ADMIN" ->
  body_field req "status" = Some st ->
  valid_status st = true ->
  (forall n w, exists w', send n w = (Ok tt, w')) ->
  exists s1 n w2,
    let reviewed :=
      {| application_id := application_id application;
         volunteerId := volunteerId application;
         projectId := projectId application;
         application_status := st;
         reviewedAt := Some now |} in
    respondToApplication send valid_status now req s
    = (Json 200 {| ab_message := "Application " +:+ Js.toLowerCase st +:+ " successfully";
                   ab_data := reviewed |}, s1)
    /\ application_table (db s1)
       = <[params_applicationId req := reviewed]> (application_table (db s))
    /\ project_table (db s1) = project_table (db s)
    /\ volunteerProfile_table (db s1) = volunteerProfile_table (db s)
    /\ world s1 = (w2, snd (world s) ++ [n])
    /\ notice_userId n = volunteerId application
    /\ notice_type n = "APPLICATION_UPDATE"
    /\ notice_data n
       = [("projectId", projectId application);
          ("applicationId", params_applicationId req);
          ("status", st)].
Proof.
  intros Hfound Hproject Hown Hst Hvalid Hsend.
  assert (Hguard : negb (String.eqb (creatorId project) (user_id (req_user req)))
                   && negb (String.eqb (role (req_user req)) "ADMIN") = false).
  { destruct Hown as [-> | ->].
    - rewrite String.eqb_refl. reflexivity.
    - rewrite andb_comm. reflexivity. }
  destruct s as [d [w sent] tr]. cbn in *. run_respond. cbn.
  rewrite Hfound; cbn. rewrite Hproject; cbn. rewrite Hguard; cbn.
  rewrite Hfound; cbn. rewrite Hst; cbn. rewrite Hvalid; cbn.
  match goal with
  | |- context [send ?n w] => destruct (Hsend n w) as [w2 ->]
  end.
  do 3 eexists. split; [reflexivity|]. cbn. repeat split; reflexivity.
Qed.

(** [respondToApplication] keeps both invariants of the application
    table: the applied-counters still equal the number of applications of
    their project, and no volunteer has two applications for one project. *)
Theorem respond_keeps_invariants (req : Request) (s : @State (W * list Notice)) :
  (counter_consistent (db s) ->
   counter_consistent (db (snd (respondToApplication send valid_status now req s))))
  /\ (unique_applications (db s) ->
      unique_applications (db (snd (respondToApplication send valid_status now req s)))).
Proof.
  destruct (respondToApplication_db_cases req s)
    as [-> | (application & project & Hfound & _ & _ & _ & ->)];
    [split; auto|].
  split.
  - intros Hinv pid p Hlook. cbn in Hlook.
    rewrite (Hinv _ _ Hlook).
    destruct (db s) as [vp projects tbl]. cbn in *.
    f_equal. symmetry.
    apply (application_count_replace _ vp projects tbl _ application);
      [exact Hfound | reflexivity].
  - intros Huniq i j a b Hi Hj Hv Hp. cbn in Hi, Hj.
    assert (Hrow : forall k c,
               <[params_applicationId req
                 := review (body_field req "status") now application]>
                 (application_table (db s)) !! k = Some c ->
               exists c0, application_table (db s) !! k = Some c0
                          /\ volunteerId c0 = volunteerId c
                          /\ projectId c0 = projectId c).
    { intros k c Hk.
      destruct (decide (params_applicationId req = k)) as [<- | Hne].
      - rewrite lookup_insert_eq in Hk. injection Hk as <-.
        exists application. auto.
      - rewrite lookup_insert_ne in Hk by exact Hne. exists c. auto. }
    destruct (Hrow i a Hi) as (a0 & Hi0 & Hav & Hap).
    destruct (Hrow j b Hj) as (b0 & Hj0 & Hbv & Hbp).
    apply (Huniq i j a0 b0 Hi0 Hj0); congruence.
Qed.

(** X11.  An application that was accepted can no longer be withdrawn: after
    a [respondToApplication] that answered with status ACCEPTED, every
    [withdrawApplication] request for that application ends in an error
    (403 or 400) and leaves the state as the response left it. *)
Theorem accepted_then_withdraw_rejected
  (sendW : Notification -> W * list Notice -> Result unit * (W * list Notice))
  (req req' : Request) (s s1 : @State (W * list Notice))
  (code : Z) (body : ApplicationBody) :
  respondToApplication send valid_status now req s = (Json code body, s1) ->
  body_field req "status" = Some "ACCEPTED" ->
  params_applicationId req' = params_applicationId req ->
  exists msg c,
    withdrawApplication sendW req' s1 = (Next (AppError msg c), s1)
    /\ (c = 403 \/ c = 400).
Proof.
  intros Hrespond Hst Hid.
  assert (Hrow : exists application,
             application_table (db s1) !! params_applicationId req
             = Some (review (Some "ACCEPTED") now application)).
  { revert Hrespond. destruct s as [d [w sent] tr]. run_respond. cbn.
    destruct (application_table d !! params_applicationId req) as [application|] eqn:Hfound;
      cbn; [|discriminate].
    destruct (project_table d !! projectId application) as [project|]; cbn;
      [|discriminate].
    destruct (negb _ && negb _); cbn; [discriminate|].
    rewrite Hfound, Hst; cbn.
    destruct (valid_status "ACCEPTED"); cbn; [|discriminate].
    match goal with
    | |- context [send ?n w] => destruct (send n w) as [[[]|e] w2]
    end; cbn; [|discriminate].
    intros H. injection H as _ _ <-. cbn.
    exists application. apply lookup_insert_eq. }
  destruct Hrow as [application Hrow].
  unfold withdrawApplication, handler, bind, application_findUnique, throw.
  cbv zeta. rewrite Hid.
  destruct (negb (String.eqb (role (req_user req')) "VOLUNTEER")); cbn.
  - do 2 eexists. split; [reflexivity | auto].
  - rewrite Hrow; cbn.
    destruct (negb (String.eqb (volunteerId application) (user_id (req_user req')))); cbn.
    + do 2 eexists. split; [reflexivity | auto].
    + do 2 eexists. split; [reflexivity | auto].
Qed.

End RespondToApplication.

(** ** deleteProject *)

Section DeleteProject.

Context {W : Type}.
Variable send : Notice -> W -> Result unit * W.
Variable pdelete : string -> DB -> W -> Result DB * W.

(** The loop over the applications: notices go to a prefix of them, to all
    of them unless a call fails. *)
Lemma for_of_sendNotice {A : Type} (f : A -> Notice) (l : list A) :
  forall s : @State (W * list Notice),
  exists (k : nat) r s',
    for_of l (fun a => sendNotice send (f a)) s = (r, s')
    /\ db s' = db s
    /\ trace s' = trace s
    /\ snd (world s') = snd (world s) ++ map f (firstn k l)
    /\ (r = Ok tt -> k = length l)
    /\ ((forall n w, exists w', send n w = (Ok tt, w')) -> r = Ok tt).
Proof.
  induction l as [|a l IH]; intros s.
  - exists 0%nat, (Ok tt), s. cbn. rewrite app_nil_r. repeat split; auto.
  - cbn [for_of]. unfold bind at 1. unfold sendNotice at 1.
    destruct (world s) as [w sent] eqn:Hworld.
    destruct (send (f a) w) as [[[]|e] w'] eqn:Esend.
    + destruct (IH {| db := db s; world := (w', sent ++ [f a]); trace := trace s |})
        as (k & r & s' & Hrun & Hdb & Htrace & Hsent & Hok & Hall).
      exists (S k), r, s'. rewrite Hrun. cbn in *.
      split; [reflexivity|]. split; [exact Hdb|]. split; [exact Htrace|].
      split; [rewrite Hsent, <- app_assoc; reflexivity|].
      split; [intros Hr; rewrite (Hok Hr); reflexivity | exact Hall].
    + exists 1%nat, (Throw e),
        {| db := db s; world := (w', sent ++ [f a]); trace := trace s |}.
      cbn. repeat split; auto.
      * intros Hr. discriminate Hr.
      * intros Hall. destruct (Hall (f a) w) as [w'' Hw'']. congruence.
Qed.

(** X12.  [deleteProject] changes the state only when the project exists and
    the caller is its creator or an ADMIN: every other request ends with the
    state it started from. *)
Theorem delete_only_by_owner (req : Request) (s : @State (W * list Notice)) :
  snd (deleteProject send pdelete req s) <> s ->
  exists project,
    project_table (db s) !! params_projectId req = Some project
    /\ (creatorId project = user_id (req_user req) \/ role (req_user req) = "ADMIN").
Proof.
  run_delete.
  destruct (project_table (db s) !! params_projectId req) as [project|] eqn:Hproject; cbn;
    [|intros H; contradiction H; reflexivity].
  destruct (String.eqb_spec (creatorId project) (user_id (req_user req))) as [Hown | Hown];
    cbn.
  - intros _. exists project. auto.
  - destruct (String.eqb_spec (role (req_user req)) "ADMIN") as [Hadmin | Hadmin]; cbn.
    + intros _. exists project. auto.
    + intros H; contradiction H; reflexivity.
Qed.

Lemma filter_map_snd {K A : Type} (P : A -> bool) (l : list (K * A)) :
  List.filter P (map snd l) = map snd (List.filter (fun entry => P (snd entry)) l).
Proof.
  induction l as [|[k a] l IH]; cbn; [reflexivity|].
  destruct (P a); cbn; rewrite IH; reflexivity.
Qed.

Lemma NoDup_map_fst_filter {K A : Type} (P : K * A -> bool) (l : list (K * A)) :
  NoDup (map fst l) -> NoDup (map fst (List.filter P l)).
Proof.
  induction l as [|[k a] l IH]; cbn; [auto|].
  rewrite NoDup_cons. intros [Hk Hnd].
  destruct (P (k, a)); cbn; [|auto].
  apply NoDup_cons. split; [|auto].
  intros Hin. apply Hk.
  apply list_elem_of_In in Hin. apply list_elem_of_In.
  apply List.in_map_iff in Hin. destruct Hin as ([k' a'] & E & Hin). cbn in E. subst k'.
  apply List.filter_In in Hin. apply List.in_map_iff. exists (k, a'). tauto.
Qed.

(** X13.  A deletion by the creator (or an ADMIN) that the database carries
    out notifies the applicants: with a notification service that answers,
    the answer is 200, the database is the one the deletion left, and the
    notices sent are exactly one for every application that referenced the
    project before the deletion: a PROJECT_DELETED notice addressed to the
    volunteer of that application, naming the project.  No one else is
    notified. *)
Theorem delete_notifies_every_applicant
  (req : Request) (s : @State (W * list Notice)) (project : ProjectRow)
  (db' : DB) (w1 : W) :
  project_table (db s) !! params_projectId req = Some project ->
  creatorId project = user_id (req_user req) \/ role (req_user req) = "ADMIN" ->
  pdelete (params_projectId req) (db s) (fst (world s)) = (Ok db', w1) ->
  (forall n w, exists w', send n w = (Ok tt, w')) ->
  exists s1 (entries : list (string * Application)),
    deleteProject send pdelete req s
    = (Json 200 {| body_message := "Project deleted successfully"; body_data := None |}, s1)
    /\ db s1 = db'
    /\ NoDup (map fst entries)
    /\ (forall i a,
          In (i, a) entries
          <-> application_table (db s) !! i = Some a
              /\ projectId a = params_projectId req)
    /\ snd (world s1)
       = snd (world s)
         ++ map (fun entry =>
                   {| notice_userId := volunteerId (snd entry);
                      notice_type := "PROJECT_DELETED";
                      notice_title := "Project Cancelled";
                      notice_message :=
                        "The project " +:+ dquote +:+ title project +:+ dquote
                        +:+ " has been cancelled.";
                      notice_data := [("projectId", params_projectId req)] |})
              entries.
Proof.
  intros Hproject Hown Hdelete Hsend.
  assert (Hguard : negb (String.eqb (creatorId project) (user_id (req_user req)))
                   && negb (String.eqb (role (req_user req)) "ADMIN") = false).
  { destruct Hown as [-> | ->].
    - rewrite String.eqb_refl. reflexivity.
    - rewrite andb_comm. reflexivity. }
  destruct s as [d [w sent] tr]. cbn in *. run_delete. cbn.
  rewrite Hproject; cbn. rewrite Hguard; cbn. rewrite Hdelete; cbn.
  match goal with
  | |- context [for_of ?l ?g ?s0] =>
      destruct (for_of_sendNotice (deletionNotice project (params_projectId req)) l s0)
        as (k & r & s1 & Hrun & Hdb & _ & Hsent & Hok & Hall)
  end.
  rewrite Hrun. rewrite (Hall Hsend) in *. cbn.
  exists s1,
    (List.filter (fun entry => of_project (params_projectId req) (snd entry))
       (map_to_list (application_table d))).
  split; [reflexivity|]. split; [exact Hdb|].
  split; [apply NoDup_map_fst_filter, (NoDup_fst_map_to_list (application_table d))|].
  split.
  - intros i a. rewrite List.filter_In, <- list_elem_of_In, elem_of_map_to_list.
    cbn. unfold of_project. rewrite String.eqb_eq. reflexivity.
  - rewrite Hsent, (Hok eq_refl), firstn_all. cbn. f_equal.
    unfold applications_where. rewrite filter_map_snd, List.map_map. reflexivity.
Qed.

(** X14.  The deletion is not undone when a notification fails, and nothing
    is sent when the deletion itself fails.  For an authorised request: if
    the database refuses the deletion, the error is forwarded, the tables
    are unchanged and no notice is sent; if it carries the deletion out, the
    database stays the one the deletion left even when the handler ends in
    an error, and the notices sent are a prefix of the applicants' notices. *)
Theorem delete_failures
  (req : Request) (s : @State (W * list Notice)) (project : ProjectRow) :
  project_table (db s) !! params_projectId req = Some project ->
  creatorId project = user_id (req_user req) \/ role (req_user req) = "ADMIN" ->
  (forall e w1,
      pdelete (params_projectId req) (db s) (fst (world s)) = (Throw e, w1) ->
      exists s1,
        deleteProject send pdelete req s = (Next e, s1)
        /\ db s1 = db s /\ snd (world s1) = snd (world s))
  /\ (forall db' w1,
      pdelete (params_projectId req) (db s) (fst (world s)) = (Ok db', w1) ->
      exists (k : nat),
        db (snd (deleteProject send pdelete req s)) = db'
        /\ snd (world (snd (deleteProject send pdelete req s)))
           = snd (world s)
             ++ map (deletionNotice project (params_projectId req))
                  (firstn k (applications_where (of_project (params_projectId req)) (db s)))).
Proof.
  intros Hproject Hown.
  assert (Hguard : negb (String.eqb (creatorId project) (user_id (req_user req)))
                   && negb (String.eqb (role (req_user req)) "ADMIN") = false).
  { destruct Hown as [-> | ->].
    - rewrite String.eqb_refl. reflexivity.
    - rewrite andb_comm. reflexivity. }
  destruct s as [d [w sent] tr]. cbn in *.
  split.
  - intros e w1 Hdelete. run_delete. cbn.
    rewrite Hproject; cbn. rewrite Hguard; cbn. rewrite Hdelete; cbn.
    eexists. split; [reflexivity|]. cbn. auto.
  - intros db' w1 Hdelete. run_delete. cbn.
    rewrite Hproject; cbn. rewrite Hguard; cbn. rewrite Hdelete; cbn.
    match goal with
    | |- context [for_of ?l ?g ?s0] =>
        destruct (for_of_sendNotice (deletionNotice project (params_projectId req)) l s0)
          as (k & r & s1 & Hrun & Hdb & _ & Hsent & _)
    end.
    rewrite Hrun. exists k.
    destruct r as [[]|e]; cbn; split; assumption.
Qed.

End DeleteProject.

(** ** getProjectStats *)

Lemma status_counts_le_total (pid : string) (db : DB) :
  (application_count (of_project_with_status pid "PENDING") db
   + application_count (of_project_with_status pid "ACCEPTED") db
   + application_count (of_project_with_status pid "REJECTED") db
   <= application_count (of_project pid) db)%nat.
Proof.
  unfold application_count, applications_where.
  induction (map snd (map_to_list (application_table db))) as [|a l IH];
    cbn [List.filter length]; [lia|].
  destruct (of_project_with_status pid "PENDING" a) eqn:E1,
           (of_project_with_status pid "ACCEPTED" a) eqn:E2,
           (of_project_with_status pid "REJECTED" a) eqn:E3,
           (of_project pid a) eqn:E;
    cbn [length]; try lia; exfalso;
    unfold of_project_with_status, of_project in *;
    repeat match goal with
           | H : (_ && _) = true |- _ => apply andb_true_iff in H; destruct H
           end;
    repeat match goal with
           | H : String.eqb _ _ = true |- _ => apply String.eqb_eq in H
           end;
    try match goal with
        | H : ?x = ?y, H' : String.eqb ?x ?y = false |- _ =>
            rewrite H, String.eqb_refl in H'
        end;
    congruence.
Qed.

Lemma fillRate_nonneg (accepted : nat) (needed : Z) : (0 <= fillRate accepted needed)%Q.
Proof.
  unfold fillRate. destruct (Z.ltb_spec 0 needed) as [Hpos | Hnonpos]; [|apply Qle_refl].
  apply Qmult_le_0_compat; [|discriminate].
  apply Qle_shift_div_l.
  - unfold Qlt, inject_Z. cbn. lia.
  - rewrite Qmult_0_l. unfold Qle, inject_Z. cbn. lia.
Qed.

Section GetProjectStats.

Context {W : Type}.
Variable event_count : string -> W -> nat.
Variable impactMetric_findMany : string -> W -> list string.

(** X15.  [getProjectStats] is read-only, and the figures of every answer
    are consistent: pending + accepted + rejected applications do not exceed
    the total, the fill rate is not negative and is 0 when the project needs
    no volunteers, and - on a database whose applied-counters are
    consistent - the reported [volunteersApplied] equals the total. *)
Theorem stats_are_consistent (req : Request) (s : @State (W * list Notice)) :
  snd (getProjectStats event_count impactMetric_findMany req s) = s
  /\ (forall code body,
        fst (getProjectStats event_count impactMetric_findMany req s) = Json code body ->
        (stats_pending body + stats_accepted body + stats_rejected body
         <= stats_total body)%nat
        /\ (0 <= stats_fillRate body)%Q
        /\ (stats_volunteersNeeded body <= 0 -> stats_fillRate body = 0%Q)
        /\ (counter_consistent (db s) ->
            stats_volunteersApplied body = Z.of_nat (stats_total body))).
Proof.
  unfold getProjectStats, handler, bind, project_findUnique, throw, ret. cbv zeta.
  destruct (project_table (db s) !! params_projectId req) as [project|] eqn:Hproject; cbn;
    [|split; [reflexivity | discriminate]].
  destruct (negb _ && negb _); cbn; [split; [reflexivity | discriminate]|].
  split; [reflexivity|].
  intros code body H. injection H as <- <-. cbn.
  split; [apply status_counts_le_total|].
  split; [apply fillRate_nonneg|].
  split.
  - intros Hneeded. unfold fillRate.
    destruct (Z.ltb_spec 0 (volunteersNeeded project)); [lia | reflexivity].
  - intros Hinv. exact (Hinv _ _ Hproject).
Qed.

End GetProjectStats.

(** ** createProject *)

Section CreateProject.

Context {W : Type}.
Variable recV : DB -> string -> Z -> W -> Result (list Recommendation) * W.
Variable send : Notification -> W -> Result unit * W.
Variable upload : list string -> string -> W -> Result (list string) * W.
Variable create : Request -> DB -> W -> Result ProjectRow * W.



(** X17.  A project is not removed again when the upload of its images
    fails: the handler forwards the upload error to [next], the row created
    from the request stays in the project table, and the notification step
    is never started (no recommender call, no notification). *)
Theorem createProject_upload_failure_keeps_row
  (req : Request) (s : State) (row : ProjectRow) (w1 w2 : W)
  (f : string) (files : list string) (e : Error) :
  create req (db s) (world s) = (Ok row, w1) ->
  req_files req = Some (f :: files) ->
  upload (f :: files) "projects" w1 = (Throw e, w2) ->
  exists s',
    createProject recV send upload create req s = (Next e, s')
    /\ project_table (db s') !! id row = Some row
    /\ trace s' = trace s.
Proof.
  intros Hcreate Hfiles Hupload.
  unfold createProject, handler, bind, project_create, attachImages.
  rewrite Hcreate, Hfiles. unfold bind, uploadImages. cbn. rewrite Hupload.
  eexists. split; [reflexivity|]. cbn.
  split; [apply lookup_insert_eq | reflexivity].
Qed.

End CreateProject.

(** ** aiController.js: impact prediction *)

Lemma accumulatedImpactScore_mod5 (project : ProjectWithRelations) :
  accumulatedImpactScore project mod 5 = 0.
Proof.
  unfold accumulatedImpactScore.
  destruct (10 <? _), (estimatedHours _) as [hours|], (3 <? _)%nat,
    (Js.gt (applicationRate project) (8 # 10)),
    (Js.gt (applicationRate project) (5 # 10)),
    (Js.includes _ _);
    try destruct (40 <? hours); reflexivity.
Qed.

(** X18.  The clamp of [calculateImpactPrediction] never acts: the score
    starts at 50 and only grows by bonuses that sum to at most 50, so the
    returned [impactScore] is the accumulated score itself, a multiple of 5
    between 50 and 100.  Hence the label is "HIGH" exactly from 80 on,
    "LOW" exactly at 50 (no bonus applies) and "MEDIUM" from 55 to 75. *)
Theorem impact_score_never_clamped (project : ProjectWithRelations) :
  impactScore (calculateImpactPrediction project) = accumulatedImpactScore project
  /\ 50 <= impactScore (calculateImpactPrediction project) <= 100
  /\ impactScore (calculateImpactPrediction project) mod 5 = 0
  /\ (prediction (calculateImpactPrediction project) = "HIGH"
      <-> 80 <= impactScore (calculateImpactPrediction project))
  /\ (prediction (calculateImpactPrediction project) = "MEDIUM"
      <-> 55 <= impactScore (calculateImpactPrediction project) <= 75)
  /\ (prediction (calculateImpactPrediction project) = "LOW"
      <-> impactScore (calculateImpactPrediction project) = 50).
Proof.
  pose proof (accumulatedImpactScore_range project) as Hrange.
  pose proof (accumulatedImpactScore_mod5 project) as Hmod.
  unfold calculateImpactPrediction, Js.Math_min, Js.Math_max. cbn.
  set (sc := accumulatedImpactScore project) in *.
  assert (Hclamp : Z.min 100 (Z.max 0 sc) = sc) by lia.
  rewrite Hclamp.
  assert (Hfive : exists k, sc = 5 * k).
  { exists (sc / 5). apply Z.div_exact in Hmod; lia. }
  destruct Hfive as [k Hk].
  split; [reflexivity|]. split; [lia|]. split; [exact Hmod|].
  destruct (Z.ltb_spec 75 sc), (Z.ltb_spec 50 sc);
    repeat split; intros; try lia; try discriminate; reflexivity.
Qed.

(** X19.  In a prediction the branch [score < 50] of
    [generateImpactRecommendations] is dead: the two recommendations about
    the project description never appear.  The list holds at most three
    entries, and it is empty exactly when somebody has applied and the
    project names at least one required skill. *)
Theorem impact_recommendations_in_prediction (project : ProjectWithRelations) :
  let recs := impact_recommendations (calculateImpactPrediction project) in
  ~ In "Consider adding more detailed project description" recs
  /\ ~ In "Clarify the expected outcomes and impact" recs
  /\ (length recs <= 3)%nat
  /\ (recs = []
      <-> volunteersApplied (project_row project) <> 0 /\ requiredSkills project <> []).
Proof.
  pose proof (accumulatedImpactScore_range project) as Hrange.
  unfold calculateImpactPrediction, generateImpactRecommendations, Js.push. cbn.
  destruct (Z.ltb_spec (accumulatedImpactScore project) 50) as [Hlt | _]; [lia|].
  destruct (Z.eqb_spec (volunteersApplied (project_row project)) 0) as [Happlied | Happlied];
    destruct (requiredSkills project) as [|sk sks]; cbn;
    repeat split; try (intros H; try discriminate H; intuition congruence); try lia;
    intuition discriminate.
Qed.

(** The popularity thresholds of the impact score in whole numbers:
    the application rate exceeds 0.8 exactly when the project needs a
    positive number of volunteers and five times the applications exceed
    four times that number, it exceeds 0.5 exactly when twice the
    applications exceed it, and it is 0 when no volunteers are needed (no
    division by zero). *)
Theorem applicationRate_thresholds (project : ProjectWithRelations) :
  let needed := volunteersNeeded (project_row project) in
  let applied := Z.of_nat (length (applications project)) in
  (Js.gt (applicationRate project) (8 # 10) = true
   <-> 0 < needed /\ 4 * needed < 5 * applied)
  /\ (Js.gt (applicationRate project) (5 # 10) = true
      <-> 0 < needed /\ needed < 2 * applied)
  /\ (needed <= 0 -> applicationRate project = 0%Q).
Proof.
  cbv zeta. unfold applicationRate.
  set (needed := volunteersNeeded (project_row project)).
  set (applied := Z.of_nat (length (applications project))).
  rewrite !gt_true_iff.
  destruct (Z.ltb_spec 0 needed) as [Hpos | Hnonpos].
  - destruct needed as [|n|n]; try lia.
    unfold Qlt, Qdiv, Qinv, Qmult, inject_Z. cbn.
    split; [split; [intros Hrate; split; lia | intros [_ Hrate]; lia]|].
    split; [split; [intros Hrate; split; lia | intros [_ Hrate]; lia]|].
    intros Hneeded. lia.
  - split; [split; [intros Hrate; unfold Qlt in Hrate; cbn in Hrate; lia
                   | intros [Hneeded _]; lia]|].
    split; [split; [intros Hrate; unfold Qlt in Hrate; cbn in Hrate; lia
                   | intros [Hneeded _]; lia]|].
    intros _. reflexivity.
Qed.

(** ** aiController.js: the matching handlers *)

Lemma or_default_truthy (n d : Js.Number) :
  Js.ToBoolean d = true -> Js.ToBoolean (Js.or_default n d) = true.
Proof.
  intros Hd. unfold Js.or_default.
  destruct (Js.ToBoolean n) eqn:Hn; [exact Hn | exact Hd].
Qed.

(** X20.  The handlers never ask the matching service for zero results (nor
    for [NaN] results): the answers of [getMatches] and
    [recommendVolunteers] depend on the service only through its behaviour
    at limits that are neither zero nor [NaN]. *)
Theorem service_never_asked_for_zero
  (findM findM' : DB -> string -> Js.Number -> Result (list Match))
  (recV recV' : DB -> string -> Js.Number -> Result (list Recommendation))
  (gen : Match -> string) (now : string) (db : DB) (req : Request) :
  (forall d i limit, Js.ToBoolean limit = true -> findM d i limit = findM' d i limit) ->
  (forall d i limit, Js.ToBoolean limit = true -> recV d i limit = recV' d i limit) ->
  getMatches findM gen now db req = getMatches findM' gen now db req
  /\ AIController.recommendVolunteers recV now db req
     = AIController.recommendVolunteers recV' now db req.
Proof.
  intros HM HV.
  pose proof (or_default_truthy (Js.parseInt (query_limit req)) (Js.Finite 10) eq_refl)
    as Hnz.
  unfold getMatches, AIController.recommendVolunteers.
  rewrite (HM _ _ _ Hnz), (HV _ _ _ Hnz). split; reflexivity.
Qed.

(** X21.  Results are only sent to callers entitled to them: [getMatches]
    answers only a VOLUNTEER who has a profile, with the matches of that
    very volunteer; [recommendVolunteers] answers only a caller with an
    organisation role who created the project or is an ADMIN.  Every answer
    has status 200. *)
Theorem results_only_for_entitled_callers
  (findM : DB -> string -> Js.Number -> Result (list Match))
  (recV : DB -> string -> Js.Number -> Result (list Recommendation))
  (gen : Match -> string) (now : string) (db : DB) (req : Request) :
  (forall code body,
      getMatches findM gen now db req = Json code body ->
      code = 200
      /\ role (req_user req) = "VOLUNTEER"
      /\ is_Some (volunteerProfile_table db !! user_id (req_user req))
      /\ matches_volunteerId body = user_id (req_user req))
  /\ (forall code body,
      AIController.recommendVolunteers recV now db req = Json code body ->
      code = 200
      /\ Js.includes ["NGO"; "GOVERNMENT"; "ADMIN"] (role (req_user req)) = true
      /\ exists project,
          project_table db !! params_projectId req = Some project
          /\ (creatorId project = user_id (req_user req) \/ role (req_user req) = "ADMIN")
          /\ meta_projectId body = params_projectId req
          /\ meta_projectTitle body = title project).
Proof.
  split; intros code body.
  - unfold getMatches.
    destruct (String.eqb_spec (role (req_user req)) "VOLUNTEER") as [Hrole | Hrole]; cbn;
      [|discriminate].
    destruct (volunteerProfile_table db !! user_id (req_user req)) as [profile|] eqn:Hp;
      [|discriminate].
    destruct (findM _ _ _) as [found|e]; [|discriminate].
    intros H. injection H as <- <-. cbn. eauto.
  - unfold AIController.recommendVolunteers.
    destruct (Js.includes _ _) eqn:Hrole; cbn; [|discriminate].
    destruct (project_table db !! params_projectId req) as [project|] eqn:Hproject;
      [|discriminate].
    destruct (String.eqb_spec (creatorId project) (user_id (req_user req))) as [Hown | Hown];
      cbn.
    + destruct (recV _ _ _) as [found|e]; [|discriminate].
      intros H. injection H as <- <-. cbn.
      split; [reflexivity|]. split; [reflexivity|]. exists project. auto.
    + destruct (String.eqb_spec (role (req_user req)) "ADMIN") as [Hadmin | Hadmin]; cbn;
        [|discriminate].
      destruct (recV _ _ _) as [found|e]; [|discriminate].
      intros H. injection H as <- <-. cbn.
      split; [reflexivity|]. split; [reflexivity|]. exists project. auto.
Qed.

(** The handlers pass the service's result through entry by entry:
    the response lists the same projects (volunteers) in the same order,
    its total is the number of its entries, and each reason is the
    explainer's text for the entry it belongs to. *)
Theorem response_follows_service_order
  (findM : DB -> string -> Js.Number -> Result (list Match))
  (recV : DB -> string -> Js.Number -> Result (list Recommendation))
  (gen : Match -> string) (now : string) (db : DB) (req : Request) :
  (forall code body,
      getMatches findM gen now db req = Json code body ->
      exists found,
        findM db (user_id (req_user req)) (Js.or_default (Js.parseInt (query_limit req)) (Js.Finite 10))
        = Ok found
        /\ map pm_project (matches body) = map match_project found
        /\ map pm_recommendationReason (matches body) = map gen found
        /\ totalMatches body = length (matches body))
  /\ (forall code body,
      AIController.recommendVolunteers recV now db req = Json code body ->
      exists found,
        recV db (params_projectId req) (Js.or_default (Js.parseInt (query_limit req)) (Js.Finite 10))
        = Ok found
        /\ map pr_volunteer (recommendations body) = map rec_volunteer found
        /\ map pr_recommendationReason (recommendations body)
           = map generateVolunteerRecommendationReason found
        /\ totalRecommendations body = length (recommendations body)).
Proof.
  split; intros code body.
  - unfold getMatches.
    destruct (negb _); [discriminate|].
    destruct (volunteerProfile_table db !! _); [|discriminate].
    destruct (findM _ _ _) as [found|e]; [|discriminate].
    intros H. injection H as _ <-. exists found. cbn.
    rewrite !List.map_map, List.length_map. cbn. auto.
  - unfold AIController.recommendVolunteers.
    destruct (negb (Js.includes _ _)); [discriminate|].
    destruct (project_table db !! _) as [project|]; [|discriminate].
    destruct (_ && _); [discriminate|].
    destruct (recV _ _ _) as [found|e]; [|discriminate].
    intros H. injection H as _ <-. exists found. cbn.
    rewrite !List.map_map, List.length_map. cbn. auto.
Qed.

(** ** Rounding of the scores *)

(** X22.  Rounding the scores for display never reorders them and never
    leaves the score range: [Math.round(x * 100) / 100], computed in
    binary64 arithmetic, is monotone, maps [[0, 100]] into itself, and
    returns a number that already has two decimals (the number for [j / 100],
    for an integer [j] up to [2 ^ 50] in magnitude) unchanged. *)
Theorem round_hundredths_order_and_range (x y : Q) (j : Z) :
  ((x <= y)%Q -> Js.le (round_hundredths x) (round_hundredths y))
  /\ ((0 <= x <= 100)%Q ->
      exists v, round_hundredths x = Js.Finite v /\ (0 <= v <= 100)%Q)
  /\ (- 2 ^ 50 <= j <= 2 ^ 50 ->
      exists v, Js.binary64 (inject_Z j / 100) = Js.Finite v
                /\ round_hundredths v = Js.Finite v).
Proof.
  split; [apply round_hundredths_mono|].
  split; [apply round_hundredths_range | apply round_hundredths_two_decimals_fixed].
Qed.

(** ** aiController.js: updatePreferences *)

Import AIPreferences.

Lemma filter_all_true {A : Type} (f : A -> bool) (l : list A) :
  (forall a, In a l -> f a = true) -> List.filter f l = l.
Proof.
  induction l as [|a l IH]; cbn; intros H; [reflexivity|].
  rewrite (H a (or_introl eq_refl)). f_equal. apply IH. intros b Hb. apply H. right. exact Hb.
Qed.

Lemma filter_all_false {A : Type} (f : A -> bool) (l : list A) :
  (forall a, In a l -> f a = false) -> List.filter f l = [].
Proof.
  induction l as [|a l IH]; cbn; intros H; [reflexivity|].
  rewrite (H a (or_introl eq_refl)). apply IH. intros b Hb. apply H. right. exact Hb.
Qed.

Lemma filter_idempotent {A : Type} (f : A -> bool) (l : list A) :
  List.filter f (List.filter f l) = List.filter f l.
Proof.
  apply filter_all_true. intros a Ha. apply List.filter_In in Ha. tauto.
Qed.

Lemma filter_complement {A : Type} (f : A -> bool) (l : list A) :
  List.filter f (List.filter (fun a => negb (f a)) l) = [].
Proof.
  apply filter_all_false. intros a Ha. apply List.filter_In in Ha.
  destruct Ha as [_ Ha]. destruct (f a); [discriminate | reflexivity].
Qed.

Lemma weight_or_default_nonzero (w : option Q) : ~ (weight_or_default w == 0)%Q.
Proof.
  unfold weight_or_default. destruct w as [q|]; [|discriminate].
  destruct (Qeq_bool q 0) eqn:E; [discriminate|].
  intros H. apply Qeq_bool_iff in H. congruence.
Qed.

Section UpdatePreferences.

Variable profile_id : VolunteerProfile -> string.

(** X23.  [updatePreferences] replaces the preferences of the calling
    volunteer: afterwards that profile's rows are exactly the submitted
    preferences, in order, with every absent or zero weight stored as 1;
    the rows of other profiles and the tables of the database are
    untouched; the answer counts the submitted preferences; and submitting
    the same preferences again changes nothing. *)
Theorem preferences_replaced
  (req : Request) (prefs : list PreferenceInput)
  (s : @State (list VolunteerPreference)) (profile : VolunteerProfile) :
  role (req_user req) = "VOLUNTEER" ->
  volunteerProfile_table (db s) !! user_id (req_user req) = Some profile ->
  exists s',
    updatePreferences profile_id req (Some prefs) s
    = (Json 200 {| pb_message := "Preferences updated successfully";
                   preferencesUpdated := length prefs |}, s')
    /\ List.filter (belongs_to (profile_id profile)) (world s')
       = map (preference_row (profile_id profile)) prefs
    /\ List.filter (fun p => negb (belongs_to (profile_id profile) p)) (world s')
       = List.filter (fun p => negb (belongs_to (profile_id profile) p)) (world s)
    /\ Forall (fun p => ~ (pref_weight p == 0)%Q)
         (List.filter (belongs_to (profile_id profile)) (world s'))
    /\ db s' = db s
    /\ snd (updatePreferences profile_id req (Some prefs) s') = s'.
Proof.
  intros Hrole Hprofile.
  set (pid := profile_id profile).
  assert (Hrows : forall p, In p (map (preference_row pid) prefs) -> belongs_to pid p = true).
  { intros p Hp. apply List.in_map_iff in Hp. destruct Hp as (i & <- & _).
    unfold belongs_to, preference_row. cbn. apply String.eqb_refl. }
  assert (Hrows' : forall p, In p (map (preference_row pid) prefs) ->
                             negb (belongs_to pid p) = false).
  { intros p Hp. rewrite (Hrows p Hp). reflexivity. }
  unfold updatePreferences, handler, bind, volunteerProfile_findUnique,
    preference_deleteMany, preference_createMany, throw, ret.
  rewrite Hrole; cbn. rewrite Hprofile; cbn. fold pid.
  eexists. split; [rewrite List.length_map; reflexivity|]. cbn.
  split.
  { rewrite List.filter_app, filter_complement, (filter_all_true _ _ Hrows). reflexivity. }
  split.
  { rewrite List.filter_app, filter_idempotent, (filter_all_false _ _ Hrows').
    apply app_nil_r. }
  split.
  { rewrite List.filter_app, filter_complement, (filter_all_true _ _ Hrows). cbn.
    apply List.Forall_map, List.Forall_forall. intros i _. cbn.
    apply weight_or_default_nonzero. }
  split; [reflexivity|].
  rewrite Hprofile. cbn. fold pid.
  rewrite List.filter_app, filter_idempotent, (filter_all_false _ _ Hrows'), app_nil_r.
  reflexivity.
Qed.

(** X24.  A request without a [preferences] array loses the stored
    preferences: the rows of the caller's profile are deleted before the
    array is read, so the handler forwards a [TypeError] and the profile is
    left with no preference at all (the rows of other profiles are kept). *)
Theorem preferences_lost_without_array
  (req : Request) (s : @State (list VolunteerPreference)) (profile : VolunteerProfile) :
  role (req_user req) = "VOLUNTEER" ->
  volunteerProfile_table (db s) !! user_id (req_user req) = Some profile ->
  exists detail s',
    updatePreferences profile_id req None s = (Next (OtherError detail), s')
    /\ List.filter (belongs_to (profile_id profile)) (world s') = []
    /\ List.filter (fun p => negb (belongs_to (profile_id profile) p)) (world s')
       = List.filter (fun p => negb (belongs_to (profile_id profile) p)) (world s).
Proof.
  intros Hrole Hprofile.
  unfold updatePreferences, handler, bind, volunteerProfile_findUnique,
    preference_deleteMany, throw.
  rewrite Hrole; cbn. rewrite Hprofile; cbn.
  do 2 eexists. split; [reflexivity|]. cbn.
  split; [apply filter_complement | apply filter_idempotent].
Qed.

End UpdatePreferences.

(** ** The chat handler *)

Import ChatController.

Section HandleChat.

Context {W : Type}.
Variable axios_post : string -> W -> Result (option string) * W.

(** X25.  [handleChat] always answers, and what it answers is decided as
    follows.  An absent or empty message is answered with 400 and the
    inference API is not called.  Otherwise the API is called once with the
    message: a generated text that is not empty is sent back as the reply
    with status 200; a missing or empty one is replaced by the apology,
    with status 200; and a rejection of the call is answered with 500 and a
    fixed text, the error itself going only to the console. *)
Theorem handleChat_answers (message : option string) (s : State) :
  (truthy message = false ->
   handleChat axios_post message s = (Ok (400, ChatError "Message is required."), s))
  /\ (forall text, message = Some text -> text <> "" ->
      (forall generated w,
          axios_post text (world s) = (Ok (Some generated), w) -> generated <> "" ->
          handleChat axios_post message s
          = (Ok (200, Reply generated), {| db := db s; world := w; trace := trace s |}))
      /\ (forall generated w,
            axios_post text (world s) = (Ok generated, w) -> truthy generated = false ->
            handleChat axios_post message s
            = (Ok (200, Reply "Sorry, I couldn't generate a reply."),
               {| db := db s; world := w; trace := trace s |}))
      /\ (forall e w,
            axios_post text (world s) = (Throw e, w) ->
            handleChat axios_post message s
            = (Ok (500, ChatError "Something went wrong."),
               {| db := db s; world := w;
                  trace := trace s ++ [ConsoleError "Chat error:" e] |}))).
Proof.
  unfold handleChat, try_catch, bind, post_inference, console_error, ret, log_event.
  split.
  - destruct message as [[|c rest]|]; cbn; try discriminate; intros _; destruct s; reflexivity.
  - intros text -> Htext. destruct text as [|c rest]; [contradiction Htext; reflexivity|].
    split; [|split].
    + intros generated w -> Hgenerated. cbn.
      destruct generated as [|c' rest']; [contradiction Hgenerated; reflexivity|].
      reflexivity.
    + intros generated w -> Hfalsy. cbn.
      destruct generated as [[|c' rest']|]; [reflexivity | discriminate Hfalsy | reflexivity].
    + intros e w ->. cbn. reflexivity.
Qed.

End HandleChat.

(** ** authControllers.js *)

Import AuthController.

Lemma users_where_elem (P : UserRow -> bool) (tbl : gmap string UserRow) (u : UserRow) :
  In u (users_where P tbl) <-> (exists i, tbl !! i = Some u) /\ P u = true.
Proof.
  unfold users_where. rewrite List.filter_In, List.in_map_iff.
  split.
  - intros [[[i u'] [Hu Hin]] HP]. cbn in Hu. subst u'.
    split; [|exact HP]. exists i.
    apply elem_of_map_to_list. apply list_elem_of_In. exact Hin.
  - intros [[i Hi] HP]. split; [|exact HP].
    exists (i, u). split; [reflexivity|].
    apply list_elem_of_In, elem_of_map_to_list. exact Hi.
Qed.

Lemma head_users_where_Some (P : UserRow -> bool) (tbl : gmap string UserRow) (u : UserRow) :
  head (users_where P tbl) = Some u -> (exists i, tbl !! i = Some u) /\ P u = true.
Proof.
  intros Hhead. apply users_where_elem.
  destruct (users_where P tbl) as [|u' l]; [discriminate|].
  injection Hhead as ->. left. reflexivity.
Qed.

Lemma head_users_where_None (P : UserRow -> bool) (tbl : gmap string UserRow) :
  head (users_where P tbl) = None <-> forall i u, tbl !! i = Some u -> P u = false.
Proof.
  split.
  - intros Hhead i u Hi.
    destruct (P u) eqn:HP; [|reflexivity].
    assert (Hin : In u (users_where P tbl)).
    { apply users_where_elem. split; [exists i; exact Hi | exact HP]. }
    destruct (users_where P tbl); [contradiction | discriminate].
  - intros Hnone.
    destruct (users_where P tbl) as [|u l] eqn:E; [reflexivity|].
    assert (Hin : In u (users_where P tbl)) by (rewrite E; left; reflexivity).
    apply users_where_elem in Hin. destruct Hin as [[i Hi] HP].
    rewrite (Hnone i u Hi) in HP. discriminate.
Qed.

Section AuthProperties.

Context {W : Type}.
Variable bcrypt_hash : string -> W -> string * W.
Variable bcrypt_compare : string -> string -> bool.
Variable randomBytes_hex : W -> string * W.
Variable jwt_sign : string -> string -> string -> string -> W -> string.
Variable env_JWT_SECRET : option string.
Variable env_CLIENT_URL : option string.
Variable user_create_oracle :
  AuthRequest -> gmap string UserRow -> W -> Result CreatedUser * W.
Variable findFirst_unfiltered : gmap string UserRow -> option UserRow.
Variable delete_refused : UserRow -> option Error.

(** X26.  [login] never changes the state; it answers (with status 200 and
    the view of the user) only when a user with the given e-mail exists
    and [bcrypt.compare] accepts the given password against the stored
    hash; and for well-formed credentials an unknown e-mail and a wrong
    password are refused by the same 401 error. *)
Theorem login_checks_password (req : AuthRequest) (s : @State (AuthWorld W)) :
  snd (login bcrypt_compare jwt_sign env_JWT_SECRET req s) = s
  /\ (forall code body,
        fst (login bcrypt_compare jwt_sign env_JWT_SECRET req s) = Json code body ->
        code = 200
        /\ exists user email password,
            body_email req = Some email
            /\ body_password req = Some password
            /\ (exists i, users (world s) !! i = Some user)
            /\ u_email user = email
            /\ bcrypt_compare password (u_password user) = true
            /\ auth_user body = Some (user_view user))
  /\ (forall email password e,
        body_email req = Some email ->
        body_password req = Some password ->
        fst (login bcrypt_compare jwt_sign env_JWT_SECRET req s) = Next e ->
        e = AppError "Invalid credentials" 401).
Proof.
  unfold login, handler, bind, user_findUnique_by_email, bcryptCompare, generateToken,
    throw, ret.
  destruct (body_email req) as [email|]; cbn.
  - destruct (head (users_where (has_email email) (users (world s)))) as [user|] eqn:Hhead;
      cbn.
    + apply head_users_where_Some in Hhead. destruct Hhead as [Hin Hemail].
      unfold has_email in Hemail. apply String.eqb_eq in Hemail.
      destruct (body_password req) as [password|]; cbn.
      * destruct (bcrypt_compare password (u_password user)) eqn:Hcmp; cbn.
        -- split; [reflexivity|]. split.
           ++ intros code body H. injection H as <- <-.
              split; [reflexivity|]. exists user, email, password. cbn.
              repeat split; auto.
           ++ intros email' password' e _ _ H. discriminate H.
        -- split; [reflexivity|]. split; [intros code body H; discriminate H|].
           intros email' password' e _ _ H. injection H as <-. reflexivity.
      * split; [reflexivity|]. split; [intros code body H; discriminate H|].
        intros email' password' e _ H. discriminate H.
    + split; [reflexivity|]. split; [intros code body H; discriminate H|].
      intros email' password' e _ _ H. injection H as <-. reflexivity.
  - split; [reflexivity|]. split; [intros code body H; discriminate H|].
    intros email' password' e H. discriminate H.
Qed.

(** The user table after any run of [register]: untouched, or extended by
    one row with a fresh id and an e-mail no user had. *)
Lemma register_users_cases (req : AuthRequest) (s : @State (AuthWorld W)) :
  let s' := snd (register bcrypt_hash randomBytes_hex jwt_sign env_JWT_SECRET
                   env_CLIENT_URL user_create_oracle req s) in
  users (world s') = users (world s)
  \/ exists row,
      users (world s) !! u_id row = None
      /\ (forall i u, users (world s) !! i = Some u -> u_email u <> u_email row)
      /\ body_email req = Some (u_email row)
      /\ users (world s') = <[u_id row := row]> (users (world s)).
Proof.
  cbv zeta. run_register.
  destruct (negb (present (body_email req)) || negb (present (body_password req))
            || negb (present (body_firstname req)) || negb (present (body_lastname req)))
    eqn:Hmissing; cbn; [left; reflexivity|].
  destruct (body_email req) as [email|] eqn:Hemail; cbn; [|left; reflexivity].
  destruct (head (users_where (has_email email) (users (world s)))) as [dup|] eqn:Hdup;
    cbn; [left; reflexivity|].
  destruct (bcrypt_hash _ (ext (world s))) as [hashed w1]; cbn.
  destruct (randomBytes_hex w1) as [token w2]; cbn.
  destruct (user_create_oracle req (users (world s)) w2) as [[created|e] w3]; cbn;
    [|left; reflexivity].
  destruct (users (world s) !! new_id created) eqn:Hfresh; cbn; [left; reflexivity|].
  rewrite Hdup; cbn.
  right.
  match goal with
  | |- context [<[_ := ?r]> (users (world s))] => exists r
  end.
  cbn.
  split; [exact Hfresh|].
  split; [|split; reflexivity].
  intros i u Hi Heq. cbn in Heq.
  pose proof (proj1 (head_users_where_None _ _) Hdup i u Hi) as Hno.
  unfold has_email in Hno. rewrite Heq, String.eqb_refl in Hno. discriminate.
Qed.

(** X27.  [register] refuses a request that lacks the e-mail, the password,
    the first name or the last name (absent or empty) with status 400 and
    without touching the state, and it never makes two users share an
    e-mail address: if the e-mails of the user table are unique before the
    call they are unique after it, however the call ends. *)
Theorem register_validates_and_keeps_emails_unique
  (req : AuthRequest) (s : @State (AuthWorld W)) :
  (present (body_email req) = false \/ present (body_password req) = false
   \/ present (body_firstname req) = false \/ present (body_lastname req) = false ->
   register bcrypt_hash randomBytes_hex jwt_sign env_JWT_SECRET env_CLIENT_URL
     user_create_oracle req s
   = (Next (AppError "Email, password, firstname, and lastname are required" 400), s))
  /\ (unique_emails (users (world s)) ->
      unique_emails
        (users (world (snd (register bcrypt_hash randomBytes_hex jwt_sign env_JWT_SECRET
                              env_CLIENT_URL user_create_oracle req s))))).
Proof.
  split.
  - intros Hmissing. run_register.
    assert (E : negb (present (body_email req)) || negb (present (body_password req))
                || negb (present (body_firstname req)) || negb (present (body_lastname req))
                = true).
    { destruct Hmissing as [-> | [-> | [-> | ->]]]; cbn;
        rewrite ?orb_true_r; reflexivity. }
    rewrite E. reflexivity.
  - intros Huniq.
    destruct (register_users_cases req s) as [-> | (row & Hfresh & Hnew & _ & ->)];
      [exact Huniq|].
    intros i j a b Hi Hj Hab.
    destruct (decide (u_id row = i)) as [Hei | Hni];
      destruct (decide (u_id row = j)) as [Hej | Hnj].
    + congruence.
    + subst i. rewrite lookup_insert_eq in Hi. rewrite lookup_insert_ne in Hj by exact Hnj.
      injection Hi as <-. exfalso. apply (Hnew j b Hj). congruence.
    + subst j. rewrite lookup_insert_eq in Hj. rewrite lookup_insert_ne in Hi by exact Hni.
      injection Hj as <-. exfalso. apply (Hnew i a Hi). congruence.
    + rewrite lookup_insert_ne in Hi by exact Hni.
      rewrite lookup_insert_ne in Hj by exact Hnj.
      exact (Huniq i j a b Hi Hj Hab).
Qed.

(** X28.  A successful [register] stores what it mails: the answer is 201,
    the new user is stored under its id with the submitted e-mail and a
    password produced by [bcrypt.hash], and exactly one e-mail is sent, to
    that address, whose verification link ends in the verification token
    stored with the user.  When [register] fails no e-mail is sent. *)
Theorem register_mails_the_stored_token (req : AuthRequest) (s : @State (AuthWorld W)) :
  let run := register bcrypt_hash randomBytes_hex jwt_sign env_JWT_SECRET env_CLIENT_URL
               user_create_oracle req s in
  (forall code body,
      fst run = Json code body ->
      code = 201
      /\ exists user token mail password w w',
          users (world (snd run)) !! u_id user = Some user
          /\ auth_user body = Some (user_view user)
          /\ body_email req = Some (u_email user)
          /\ body_password req = Some password
          /\ bcrypt_hash password w = (u_password user, w')
          /\ u_verificationToken user = Some token
          /\ outbox (world (snd run)) = outbox (world s) ++ [mail]
          /\ email_to mail = u_email user
          /\ email_verificationUrl mail
             = default "undefined" env_CLIENT_URL +:+ "/verify-email?token=" +:+ token)
  /\ (forall e, fst run = Next e -> outbox (world (snd run)) = outbox (world s)).
Proof.
  cbv zeta. run_register.
  destruct (negb (present (body_email req)) || negb (present (body_password req))
            || negb (present (body_firstname req)) || negb (present (body_lastname req)))
    eqn:Hmissing; cbn; [split; [discriminate | reflexivity]|].
  destruct (body_email req) as [email|] eqn:Hemail; cbn;
    [|split; [discriminate | reflexivity]].
  destruct (body_password req) as [password|] eqn:Hpassword; cbn;
    [|rewrite !orb_true_r in Hmissing; cbn in Hmissing;
      rewrite ?orb_true_r in Hmissing; discriminate].
  destruct (head (users_where (has_email email) (users (world s)))) as [dup|] eqn:Hdup;
    cbn; [split; [discriminate | reflexivity]|].
  destruct (bcrypt_hash password (ext (world s))) as [hashed w1] eqn:Hhash; cbn.
  destruct (randomBytes_hex w1) as [token w2]; cbn.
  destruct (user_create_oracle req (users (world s)) w2) as [[created|e] w3]; cbn;
    [|split; [discriminate | reflexivity]].
  destruct (users (world s) !! new_id created) eqn:Hfresh; cbn;
    [split; [discriminate | reflexivity]|].
  rewrite Hdup; cbn.
  split; [|discriminate].
  intros code body H. injection H as <- <-.
  split; [reflexivity|].
  eexists _, token, _, password, (ext (world s)), w1. cbn.
  split; [apply lookup_insert_eq|].
  repeat split; try reflexivity. exact Hhash.
Qed.

(** X29.  On a table whose rows are stored under their ids, a
    [verifyEmail] that answers has marked one stored user as verified and
    cleared that user's token, leaving all other users as they were.  When
    the request carries a token, that user held the token, and the token
    works once: if no other user held it, a second [verifyEmail] with it is
    refused with status 400.  When the request carries no token the filter
    of the lookup is dropped: the user marked is the one an unfiltered
    [findFirst] returns, whether or not that user ever held a token. *)
Theorem verifyEmail_works_once (req : AuthRequest) (s : @State (AuthWorld W)) :
  well_keyed (users (world s)) ->
  (forall code body s1,
      verifyEmail findFirst_unfiltered req s = (Json code body, s1) ->
      exists row,
        users (world s) !! u_id row = Some row
        /\ users (world s1) = <[u_id row := mark_verified row]> (users (world s))
        /\ (forall t, body_token req = Some t ->
              u_verificationToken row = Some t
              /\ ((forall i u, users (world s) !! i = Some u ->
                               u_verificationToken u = Some t -> i = u_id row) ->
                  verifyEmail findFirst_unfiltered req s1
                  = (Next (AppError "Invalid or expired verification token" 400), s1)))
        /\ (body_token req = None ->
            exists user,
              findFirst_unfiltered (users (world s)) = Some user /\ u_id user = u_id row))
  /\ (body_token req = None ->
      forall user row,
        findFirst_unfiltered (users (world s)) = Some user ->
        users (world s) !! u_id user = Some row ->
        exists s1,
          verifyEmail findFirst_unfiltered req s
          = (Json 200 {| auth_message := Some "Email verified successfully";
                         auth_token := None; auth_user := None |}, s1)
          /\ users (world s1) = <[u_id user := mark_verified row]> (users (world s))).
Proof.
  intros Hkeyed.
  unfold verifyEmail, handler, bind, user_findFirst_by_token, user_update, throw, ret,
    set_users.
  split.
  - intros code body s1.
    destruct (body_token req) as [t|] eqn:Htoken; cbn.
    + destruct (head (users_where (has_token t) (users (world s)))) as [user|] eqn:Hhead;
        cbn; [|discriminate].
      apply head_users_where_Some in Hhead. destruct Hhead as [[i Hi] Hheld].
      pose proof (Hkeyed i user Hi) as Hkey. subst i.
      rewrite Hi; cbn.
      intros H. injection H as _ _ <-. cbn.
      assert (Htok : u_verificationToken user = Some t).
      { unfold has_token in Hheld.
        destruct (u_verificationToken user) as [t'|]; [|discriminate].
        apply String.eqb_eq in Hheld. congruence. }
      exists user. split; [exact Hi|]. split; [reflexivity|].
      split; [|intros H; discriminate H].
      intros t' Ht'. injection Ht' as <-. split; [exact Htok|].
      intros Honly.
      assert (Hnone : head (users_where (has_token t)
                              (<[u_id user := mark_verified user]> (users (world s))))
                      = None).
      { apply head_users_where_None. intros j u Hj.
        destruct (decide (u_id user = j)) as [<- | Hne].
        - rewrite lookup_insert_eq in Hj. injection Hj as <-. reflexivity.
        - rewrite lookup_insert_ne in Hj by exact Hne.
          unfold has_token. destruct (u_verificationToken u) as [t'|] eqn:Hu; [|reflexivity].
          destruct (String.eqb_spec t' t) as [-> | _]; [|reflexivity].
          exfalso. apply Hne. symmetry. exact (Honly j u Hj Hu). }
      rewrite Hnone. reflexivity.
    + destruct (findFirst_unfiltered (users (world s))) as [user|] eqn:Hfirst; cbn;
        [|discriminate].
      destruct (users (world s) !! u_id user) as [row|] eqn:Hrow; cbn; [|discriminate].
      intros H. injection H as _ _ <-. cbn.
      pose proof (Hkeyed _ _ Hrow) as Hkey.
      exists row. rewrite Hkey.
      split; [exact Hrow|]. split; [reflexivity|].
      split; [intros t H; discriminate H|].
      intros _. exists user. auto.
  - intros Htoken user row Hfirst Hrow.
    rewrite Htoken; cbn. rewrite Hfirst; cbn. rewrite Hrow; cbn.
    eexists. split; reflexivity.
Qed.

(** X30.  Changing the password and deleting the account need the current
    password: either handler changes the user table only when the calling
    user exists and [bcrypt.compare] accepts the submitted password against
    the stored hash.  After a [deleteAccount] that answered, the user is
    gone: [getMe] for the same caller is refused with status 404. *)
Theorem account_changes_need_password (req : AuthRequest) (s : @State (AuthWorld W)) :
  (users (world (snd (changePassword bcrypt_hash bcrypt_compare req s))) <> users (world s) ->
   exists user password,
     users (world s) !! user_id (auth_req_user req) = Some user
     /\ body_currentPassword req = Some password
     /\ bcrypt_compare password (u_password user) = true)
  /\ (users (world (snd (deleteAccount bcrypt_compare delete_refused req s)))
      <> users (world s) ->
      exists user password,
        users (world s) !! user_id (auth_req_user req) = Some user
        /\ body_password req = Some password
        /\ bcrypt_compare password (u_password user) = true)
  /\ (forall code body s1,
        deleteAccount bcrypt_compare delete_refused req s = (Json code body, s1) ->
        users (world s1) = delete (user_id (auth_req_user req)) (users (world s))
        /\ getMe req s1 = (Next (AppError "User not found" 404), s1)).
Proof.
  split; [|split].
  - unfold changePassword, handler, bind, user_findUnique_by_id, bcryptCompare,
      bcryptHash, user_update, throw, ret, set_users, set_ext. cbv zeta.
    destruct (users (world s) !! user_id (auth_req_user req)) as [user|] eqn:Huser; cbn;
      [|intros H; contradiction H; reflexivity].
    destruct (body_currentPassword req) as [password|]; cbn;
      [|intros H; contradiction H; reflexivity].
    destruct (bcrypt_compare password (u_password user)) eqn:Hcmp; cbn;
      [|intros H; contradiction H; reflexivity].
    intros _. exists user, password. auto.
  - unfold deleteAccount, handler, bind, user_findUnique_by_id, bcryptCompare,
      user_delete, throw, ret, set_users. cbv zeta.
    destruct (users (world s) !! user_id (auth_req_user req)) as [user|] eqn:Huser; cbn;
      [|intros H; contradiction H; reflexivity].
    destruct (body_password req) as [password|]; cbn;
      [|intros H; contradiction H; reflexivity].
    destruct (bcrypt_compare password (u_password user)) eqn:Hcmp; cbn;
      [|intros H; contradiction H; reflexivity].
    intros _. exists user, password. auto.
  - intros code body s1.
    unfold deleteAccount, getMe, handler, bind, user_findUnique_by_id, bcryptCompare,
      user_delete, throw, ret, set_users. cbv zeta.
    destruct (users (world s) !! user_id (auth_req_user req)) as [user|] eqn:Huser; cbn;
      [|discriminate].
    destruct (body_password req) as [password|]; cbn; [|discriminate].
    destruct (bcrypt_compare password (u_password user)); cbn; [|discriminate].
    rewrite Huser; cbn.
    destruct (delete_refused user); cbn; [discriminate|].
    intros H. injection H as _ _ <-. cbn.
    split; [reflexivity|]. rewrite lookup_delete_eq. reflexivity.
Qed.

End AuthProperties.

(** ** Invariants of the application table across the handlers *)

Lemma withdraw_keeps_unique_applications {W : Type}
  (sendW : Notification -> W -> Result unit * W) (req : Request) (s : State) :
  unique_applications (db s) ->
  unique_applications (db (snd (withdrawApplication sendW req s))).
Proof.
  intros Huniq.
  assert (Hcases : application_table (db (snd (withdrawApplication sendW req s)))
                   = application_table (db s)
                   \/ application_table (db (snd (withdrawApplication sendW req s)))
                      = delete (params_applicationId req) (application_table (db s))).
  { unfold withdrawApplication, handler, bind, application_findUnique, throw,
      application_delete, project_update, sendNotification, ret. cbv zeta.
    destruct (negb (String.eqb (role (req_user req)) "VOLUNTEER")); cbn; [left; reflexivity|].
    destruct (application_table (db s) !! params_applicationId req) as [a|] eqn:Hfound;
      cbn; [|left; reflexivity].
    destruct (negb (String.eqb (volunteerId a) (user_id (req_user req)))); cbn;
      [left; reflexivity|].
    destruct (String.eqb (application_status a) "ACCEPTED"); cbn; [left; reflexivity|].
    rewrite Hfound; cbn.
    destruct (project_table (db s) !! projectId a) as [p|]; cbn; [|right; reflexivity].
    match goal with
    | |- context [sendW ?n ?w] => destruct (sendW n w) as [[[]|e] w']
    end; cbn; right; reflexivity. }
  intros i j a b Hi Hj. destruct Hcases as [E | E]; rewrite E in Hi, Hj.
  - exact (Huniq i j a b Hi Hj).
  - apply lookup_delete_Some in Hi. apply lookup_delete_Some in Hj.
    exact (Huniq i j a b (proj2 Hi) (proj2 Hj)).
Qed.

(** X7.  Every call that answers keeps the applied-counters right: if
    every project row carries the number of applications that reference
    it, the same holds after an [applyForProject], a [withdrawApplication]
    or a [respondToApplication] that sent its response.  (A call that ends
    in an error may have made one of its two writes only: the handlers use
    no transaction.) *)
Theorem applied_counter_is_invariant
  {W W' : Type}
  (sendN : Notice -> W -> Result unit * W)
  (create : string -> string -> Request -> DB -> W -> Result CreatedApplication * W)
  (valid_status : string -> bool) (now : string)
  (sendW : Notification -> W' -> Result unit * W')
  (req : Request) (s : @State (W * list Notice)) (s' : @State W') :
  (counter_consistent (db s) ->
   forall code body s1,
     applyForProject sendN create req s = (Json code body, s1) ->
     counter_consistent (db s1))
  /\ (counter_consistent (db s') ->
      forall code body s1,
        withdrawApplication sendW req s' = (Json code body, s1) ->
        counter_consistent (db s1))
  /\ (counter_consistent (db s) ->
      forall code body s1,
        respondToApplication sendN valid_status now req s = (Json code body, s1) ->
        counter_consistent (db s1)).
Proof.
  split; [|split]; intros Hinv code body s1 Hrun.
  - pose proof (apply_keeps_counter sendN create req s Hinv) as H.
    rewrite Hrun in H. exact H.
  - pose proof (withdraw_keeps_counter sendW req s' Hinv) as H.
    rewrite Hrun in H. exact H.
  - pose proof (proj1 (respond_keeps_invariants sendN valid_status now req s) Hinv) as H.
    rewrite Hrun in H. exact H.
Qed.

(** X8.  No handler creates a second application of one volunteer for one
    project: if no volunteer has two applications for the same project,
    the same holds after [applyForProject] (which refuses the duplicate),
    after [withdrawApplication] and after [respondToApplication], however
    the call ends. *)
Theorem one_application_per_volunteer_and_project
  {W W' : Type}
  (sendN : Notice -> W -> Result unit * W)
  (create : string -> string -> Request -> DB -> W -> Result CreatedApplication * W)
  (valid_status : string -> bool) (now : string)
  (sendW : Notification -> W' -> Result unit * W')
  (req : Request) (s : @State (W * list Notice)) (s' : @State W') :
  (unique_applications (db s) ->
   unique_applications (db (snd (applyForProject sendN create req s))))
  /\ (unique_applications (db s') ->
      unique_applications (db (snd (withdrawApplication sendW req s'))))
  /\ (unique_applications (db s) ->
      unique_applications (db (snd (respondToApplication sendN valid_status now req s)))).
Proof.
  split; [apply apply_keeps_unique_applications|].
  split; [apply withdraw_keeps_unique_applications|].
  apply respond_keeps_invariants.
Qed.

(** ** The properties on the sample data *)

Import MoreSamples.

Lemma dbA_counter_consistent : counter_consistent dbA.
Proof.
  intros pid p Hlook. cbn in Hlook.
  apply lookup_singleton_Some in Hlook. destruct Hlook as [<- <-].
  vm_compute. reflexivity.
Qed.

Lemma dbA_unique_applications : unique_applications dbA.
Proof.
  intros i j a b Hi Hj _ _. cbn in Hi, Hj.
  apply lookup_singleton_Some in Hi. apply lookup_singleton_Some in Hj.
  destruct Hi as [<- _], Hj as [<- _]. reflexivity.
Qed.

Lemma dbA_no_application_of_u2 (i : string) (a : Application) :
  application_table dbA !! i = Some a ->
  ~ (volunteerId a = "u2" /\ projectId a = "p1").
Proof.
  intros Hi [Hv _]. cbn in Hi.
  apply lookup_singleton_Some in Hi. destruct Hi as [_ <-]. discriminate Hv.
Qed.

Lemma withdraw_deletes_and_decrements_witness :
  exists s',
    withdrawApplication Samples.reliable_send
      (Samples.request "u1" "VOLUNTEER" None "" "a2") Samples.state1
    = (Json 200 {| body_message := "Application withdrawn successfully";
                   body_data := None |}, s')
    /\ application_table (db s') !! "a2" = None.
Proof.
  destruct (withdraw_deletes_and_decrements Samples.reliable_send
              (Samples.request "u1" "VOLUNTEER" None "" "a2") Samples.state1
              Samples.application2 Samples.project2)
    as (s' & n & Hrun & Htbl & _).
  - reflexivity.
  - vm_compute; reflexivity.
  - reflexivity.
  - discriminate.
  - vm_compute; reflexivity.
  - intros n w. exists w. reflexivity.
  - exists s'. split; [exact Hrun|]. rewrite Htbl. apply lookup_delete_eq.
Defined.

Lemma withdraw_changes_only_own_pending_witness :
  role (req_user (Samples.request "u1" "VOLUNTEER" None "" "a2")) = "VOLUNTEER"
  /\ exists application,
      application_table (db Samples.state1) !! "a2" = Some application
      /\ volunteerId application = "u1"
      /\ application_status application <> "ACCEPTED".
Proof.
  apply (withdraw_changes_only_own_pending Samples.reliable_send
           (Samples.request "u1" "VOLUNTEER" None "" "a2") Samples.state1).
  vm_compute. discriminate.
Defined.

Lemma withdraw_not_rolled_back_witness :
  exists e s',
    withdrawApplication Samples.failing_send
      (Samples.request "u1" "VOLUNTEER" None "" "a2") Samples.state1 = (Next e, s')
    /\ application_table (db s') !! "a2" = None
    /\ project_table (db s') !! "p2"
       = Some (decrement_volunteersApplied Samples.project2).
Proof.
  apply (withdraw_not_rolled_back Samples.failing_send
           (Samples.request "u1" "VOLUNTEER" None "" "a2") Samples.state1
           Samples.application2 Samples.project2).
  - reflexivity.
  - vm_compute; reflexivity.
  - reflexivity.
  - discriminate.
  - vm_compute; reflexivity.
  - intros n w. do 2 eexists. reflexivity.
Defined.

Lemma apply_changes_only_when_eligible_witness :
  role (req_user (Samples.request "u2" "VOLUNTEER" None "p1" "")) = "VOLUNTEER"
  /\ (exists project,
        project_table dbA !! "p1" = Some project /\ status project = "ACTIVE")
  /\ (forall i a,
        application_table dbA !! i = Some a ->
        ~ (volunteerId a = "u2" /\ projectId a = "p1")).
Proof.
  apply (apply_changes_only_when_eligible notice_ok create_ok
           (Samples.request "u2" "VOLUNTEER" None "p1" "") wstateA).
  vm_compute. discriminate.
Defined.

Lemma apply_creates_and_increments_witness :
  exists s1 : @State (unit * list Notice),
    fst (applyForProject notice_ok create_ok
           (Samples.request "u2" "VOLUNTEER" None "p1" "") wstateA)
    = Json 201 {| ab_message := "Application submitted successfully";
                  ab_data := {| application_id := "a9"; volunteerId := "u2";
                                projectId := "p1"; application_status := "PENDING";
                                reviewedAt := None |} |}
    /\ project_table (db s1)
       = <["p1" := increment_volunteersApplied Samples.project1]> (project_table dbA).
Proof.
  destruct (apply_creates_and_increments notice_ok create_ok
              (Samples.request "u2" "VOLUNTEER" None "p1" "") wstateA
              Samples.project1
              {| created_id := "a9"; created_status := "PENDING";
                 created_reviewedAt := None;
                 created_firstName := "Aline"; created_lastName := "Uwase" |} tt)
    as (s1 & n & w2 & Hrun & _ & Hprojects & _).
  - reflexivity.
  - vm_compute; reflexivity.
  - reflexivity.
  - exact dbA_no_application_of_u2.
  - reflexivity.
  - vm_compute; reflexivity.
  - intros n w. exists w. reflexivity.
  - exists s1. cbv zeta in Hrun. rewrite Hrun. split; [reflexivity | exact Hprojects].
Defined.

Lemma apply_then_withdraw_restores_witness :
  db (snd (withdrawApplication send_to_log
             (Samples.request "u2" "VOLUNTEER" None "" "a9")
             (snd (applyForProject notice_ok create_ok
                     (Samples.request "u2" "VOLUNTEER" None "p1" "") wstateA))))
  = dbA.
Proof.
  apply (apply_then_withdraw_restores notice_ok create_ok send_to_log
           (Samples.request "u2" "VOLUNTEER" None "p1" "")
           (Samples.request "u2" "VOLUNTEER" None "" "a9")
           wstateA _ 201
           {| ab_message := "Application submitted successfully";
              ab_data := {| application_id := "a9"; volunteerId := "u2";
                            projectId := "p1"; application_status := "PENDING";
                            reviewedAt := None |} |}).
  - vm_compute; reflexivity.
  - discriminate.
  - reflexivity.
  - reflexivity.
Defined.

Lemma applied_counter_is_invariant_witness :
  exists s1 s2 : @State (unit * list Notice),
    fst (applyForProject notice_ok create_ok
           (Samples.request "u2" "VOLUNTEER" None "p1" "") wstateA)
    = Json 201 {| ab_message := "Application submitted successfully";
                  ab_data := {| application_id := "a9"; volunteerId := "u2";
                                projectId := "p1"; application_status := "PENDING";
                                reviewedAt := None |} |}
    /\ s1 = snd (applyForProject notice_ok create_ok
                   (Samples.request "u2" "VOLUNTEER" None "p1" "") wstateA)
    /\ counter_consistent (db s1)
    /\ withdrawApplication send_to_log (Samples.request "u2" "VOLUNTEER" None "" "a9") s1
       = (Json 200 {| body_message := "Application withdrawn successfully";
                      body_data := None |}, s2)
    /\ counter_consistent (db s2).
Proof.
  set (s1 := snd (applyForProject notice_ok create_ok
                    (Samples.request "u2" "VOLUNTEER" None "p1" "") wstateA)).
  set (s2 := snd (withdrawApplication send_to_log
                    (Samples.request "u2" "VOLUNTEER" None "" "a9") s1)).
  assert (H1 : counter_consistent (db s1)).
  { destruct (applied_counter_is_invariant notice_ok create_ok any_status review_time
                send_to_log (Samples.request "u2" "VOLUNTEER" None "p1" "") wstateA s1)
      as (Happly & _ & _).
    apply (Happly dbA_counter_consistent 201
             {| ab_message := "Application submitted successfully";
                ab_data := {| application_id := "a9"; volunteerId := "u2";
                              projectId := "p1"; application_status := "PENDING";
                              reviewedAt := None |} |}).
    vm_compute. reflexivity. }
  exists s1, s2.
  split; [vm_compute; reflexivity|]. split; [reflexivity|]. split; [exact H1|].
  split; [vm_compute; reflexivity|].
  destruct (applied_counter_is_invariant notice_ok create_ok any_status review_time
              send_to_log (Samples.request "u2" "VOLUNTEER" None "" "a9") wstateA s1)
    as (_ & Hwithdraw & _).
  apply (Hwithdraw H1 200
           {| body_message := "Application withdrawn successfully"; body_data := None |}).
  vm_compute. reflexivity.
Defined.

Lemma one_application_per_volunteer_and_project_witness :
  unique_applications
    (db (snd (applyForProject notice_ok create_ok
                (Samples.request "u2" "VOLUNTEER" None "p1" "") wstateA)))
  /\ unique_applications
       (db (snd (respondToApplication notice_ok any_status review_time
                   (request_with_body "org1" "NGO" "" "a1" [("status", "REJECTED")])
                   wstateA))).
Proof.
  destruct (one_application_per_volunteer_and_project notice_ok create_ok any_status
              review_time Samples.reliable_send
              (Samples.request "u2" "VOLUNTEER" None "p1" "") wstateA stateA)
    as (Happly & _ & _).
  destruct (one_application_per_volunteer_and_project notice_ok create_ok any_status
              review_time Samples.reliable_send
              (request_with_body "org1" "NGO" "" "a1" [("status", "REJECTED")])
              wstateA stateA)
    as (_ & _ & Hrespond).
  split; [apply Happly | apply Hrespond]; exact dbA_unique_applications.
Defined.

Lemma respond_changes_only_for_owner_witness :
  (exists application project,
      application_table Samples.db1 !! "a2" = Some application
      /\ project_table Samples.db1 !! projectId application = Some project
      /\ (creatorId project = "org1" \/ "NGO" = "ADMIN"))
  /\ exists detail (s1 : @State (unit * list Notice)),
      respondToApplication notice_ok any_status review_time
        (request_with_body "org1" "NGO" "" "a2" []) wstate1
      = (Next (OtherError detail), s1)
      /\ application_table (db s1) !! "a2"
         = Some {| application_id := "a2"; volunteerId := "u1"; projectId := "p2";
                   application_status := "PENDING"; reviewedAt := Some review_time |}
      /\ world s1 = (tt, []).
Proof.
  split.
  - destruct (proj1 (respond_changes_only_for_owner notice_ok any_status review_time
                       (request_with_body "org1" "NGO" "" "a2" [("status", "REJECTED")])
                       wstate1))
      as (application & project & Hfound & Hproject & Hown & _).
    + vm_compute. discriminate.
    + exists application, project. auto.
  - apply (proj2 (respond_changes_only_for_owner notice_ok any_status review_time
                    (request_with_body "org1" "NGO" "" "a2" []) wstate1)
             Samples.application2 Samples.project2).
    + vm_compute; reflexivity.
    + vm_compute; reflexivity.
    + left. reflexivity.
    + reflexivity.
Defined.

Lemma respond_sets_status_witness :
  exists s1 : @State (unit * list Notice),
    fst (respondToApplication notice_ok any_status review_time
           (request_with_body "org1" "NGO" "" "a2" [("status", "REJECTED")]) wstate1)
    = Json 200 {| ab_message := "Application rejected successfully";
                  ab_data :=
                    {| application_id := "a2"; volunteerId := "u1"; projectId := "p2";
                       application_status := "REJECTED";
                       reviewedAt := Some review_time |} |}
    /\ project_table (db s1) = project_table Samples.db1.
Proof.
  destruct (respond_sets_status notice_ok any_status review_time
              (request_with_body "org1" "NGO" "" "a2" [("status", "REJECTED")]) wstate1
              Samples.application2 Samples.project2 "REJECTED")
    as (s1 & n & w2 & Hrun & _ & Hprojects & _).
  - vm_compute; reflexivity.
  - vm_compute; reflexivity.
  - left. reflexivity.
  - reflexivity.
  - reflexivity.
  - intros n w. exists w. reflexivity.
  - exists s1. cbv zeta in Hrun. rewrite Hrun. split; [reflexivity | exact Hprojects].
Defined.

Lemma accepted_then_withdraw_rejected_witness :
  exists msg c,
    withdrawApplication send_to_log (Samples.request "u1" "VOLUNTEER" None "" "a2")
      (snd (respondToApplication notice_ok any_status review_time
              (request_with_body "org1" "NGO" "" "a2" [("status", "ACCEPTED")]) wstate1))
    = (Next (AppError msg c),
       snd (respondToApplication notice_ok any_status review_time
              (request_with_body "org1" "NGO" "" "a2" [("status", "ACCEPTED")]) wstate1))
    /\ (c = 403 \/ c = 400).
Proof.
  apply (accepted_then_withdraw_rejected notice_ok any_status review_time send_to_log
           (request_with_body "org1" "NGO" "" "a2" [("status", "ACCEPTED")])
           (Samples.request "u1" "VOLUNTEER" None "" "a2")
           wstate1 _ 200
           {| ab_message := "Application accepted successfully";
              ab_data := review (Some "ACCEPTED") review_time Samples.application2 |}).
  - vm_compute; reflexivity.
  - reflexivity.
  - reflexivity.
Defined.

Lemma delete_only_by_owner_witness :
  exists project,
    project_table Samples.db1 !! "p1" = Some project
    /\ (creatorId project = "org1" \/ "NGO" = "ADMIN").
Proof.
  apply (delete_only_by_owner notice_ok delete_ok
           (Samples.request "org1" "NGO" None "p1" "") wstate1).
  vm_compute. discriminate.
Defined.

Lemma delete_notifies_every_applicant_witness :
  exists (s1 : @State (unit * list Notice)),
    deleteProject notice_ok delete_ok (Samples.request "org1" "NGO" None "p1" "") wstate1
    = (Json 200 {| body_message := "Project deleted successfully"; body_data := None |}, s1)
    /\ map (fun n => (notice_userId n, notice_type n)) (snd (world s1))
       = [("u1", "PROJECT_DELETED")].
Proof.
  destruct (delete_notifies_every_applicant notice_ok delete_ok
              (Samples.request "org1" "NGO" None "p1" "") wstate1 Samples.project1
              {| volunteerProfile_table := volunteerProfile_table Samples.db1;
                 project_table := delete "p1" (project_table Samples.db1);
                 application_table := application_table Samples.db1 |} tt)
    as (s1 & entries & Hrun & _ & _ & _ & _).
  - vm_compute; reflexivity.
  - left. reflexivity.
  - reflexivity.
  - intros n w. exists w. reflexivity.
  - exists s1. split; [exact Hrun|].
    assert (E : s1 = snd (deleteProject notice_ok delete_ok
                            (Samples.request "org1" "NGO" None "p1" "") wstate1))
      by (rewrite Hrun; reflexivity).
    rewrite E. vm_compute. reflexivity.
Defined.

Lemma delete_failures_witness :
  exists s1 : @State (unit * list Notice),
    deleteProject notice_ok delete_refused_by_db
      (Samples.request "org1" "NGO" None "p1" "") wstate1
    = (Next (OtherError "Foreign key constraint failed"), s1)
    /\ db s1 = Samples.db1 /\ snd (world s1) = [].
Proof.
  apply (proj1 (delete_failures notice_ok delete_refused_by_db
                  (Samples.request "org1" "NGO" None "p1" "") wstate1 Samples.project1
                  ltac:(vm_compute; reflexivity) (or_introl eq_refl))
           (OtherError "Foreign key constraint failed") tt).
  reflexivity.
Defined.

Lemma stats_are_consistent_witness :
  exists body,
    fst (getProjectStats no_events no_metrics
           (Samples.request "org1" "NGO" None "p1" "") wstateA) = Json 200 body
    /\ (stats_pending body + stats_accepted body + stats_rejected body
        <= stats_total body)%nat
    /\ stats_volunteersApplied body = Z.of_nat (stats_total body).
Proof.
  eexists. split; [vm_compute; reflexivity|].
  destruct (proj2 (stats_are_consistent no_events no_metrics
                     (Samples.request "org1" "NGO" None "p1" "") wstateA)
              200 _ ltac:(vm_compute; reflexivity)) as (Hle & _ & _ & Hcounter).
  split; [exact Hle | exact (Hcounter dbA_counter_consistent)].
Defined.


Lemma createProject_upload_failure_keeps_row_witness :
  exists s',
    createProject Samples.seven_recommender Samples.reliable_send
      failing_upload Samples.sample_create
      (request_with_files "org1" "NGO" ["a.png"]) Samples.state1
    = (Next (OtherError "upload failed"), s')
    /\ project_table (db s') !! "p4" = Some Samples.new_project
    /\ trace s' = [].
Proof.
  apply (createProject_upload_failure_keeps_row Samples.seven_recommender
           Samples.reliable_send failing_upload Samples.sample_create
           (request_with_files "org1" "NGO" ["a.png"]) Samples.state1
           Samples.new_project tt tt "a.png" [] (OtherError "upload failed")).
  - reflexivity.
  - reflexivity.
  - reflexivity.
Defined.

Lemma service_never_asked_for_zero_witness :
  getMatches Samples.sample_findMatches Samples.sample_reason Samples.sample_now
    Samples.db1 (Samples.request "u1" "VOLUNTEER" (Some "0") "" "")
  = getMatches
      (fun d i limit =>
         if Js.ToBoolean limit then Samples.sample_findMatches d i limit else Ok [])
      Samples.sample_reason Samples.sample_now
      Samples.db1 (Samples.request "u1" "VOLUNTEER" (Some "0") "" "").
Proof.
  apply (service_never_asked_for_zero
           Samples.sample_findMatches
           (fun d i limit =>
              if Js.ToBoolean limit then Samples.sample_findMatches d i limit else Ok [])
           Samples.sample_recommendVolunteers Samples.sample_recommendVolunteers
           Samples.sample_reason Samples.sample_now Samples.db1
           (Samples.request "u1" "VOLUNTEER" (Some "0") "" "")).
  - intros d i limit H. rewrite H. reflexivity.
  - intros d i limit H. reflexivity.
Defined.

Lemma results_only_for_entitled_callers_witness :
  exists body,
    getMatches Samples.sample_findMatches Samples.sample_reason Samples.sample_now
      Samples.db1 (Samples.request "u1" "VOLUNTEER" None "" "") = Json 200 body
    /\ role (req_user (Samples.request "u1" "VOLUNTEER" None "" "")) = "VOLUNTEER"
    /\ matches_volunteerId body = "u1".
Proof.
  eexists.
  assert (H : getMatches Samples.sample_findMatches Samples.sample_reason
                Samples.sample_now Samples.db1
                (Samples.request "u1" "VOLUNTEER" None "" "") = Json 200 _)
    by (vm_compute; reflexivity).
  destruct (proj1 (results_only_for_entitled_callers
                     Samples.sample_findMatches Samples.sample_recommendVolunteers
                     Samples.sample_reason Samples.sample_now Samples.db1
                     (Samples.request "u1" "VOLUNTEER" None "" "")) _ _ H)
    as (_ & Hrole & _ & Hid).
  split; [exact H | split; [exact Hrole | exact Hid]].
Defined.

Lemma round_hundredths_order_and_range_witness :
  Js.le (round_hundredths (1 # 3)) (round_hundredths (1 # 2))
  /\ (exists v, round_hundredths (1 # 3) = Js.Finite v /\ (0 <= v <= 100)%Q)
  /\ (exists v, Js.binary64 (inject_Z 268 / 100) = Js.Finite v
                /\ round_hundredths v = Js.Finite v).
Proof.
  destruct (round_hundredths_order_and_range (1 # 3) (1 # 2) 268)
    as (Hmono & Hrange & Hfixed).
  split; [apply Hmono; discriminate|].
  split; [apply Hrange; split; discriminate | apply Hfixed; lia].
Defined.

Lemma preferences_replaced_witness :
  exists s',
    updatePreferences sample_profile_id (Samples.request "u1" "VOLUNTEER" None "" "")
      (Some submitted_preferences) pstate1
    = (Json 200 {| pb_message := "Preferences updated successfully";
                   preferencesUpdated := 2 |}, s')
    /\ List.filter (belongs_to "profile-u1") (world s')
       = [ {| pref_volunteerId := "profile-u1"; pref_category := "category";
              pref_value := "healthcare"; pref_weight := 1 |};
           {| pref_volunteerId := "profile-u1"; pref_category := "schedule";
              pref_value := "weekend"; pref_weight := 1 |} ].
Proof.
  destruct (preferences_replaced sample_profile_id
              (Samples.request "u1" "VOLUNTEER" None "" "") submitted_preferences pstate1
              Samples.volunteer1)
    as (s' & Hrun & Hrows & _).
  - reflexivity.
  - vm_compute; reflexivity.
  - exists s'. split; [exact Hrun | exact Hrows].
Defined.

Lemma preferences_lost_without_array_witness :
  exists detail s',
    updatePreferences sample_profile_id (Samples.request "u1" "VOLUNTEER" None "" "")
      None pstate1 = (Next (OtherError detail), s')
    /\ List.filter (belongs_to "profile-u1") (world s') = []
    /\ List.filter (belongs_to "profile-u1") (world pstate1) <> [].
Proof.
  destruct (preferences_lost_without_array sample_profile_id
              (Samples.request "u1" "VOLUNTEER" None "" "") pstate1 Samples.volunteer1)
    as (detail & s' & Hrun & Hgone & _).
  - reflexivity.
  - vm_compute; reflexivity.
  - exists detail, s'. split; [exact Hrun|]. split; [exact Hgone|].
    vm_compute. discriminate.
Defined.

Lemma handleChat_answers_witness :
  handleChat echo_api (Some "") stateA = (Ok (400, ChatError "Message is required."), stateA)
  /\ handleChat echo_api (Some "hi") stateA = (Ok (200, Reply "You said: hi"), stateA)
  /\ handleChat silent_api (Some "hi") stateA
     = (Ok (200, Reply "Sorry, I couldn't generate a reply."), stateA)
  /\ handleChat failing_api (Some "hi") stateA
     = (Ok (500, ChatError "Something went wrong."),
        {| db := dbA; world := tt;
           trace := [ConsoleError "Chat error:"
                       (OtherError "Request failed with status code 503")] |}).
Proof.
  split; [apply (proj1 (handleChat_answers echo_api (Some "") stateA)); reflexivity|].
  split.
  { apply (proj1 (proj2 (handleChat_answers echo_api (Some "hi") stateA)
                    "hi" eq_refl ltac:(discriminate)) "You said: hi" tt);
      [reflexivity | discriminate]. }
  split.
  { apply (proj1 (proj2 (proj2 (handleChat_answers silent_api (Some "hi") stateA)
                           "hi" eq_refl ltac:(discriminate))) None tt);
      reflexivity. }
  apply (proj2 (proj2 (proj2 (handleChat_answers failing_api (Some "hi") stateA)
                         "hi" eq_refl ltac:(discriminate)))
           (OtherError "Request failed with status code 503") tt).
  reflexivity.
Defined.

Lemma login_checks_password_witness :
  exists body user,
    fst (login sample_compare sample_jwt None
           (login_request "alice@example.org" "secret") astate1) = Json 200 body
    /\ auth_user body = Some (user_view user)
    /\ u_email user = "alice@example.org"
    /\ fst (login sample_compare sample_jwt None
              (login_request "alice@example.org" "wrong") astate1)
       = Next (AppError "Invalid credentials" 401)
    /\ fst (login sample_compare sample_jwt None
              (login_request "nobody@example.org" "secret") astate1)
       = Next (AppError "Invalid credentials" 401).
Proof.
  eexists.
  assert (H : fst (login sample_compare sample_jwt None
                     (login_request "alice@example.org" "secret") astate1) = Json 200 _)
    by (vm_compute; reflexivity).
  destruct (proj1 (proj2 (login_checks_password sample_compare sample_jwt None
                            (login_request "alice@example.org" "secret") astate1)) _ _ H)
    as (_ & user & email & password & Hemail & _ & _ & Huser & _ & Hview).
  exists user. split; [exact H|]. split; [exact Hview|].
  split; [injection Hemail as <-; exact Huser|].
  split.
  - destruct (fst (login sample_compare sample_jwt None
                     (login_request "alice@example.org" "wrong") astate1)) as [c b|e] eqn:E.
    + vm_compute in E. discriminate E.
    + f_equal.
      exact (proj2 (proj2 (login_checks_password sample_compare sample_jwt None
                             (login_request "alice@example.org" "wrong") astate1))
               "alice@example.org" "wrong" e eq_refl eq_refl E).
  - destruct (fst (login sample_compare sample_jwt None
                     (login_request "nobody@example.org" "secret") astate1))
      as [c b|e] eqn:E.
    + vm_compute in E. discriminate E.
    + f_equal.
      exact (proj2 (proj2 (login_checks_password sample_compare sample_jwt None
                             (login_request "nobody@example.org" "secret") astate1))
               "nobody@example.org" "secret" e eq_refl eq_refl E).
Defined.

Lemma register_validates_and_keeps_emails_unique_witness :
  register sample_hash sample_random sample_jwt None (Some "https://rc.example")
    sample_user_create (register_request "bob@example.org" "" "Bob" "K") astate1
  = (Next (AppError "Email, password, firstname, and lastname are required" 400), astate1)
  /\ unique_emails
       (users (world (snd (register sample_hash sample_random sample_jwt None
                             (Some "https://rc.example") sample_user_create
                             (register_request "bob@example.org" "pw" "Bob" "K")
                             astate1)))).
Proof.
  split.
  - apply (register_validates_and_keeps_emails_unique sample_hash sample_random
             sample_jwt None (Some "https://rc.example") sample_user_create
             (register_request "bob@example.org" "" "Bob" "K") astate1).
    right. left. reflexivity.
  - apply (register_validates_and_keeps_emails_unique sample_hash sample_random
             sample_jwt None (Some "https://rc.example") sample_user_create
             (register_request "bob@example.org" "pw" "Bob" "K") astate1).
    intros i j a b Hi Hj _. cbn in Hi, Hj.
    apply lookup_singleton_Some in Hi. apply lookup_singleton_Some in Hj.
    destruct Hi as [<- _], Hj as [<- _]. reflexivity.
Defined.

Lemma register_mails_the_stored_token_witness :
  exists user token mail,
    users (world (snd (register sample_hash sample_random sample_jwt None
                         (Some "https://rc.example") sample_user_create
                         (register_request "bob@example.org" "pw" "Bob" "K") astate1)))
    !! u_id user = Some user
    /\ u_verificationToken user = Some token
    /\ email_to mail = u_email user
    /\ email_verificationUrl mail = "https://rc.example/verify-email?token=" +:+ token.
Proof.
  destruct (proj1 (register_mails_the_stored_token sample_hash sample_random sample_jwt
                     None (Some "https://rc.example") sample_user_create
                     (register_request "bob@example.org" "pw" "Bob" "K") astate1)
              201
              {| auth_message :=
                   Some "User registered successfully. Please check your email to verify your account.";
                 auth_token := Some "jwt:7:VOLUNTEER";
                 auth_user :=
                   Some {| view_id := "7"; view_email := "bob@example.org";
                           view_firstname := "Bob"; view_lastname := "K";
                           view_role := "VOLUNTEER"; view_isVerified := false |} |}
              ltac:(vm_compute; reflexivity))
    as (_ & user & token & mail & password & w & w' & Hstored & _ & _ & _ & _
        & Htoken & _ & Hto & Hurl).
  exists user, token, mail.
  split; [exact Hstored|]. split; [exact Htoken|]. split; [exact Hto | exact Hurl].
Defined.

Lemma alice_well_keyed : well_keyed (users (world astate1)).
Proof.
  intros i a Hi. cbn in Hi. apply lookup_singleton_Some in Hi.
  destruct Hi as [<- <-]. reflexivity.
Qed.

Lemma bob_well_keyed : well_keyed (users (world astate2)).
Proof.
  intros i a Hi. cbn in Hi. apply lookup_singleton_Some in Hi.
  destruct Hi as [<- <-]. reflexivity.
Qed.

Lemma verifyEmail_works_once_witness :
  (exists row s1,
      verifyEmail no_unfiltered (token_request "abc123") astate1
      = (Json 200 {| auth_message := Some "Email verified successfully";
                     auth_token := None; auth_user := None |}, s1)
      /\ users (world s1) = <[u_id row := mark_verified row]> (users (world astate1))
      /\ u_verificationToken row = Some "abc123"
      /\ verifyEmail no_unfiltered (token_request "abc123") s1
         = (Next (AppError "Invalid or expired verification token" 400), s1))
  /\ exists s2,
      verifyEmail first_row (auth_request "" "") astate2
      = (Json 200 {| auth_message := Some "Email verified successfully";
                     auth_token := None; auth_user := None |}, s2)
      /\ users (world s2) = <["2" := mark_verified bob]> (users (world astate2))
      /\ u_verificationToken bob = None.
Proof.
  split.
  - destruct (proj1 (verifyEmail_works_once no_unfiltered (token_request "abc123") astate1
                       alice_well_keyed)
                200
                {| auth_message := Some "Email verified successfully"; auth_token := None;
                   auth_user := None |}
                (snd (verifyEmail no_unfiltered (token_request "abc123") astate1))
                ltac:(vm_compute; reflexivity))
      as (row & Hstored & Husers & Htoken & _).
    destruct (Htoken "abc123" eq_refl) as [Hheld Hagain].
    exists row, (snd (verifyEmail no_unfiltered (token_request "abc123") astate1)).
    split; [vm_compute; reflexivity|]. split; [exact Husers|]. split; [exact Hheld|].
    apply Hagain. intros i u Hi _. cbn in Hi, Hstored.
    apply lookup_singleton_Some in Hi. apply lookup_singleton_Some in Hstored.
    destruct Hi as [<- _], Hstored as [<- _]. reflexivity.
  - destruct (proj2 (verifyEmail_works_once first_row (auth_request "" "") astate2
                       bob_well_keyed)
                eq_refl bob bob ltac:(vm_compute; reflexivity)
                ltac:(vm_compute; reflexivity))
      as (s2 & Hrun & Husers).
    exists s2. split; [exact Hrun|]. split; [exact Husers | reflexivity].
Defined.

Lemma account_changes_need_password_witness :
  (exists user password,
      users (world astate1) !! "1" = Some user
      /\ body_password (password_request "1" "secret") = Some password
      /\ sample_compare password (u_password user) = true)
  /\ getMe (password_request "1" "secret")
       (snd (deleteAccount sample_compare never_refused
               (password_request "1" "secret") astate1))
     = (Next (AppError "User not found" 404),
        snd (deleteAccount sample_compare never_refused
               (password_request "1" "secret") astate1)).
Proof.
  destruct (account_changes_need_password sample_hash sample_compare never_refused
              (password_request "1" "secret") astate1) as (_ & Hdelete & Hgone).
  split.
  - apply Hdelete. vm_compute. discriminate.
  - apply (Hgone 200
             {| auth_message := Some "Account deleted successfully"; auth_token := None;
                auth_user := None |}).
    vm_compute; reflexivity.
Defined.
